(** * A shallow embedding of the V4L2 capture engine

    The development follows the layout of the repository:
    - [definitions.hpp]: the format/geometry model (packed pixel dimensions,
      four-character codes, the configuration and frame-view records);
    - [v4l2.hpp] / [v4l2.cpp]: the [V4L2Camera] engine, whose methods are
      embedded as state-passing functions over the object and a world that
      holds the kernel, the trace of system calls and the console.

    Unsigned 32-bit and 64-bit integers are integers of [Z] together with
    their wrap-around; pointers are integers of [Z] ([nullptr] is [0]). *)

From Stdlib Require Import ZArith Lia List String Ascii Bool.
From stdpp Require Import base list.
Import ListNotations.

Local Open Scope Z_scope.

(** ** Fixed-width arithmetic *)

Definition u32 (z : Z) : Z := z mod 2 ^ 32.
Definition u64 (z : Z) : Z := z mod 2 ^ 64.

(** ** definitions.hpp *)

Inductive FPS := FPS_15 | FPS_30 | FPS_60.

Definition FPS_value (f : FPS) : Z :=
  match f with FPS_15 => 15 | FPS_30 => 30 | FPS_60 => 60 end.

(** [(width << 16) | height] on [uint32_t]: the shift wraps at 32 bits. *)
Definition dimensions_compress (width height : Z) : Z :=
  Z.lor (u32 (Z.shiftl width 16)) height.

(** [{dimensions >> 16, dimensions & 0xFFFF}]. *)
Definition dimensions_decompress (dimensions : Z) : Z * Z :=
  (Z.shiftr dimensions 16, Z.land dimensions 0xFFFF).

Definition dimensions_size (dimensions : Z * Z) : Z :=
  u32 (fst dimensions * snd dimensions).

Inductive PixelDimension := DIM_HD | DIM_FHD | DIM_2K | DIM_4K.

(** The width/height pair written in each enumerator's initialiser. *)
Definition PixelDimension_extent (d : PixelDimension) : Z * Z :=
  match d with
  | DIM_HD => (1280, 720)
  | DIM_FHD => (1920, 1080)
  | DIM_2K => (2048, 1080)
  | DIM_4K => (3840, 2160)
  end.

(** [static_cast<uint32_t>(d)]: every enumerator is initialised with
    [dimensions_compress] of its pair. *)
Definition PixelDimension_value (d : PixelDimension) : Z :=
  dimensions_compress (fst (PixelDimension_extent d))
                      (snd (PixelDimension_extent d)).

(** [static_cast<std::uint32_t>(c)] for the 7-bit characters the codes are
    made of. *)
Definition char_code (c : ascii) : Z := Z.of_N (N_of_ascii c).

Definition make_fourcc (a b c d : ascii) : Z :=
  Z.lor (Z.lor (Z.lor (char_code a)
                      (u32 (Z.shiftl (char_code b) 8)))
               (u32 (Z.shiftl (char_code c) 16)))
        (u32 (Z.shiftl (char_code d) 24)).

(** [enum class PixelFormat : std::uint32_t].  The engine casts arbitrary
    32-bit values into it and validates the stored value at run time, so the
    type is modelled by its underlying integer. *)
Definition PixelFormat := Z.
Definition MJPG : PixelFormat := make_fourcc "M" "J" "P" "G".
Definition YUYV : PixelFormat := make_fourcc "Y" "U" "Y" "V".

Record V4l2Config := {
  device_path_ : string;
  dimension_ : PixelDimension;
  format_ : PixelFormat;
  fps_num_ : FPS;
  buffer_count_ : Z
}.

Definition V4l2Config_default : V4l2Config :=
  {| device_path_ := "/dev/video0"; dimension_ := DIM_4K; format_ := MJPG;
     fps_num_ := FPS_30; buffer_count_ := 4 |}.

Record V4lCaps := { driver : string; card : string }.

(** [std::span<std::byte const>]: a base address and a length in bytes. *)
Record span := { span_data : Z; span_size : Z }.

Record FrameView := {
  timestamp_monotonic_us : Z;
  v4l2_timestamp_us : Z;
  image : span;
  width : Z;
  height : Z;
  format : PixelFormat
}.

Record MappedBuffer := { data : Z; size : Z }.

Definition nullptr : Z := 0.
(** [MAP_FAILED] is [(void * ) -1]. *)
Definition MAP_FAILED : Z := -1.

(** ** The kernel interface (linux/videodev2.h, fcntl.h, sys/mman.h)

    The structures carry the fields the engine writes or reads.  Constants
    are those of the Linux ABI.  Fields are integers of [Z]; the engine reads
    an unsigned 32-bit field [f] of a reply as [u32 f], which is [f] itself
    for every value such a field can hold. *)

Definition V4L2_BUF_TYPE_VIDEO_CAPTURE : Z := 1.
Definition V4L2_MEMORY_MMAP : Z := 1.
Definition V4L2_FIELD_NONE : Z := 1.
Definition V4L2_COLORSPACE_JPEG : Z := 7.
Definition V4L2_CAP_VIDEO_CAPTURE : Z := 0x00000001.
Definition V4L2_CAP_STREAMING : Z := 0x04000000.
Definition V4L2_PIX_FMT_MJPEG : Z := make_fourcc "M" "J" "P" "G".
Definition V4L2_PIX_FMT_YUYV : Z := make_fourcc "Y" "U" "Y" "V".
Definition O_RDWR : Z := 2.
Definition PROT_READ : Z := 1.
Definition PROT_WRITE : Z := 2.
Definition MAP_SHARED : Z := 1.
Definition EBUSY : Z := 16.

Record v4l2_capability := {
  cap_driver : string;
  cap_card : string;
  capabilities : Z
}.

Record v4l2_format := {
  fmt_type : Z;
  pix_width : Z;
  pix_height : Z;
  pix_pixelformat : Z;
  pix_field : Z;
  pix_bytesperline : Z;
  pix_sizeimage : Z;
  pix_colorspace : Z
}.

Record v4l2_streamparm := {
  parm_type : Z;
  timeperframe_numerator : Z;
  timeperframe_denominator : Z
}.

Record v4l2_requestbuffers := {
  req_count : Z;
  req_type : Z;
  req_memory : Z
}.

Record v4l2_buffer := {
  buf_index : Z;
  buf_type : Z;
  buf_bytesused : Z;
  buf_tv_sec : Z;
  buf_tv_usec : Z;
  buf_memory : Z;
  buf_offset : Z;
  buf_length : Z
}.

(** [v4l2_capability cap{}]. *)
Definition v4l2_capability_zero : v4l2_capability :=
  {| cap_driver := EmptyString; cap_card := EmptyString; capabilities := 0 |}.

(** [v4l2_buffer buf{}; buf.type = V4L2_BUF_TYPE_VIDEO_CAPTURE;
    buf.memory = V4L2_MEMORY_MMAP; buf.index = index;], the structure every
    buffer call of the engine starts from ([index] stays [0] for a dequeue). *)
Definition capture_buffer (index : Z) : v4l2_buffer :=
  {| buf_index := index;
     buf_type := V4L2_BUF_TYPE_VIDEO_CAPTURE;
     buf_bytesused := 0; buf_tv_sec := 0; buf_tv_usec := 0;
     buf_memory := V4L2_MEMORY_MMAP;
     buf_offset := 0; buf_length := 0 |}.

(** The calls the engine makes, indexed by what they give back.  An [ioctl]
    gives back its return code and the structure as the driver left it. *)
Inductive syscall : Type -> Type :=
| sys_open (path : string) (flags : Z) : syscall Z
| sys_close (fd : Z) : syscall Z
| sys_mmap (addr length prot flags fd offset : Z) : syscall Z
| sys_munmap (addr length : Z) : syscall Z
| ioctl_QUERYCAP (fd : Z) (cap : v4l2_capability) : syscall (Z * v4l2_capability)
| ioctl_S_FMT (fd : Z) (fmt : v4l2_format) : syscall (Z * v4l2_format)
| ioctl_G_FMT (fd : Z) (fmt : v4l2_format) : syscall (Z * v4l2_format)
| ioctl_S_PARM (fd : Z) (parm : v4l2_streamparm) : syscall (Z * v4l2_streamparm)
| ioctl_REQBUFS (fd : Z) (req : v4l2_requestbuffers) : syscall (Z * v4l2_requestbuffers)
| ioctl_QUERYBUF (fd : Z) (buf : v4l2_buffer) : syscall (Z * v4l2_buffer)
| ioctl_QBUF (fd : Z) (buf : v4l2_buffer) : syscall (Z * v4l2_buffer)
| ioctl_DQBUF (fd : Z) (buf : v4l2_buffer) : syscall (Z * v4l2_buffer)
| ioctl_STREAMON (fd : Z) (type : Z) : syscall Z
| ioctl_STREAMOFF (fd : Z) (type : Z) : syscall Z
| steady_clock_now_us : syscall Z.

(** One entry of the trace: a call and what it gave back. *)
Inductive event := Ev (R : Type) (call : syscall R) (reply : R).
Arguments Ev {R} call reply.

(** The kernel (and the devices behind it) is any state machine that
    answers the calls; [errno] is read off its state. *)
Class Kernel (K : Type) := {
  sys : forall R, syscall R -> K -> R * K;
  errno : K -> Z
}.
Arguments sys {K _ R} call k.

(** What the engine prints. *)
Inductive message :=
| msg_device_already_in_use (path : string)
| msg_device_busy_during_S_FMT (path : string)
| msg_negotiated_pixel_format (fourcc : string)
| msg_release_frame_without_index.

Inductive output := to_stdout (m : message) | to_stderr (m : message).

(** What the engine throws: the exception class and the formatted text,
    kept as the format and its arguments. *)
Inductive failure :=
| Failed_to_open_device (err : Z)
| QUERYCAP_failed (err : Z)
| No_video_capture
| No_streaming_io
| Unsupported_pixel_format (fourcc : Z)
| S_FMT_failed (err : Z)
| Driver_rejected_pixel_format (requested got : Z)
| G_FMT_failed
| Driver_format_mismatch (got expected : Z)
| S_PARM_failed (err : Z)
| REQBUFS_failed (err : Z)
| QUERYBUF_failed (index err : Z)
| mmap_failed (index err : Z)
| QBUF_failed_at (index err : Z)
| STREAMON_failed
| DQBUF_failed
| DQBUF_invalid_index (index : Z)
| QBUF_failed_for (index : Z)
| STREAMOFF_failed.

Inductive exception :=
| runtime_error (what : failure)
| invalid_argument (what : failure).

(** ** v4l2.hpp: the engine's members *)

Record V4L2Camera := {
  config_ : V4l2Config;
  fd_ : Z;
  configured_ : bool;
  last_buf_index_ : option Z;
  buffers_ : list MappedBuffer;
  caps_ : V4lCaps
}.

(** How a call ends: normally, by an exception, or in undefined behaviour
    (an unchecked vector access out of range). *)
Inductive outcome (A : Type) :=
| Return (a : A)
| Throw (e : exception)
| Undefined.
Arguments Return {A} a.
Arguments Throw {A} e.
Arguments Undefined {A}.

Section Engine.

Context {K : Type} `{Kernel K}.

Record world := {
  kernel : K;
  trace : list event;
  console : list output
}.

(** A member function: it reads and writes the object and the world. *)
Definition action (A : Type) : Type :=
  V4L2Camera -> world -> outcome A * V4L2Camera * world.

Definition ret {A} (a : A) : action A := fun c w => (Return a, c, w).

Definition bind {A B} (m : action A) (k : A -> action B) : action B :=
  fun c w =>
    match m c w with
    | (Return a, c', w') => k a c' w'
    | (Throw e, c', w') => (Throw e, c', w')
    | (Undefined, c', w') => (Undefined, c', w')
    end.

Definition throw {A} (e : exception) : action A := fun c w => (Throw e, c, w).
Definition undefined {A} : action A := fun c w => (Undefined, c, w).

Definition member {A} (f : V4L2Camera -> A) : action A :=
  fun c w => (Return (f c), c, w).

Definition assign (f : V4L2Camera -> V4L2Camera) : action unit :=
  fun c w => (Return tt, f c, w).

(** The world after the kernel answered the call [s] with [r] and moved
    to [k']: the trace grows by one entry. *)
Definition after_call {R} (s : syscall R) (r : R) (k' : K) (w : world) : world :=
  {| kernel := k'; trace := trace w ++ [Ev s r]; console := console w |}.

Definition after_print (o : output) (w : world) : world :=
  {| kernel := kernel w; trace := trace w; console := console w ++ [o] |}.

Definition call {R} (s : syscall R) : action R :=
  fun c w =>
    let '(r, k') := sys s (kernel w) in
    (Return r, c, after_call s r k' w).

Definition read_errno : action Z :=
  fun c w => (Return (errno (kernel w)), c, w).

Definition print (o : output) : action unit :=
  fun c w => (Return tt, c, after_print o w).

Declare Scope action_scope.
Delimit Scope action_scope with action.
Local Notation "x <- m ;; k" := (bind m (fun x => k))
  (at level 100, m at next level, right associativity) : action_scope.
Local Notation "m ;; k" := (bind m (fun _ => k))
  (at level 100, right associativity) : action_scope.
Local Open Scope action_scope.

Definition when (b : bool) (m : action unit) : action unit :=
  if b then m else ret tt.

(** [for (std::size_t i = first; i < first + n; ++i) body(i)]. *)
Fixpoint for_each_index (n : nat) (i : Z) (body : Z -> action unit) : action unit :=
  match n with
  | O => ret tt
  | S n' => body i ;; for_each_index n' (i + 1) body
  end.

Definition set_fd (fd : Z) (c : V4L2Camera) : V4L2Camera :=
  {| config_ := config_ c; fd_ := fd; configured_ := configured_ c;
     last_buf_index_ := last_buf_index_ c; buffers_ := buffers_ c;
     caps_ := caps_ c |}.

Definition set_configured (b : bool) (c : V4L2Camera) : V4L2Camera :=
  {| config_ := config_ c; fd_ := fd_ c; configured_ := b;
     last_buf_index_ := last_buf_index_ c; buffers_ := buffers_ c;
     caps_ := caps_ c |}.

Definition set_last_buf_index (i : option Z) (c : V4L2Camera) : V4L2Camera :=
  {| config_ := config_ c; fd_ := fd_ c; configured_ := configured_ c;
     last_buf_index_ := i; buffers_ := buffers_ c; caps_ := caps_ c |}.

Definition set_buffers (bs : list MappedBuffer) (c : V4L2Camera) : V4L2Camera :=
  {| config_ := config_ c; fd_ := fd_ c; configured_ := configured_ c;
     last_buf_index_ := last_buf_index_ c; buffers_ := bs; caps_ := caps_ c |}.

Definition set_caps (caps : V4lCaps) (c : V4L2Camera) : V4L2Camera :=
  {| config_ := config_ c; fd_ := fd_ c; configured_ := configured_ c;
     last_buf_index_ := last_buf_index_ c; buffers_ := buffers_ c;
     caps_ := caps |}.

Definition set_config (cfg : V4l2Config) (c : V4L2Camera) : V4L2Camera :=
  {| config_ := cfg; fd_ := fd_ c; configured_ := configured_ c;
     last_buf_index_ := last_buf_index_ c; buffers_ := buffers_ c;
     caps_ := caps_ c |}.

Definition with_format (f : PixelFormat) (cfg : V4l2Config) : V4l2Config :=
  {| device_path_ := device_path_ cfg; dimension_ := dimension_ cfg;
     format_ := f; fps_num_ := fps_num_ cfg;
     buffer_count_ := buffer_count_ cfg |}.

(** [buffers_[i] = b]: [std::vector::operator[]] does not check the
    index; out of range is undefined behaviour. *)
Definition store_buffer (i : Z) (b : MappedBuffer) : action unit :=
  bufs <- member buffers_ ;;
  if decide (0 <= i < Z.of_nat (length bufs))
  then assign (set_buffers (<[Z.to_nat i := b]> bufs))
  else undefined.

(** *** The constructor *)

Definition V4L2Camera_new (config : V4l2Config) : V4L2Camera :=
  {| config_ := config;
     fd_ := -1;
     configured_ := false;
     last_buf_index_ := None;
     buffers_ := replicate (Z.to_nat (buffer_count_ config))
                           {| data := nullptr; size := 0 |};
     caps_ := {| driver := EmptyString; card := EmptyString |} |}.

(** *** open_device *)

Definition open_device : action unit :=
  path <- member (fun c => device_path_ (config_ c)) ;;
  fd <- call (sys_open path O_RDWR) ;;
  assign (set_fd fd) ;;
  if fd <? 0 then
    e <- read_errno ;;
    when (e =? EBUSY) (print (to_stderr (msg_device_already_in_use path))) ;;
    throw (runtime_error (Failed_to_open_device e))
  else
    r <- call (ioctl_QUERYCAP fd v4l2_capability_zero) ;;
    let '(rc, cap) := r in
    if rc <? 0 then
      e <- read_errno ;;
      throw (runtime_error (QUERYCAP_failed e))
    else if Z.land (u32 (capabilities cap)) V4L2_CAP_VIDEO_CAPTURE =? 0 then
      throw (runtime_error No_video_capture)
    else if Z.land (u32 (capabilities cap)) V4L2_CAP_STREAMING =? 0 then
      throw (runtime_error No_streaming_io)
    else
      assign (set_caps {| driver := cap_driver cap; card := cap_card cap |}).

(** *** fourcc_str

    The four bytes of the code, read back as a C string (it ends at the
    first zero byte). *)
Definition fourcc_byte (fourcc : Z) (shift : Z) : ascii :=
  ascii_of_N (Z.to_N (Z.land (Z.shiftr fourcc shift) 0xFF)).

Fixpoint c_string (bytes : list ascii) : string :=
  match bytes with
  | [] => EmptyString
  | b :: rest =>
      if Ascii.eqb b zero then EmptyString else String b (c_string rest)
  end.

Definition fourcc_str (fourcc : Z) : string :=
  c_string [fourcc_byte fourcc 0; fourcc_byte fourcc 8;
            fourcc_byte fourcc 16; fourcc_byte fourcc 24].

(** *** configure *)

(** The body of the "map buffers" loop. *)
Definition map_buffer (fd : Z) (i : Z) : action unit :=
  let buf := capture_buffer (u32 i) in
  r <- call (ioctl_QUERYBUF fd buf) ;;
  let '(rc, buf) := r in
  if rc <? 0 then
    e <- read_errno ;;
    throw (runtime_error (QUERYBUF_failed i e))
  else
    mapped <- call (sys_mmap nullptr (u32 (buf_length buf))
                             (Z.lor PROT_READ PROT_WRITE) MAP_SHARED
                             fd (u32 (buf_offset buf))) ;;
    if mapped =? MAP_FAILED then
      e <- read_errno ;;
      throw (runtime_error (mmap_failed i e))
    else
      store_buffer i {| data := mapped; size := u32 (buf_length buf) |}.

(** The body of the "enqueue" loop. *)
Definition enqueue_buffer (fd : Z) (i : Z) : action unit :=
  let buf := capture_buffer (u32 i) in
  r <- call (ioctl_QBUF fd buf) ;;
  if fst r <? 0 then
    e <- read_errno ;;
    throw (runtime_error (QBUF_failed_at i e))
  else ret tt.

Definition configure : action unit :=
  fd <- member fd_ ;;
  configured <- member configured_ ;;
  if (fd <? 0) || configured then ret tt
  else
    cfg <- member config_ ;;
    let '(width, height) := dimensions_decompress (PixelDimension_value (dimension_ cfg)) in
    (* validate format up front *)
    let requested_fourcc := u32 (format_ cfg) in
    if negb (requested_fourcc =? V4L2_PIX_FMT_MJPEG) && negb (requested_fourcc =? V4L2_PIX_FMT_YUYV)
    then throw (invalid_argument (Unsupported_pixel_format requested_fourcc))
    else
      let fmt :=
        {| fmt_type := V4L2_BUF_TYPE_VIDEO_CAPTURE;
           pix_width := width;
           pix_height := height;
           pix_pixelformat := requested_fourcc;
           pix_field := V4L2_FIELD_NONE;
           pix_bytesperline := 0;
           pix_sizeimage := 0;
           pix_colorspace := V4L2_COLORSPACE_JPEG |} in
      r <- call (ioctl_S_FMT fd fmt) ;;
      let '(rc, fmt) := r in
      if rc <? 0 then
        e <- read_errno ;;
        when (e =? EBUSY) (print (to_stderr (msg_device_busy_during_S_FMT (device_path_ cfg)))) ;;
        throw (runtime_error (S_FMT_failed e))
      else
        (* validate driver didn't mess us *)
        if negb (u32 (pix_pixelformat fmt) =? requested_fourcc)
        then throw (runtime_error (Driver_rejected_pixel_format
                                     requested_fourcc (u32 (pix_pixelformat fmt))))
        else
          print (to_stdout (msg_negotiated_pixel_format (fourcc_str (u32 (pix_pixelformat fmt))))) ;;
          (* update config with the confirmed format *)
          assign (fun c => set_config (with_format (u32 (pix_pixelformat fmt)) (config_ c)) c) ;;
          (* verify format actually got set *)
          let check_fmt :=
            {| fmt_type := V4L2_BUF_TYPE_VIDEO_CAPTURE;
               pix_width := 0; pix_height := 0; pix_pixelformat := 0;
               pix_field := 0; pix_bytesperline := 0; pix_sizeimage := 0;
               pix_colorspace := 0 |} in
          r <- call (ioctl_G_FMT fd check_fmt) ;;
          let '(rc, check_fmt) := r in
          if rc <? 0 then throw (runtime_error G_FMT_failed)
          else
            confirmed <- member (fun c => u32 (format_ (config_ c))) ;;
            if negb (u32 (pix_pixelformat check_fmt) =? confirmed)
            then throw (runtime_error (Driver_format_mismatch
                                         (u32 (pix_pixelformat check_fmt)) confirmed))
            else
              (* denominator is the FPS *)
              fps <- member (fun c => FPS_value (fps_num_ (config_ c))) ;;
              let parm :=
                {| parm_type := V4L2_BUF_TYPE_VIDEO_CAPTURE;
                   timeperframe_numerator := 1;
                   timeperframe_denominator := fps |} in
              r <- call (ioctl_S_PARM fd parm) ;;
              if fst r <? 0 then
                e <- read_errno ;;
                throw (runtime_error (S_PARM_failed e))
              else
                (* request MMAP buffers *)
                buffer_count <- member (fun c => buffer_count_ (config_ c)) ;;
                let req :=
                  {| req_count := buffer_count;
                     req_type := V4L2_BUF_TYPE_VIDEO_CAPTURE;
                     req_memory := V4L2_MEMORY_MMAP |} in
                r <- call (ioctl_REQBUFS fd req) ;;
                if fst r <? 0 then
                  e <- read_errno ;;
                  throw (runtime_error (REQBUFS_failed e))
                else
                  (* map buffers *)
                  for_each_index (Z.to_nat buffer_count) 0 (map_buffer fd) ;;
                  (* enqueue *)
                  for_each_index (Z.to_nat buffer_count) 0 (enqueue_buffer fd) ;;
                  assign (set_configured true).

(** The pieces of [configure] the proofs name: the structure passed to the
    set-format call, the one passed to the get-format call, and the part
    of the body from the frame-rate request to the end. *)
Definition format_request (c : V4L2Camera) : v4l2_format :=
  {| fmt_type := V4L2_BUF_TYPE_VIDEO_CAPTURE;
     pix_width := fst (dimensions_decompress (PixelDimension_value (dimension_ (config_ c))));
     pix_height := snd (dimensions_decompress (PixelDimension_value (dimension_ (config_ c))));
     pix_pixelformat := u32 (format_ (config_ c));
     pix_field := V4L2_FIELD_NONE;
     pix_bytesperline := 0;
     pix_sizeimage := 0;
     pix_colorspace := V4L2_COLORSPACE_JPEG |}.

Definition format_query : v4l2_format :=
  {| fmt_type := V4L2_BUF_TYPE_VIDEO_CAPTURE;
     pix_width := 0; pix_height := 0; pix_pixelformat := 0;
     pix_field := 0; pix_bytesperline := 0; pix_sizeimage := 0;
     pix_colorspace := 0 |}.

Definition configure_buffers (fd : Z) : action unit :=
  fps <- member (fun c => FPS_value (fps_num_ (config_ c))) ;;
  let parm :=
    {| parm_type := V4L2_BUF_TYPE_VIDEO_CAPTURE;
       timeperframe_numerator := 1;
       timeperframe_denominator := fps |} in
  r <- call (ioctl_S_PARM fd parm) ;;
  if fst r <? 0 then
    e <- read_errno ;;
    throw (runtime_error (S_PARM_failed e))
  else
    buffer_count <- member (fun c => buffer_count_ (config_ c)) ;;
    let req :=
      {| req_count := buffer_count;
         req_type := V4L2_BUF_TYPE_VIDEO_CAPTURE;
         req_memory := V4L2_MEMORY_MMAP |} in
    r <- call (ioctl_REQBUFS fd req) ;;
    if fst r <? 0 then
      e <- read_errno ;;
      throw (runtime_error (REQBUFS_failed e))
    else
      for_each_index (Z.to_nat buffer_count) 0 (map_buffer fd) ;;
      for_each_index (Z.to_nat buffer_count) 0 (enqueue_buffer fd) ;;
      assign (set_configured true).

Definition supported_format (fourcc : Z) : bool :=
  (fourcc =? V4L2_PIX_FMT_MJPEG) || (fourcc =? V4L2_PIX_FMT_YUYV).

(** *** start_streaming, capture_frame, release_frame, stop_streaming *)

Definition start_streaming : action unit :=
  fd <- member fd_ ;;
  rc <- call (ioctl_STREAMON fd V4L2_BUF_TYPE_VIDEO_CAPTURE) ;;
  if rc <? 0 then throw (runtime_error STREAMON_failed) else ret tt.

Definition capture_frame : action FrameView :=
  fd <- member fd_ ;;
  let buf := capture_buffer 0 in
  r <- call (ioctl_DQBUF fd buf) ;;
  let '(rc, buf) := r in
  if rc <? 0 then throw (runtime_error DQBUF_failed)
  else
    bufs <- member buffers_ ;;
    if Z.of_nat (length bufs) <=? u32 (buf_index buf)
    then throw (runtime_error (DQBUF_invalid_index (u32 (buf_index buf))))
    else
      assign (set_last_buf_index (Some (u32 (buf_index buf)))) ;;
      (* parse format & dimensions *)
      match bufs !! Z.to_nat (u32 (buf_index buf)) with
      | None => undefined
      | Some mapped =>
          cfg <- member config_ ;;
          let '(width, height) := dimensions_decompress (PixelDimension_value (dimension_ cfg)) in
          let v4l2_ts_us := u64 (u64 (buf_tv_sec buf) * 1000000 + u64 (buf_tv_usec buf)) in
          now <- call steady_clock_now_us ;;
          let now_monotonic_us := u64 now in
          ret {| timestamp_monotonic_us := now_monotonic_us;
                 v4l2_timestamp_us := v4l2_ts_us;
                 image := {| span_data := data mapped;
                             span_size := u32 (buf_bytesused buf) |};
                 width := width;
                 height := height;
                 format := format_ cfg |}
      end.

Definition release_frame : action unit :=
  last <- member last_buf_index_ ;;
  match last with
  | None =>
      print (to_stderr msg_release_frame_without_index)
  | Some index =>
      fd <- member fd_ ;;
      let buf := capture_buffer index in
      r <- call (ioctl_QBUF fd buf) ;;
      if fst r <? 0 then throw (runtime_error (QBUF_failed_for index))
      else assign (set_last_buf_index None)
  end.

Definition stop_streaming : action unit :=
  fd <- member fd_ ;;
  rc <- call (ioctl_STREAMOFF fd V4L2_BUF_TYPE_VIDEO_CAPTURE) ;;
  if rc <? 0 then throw (runtime_error STREAMOFF_failed) else ret tt.

(** *** cleanup and the destructor *)

Definition is_valid (b : MappedBuffer) : bool :=
  negb (data b =? nullptr) && negb (data b =? MAP_FAILED).

(** [for (auto &buf : buffers_)]: unmap and reset each valid entry. *)
Fixpoint cleanup_buffers (bufs : list MappedBuffer) : action (list MappedBuffer) :=
  match bufs with
  | [] => ret []
  | b :: rest =>
      b' <- (if is_valid b then
               call (sys_munmap (data b) (size b)) ;;
               ret {| data := nullptr; size := 0 |}
             else ret b) ;;
      rest' <- cleanup_buffers rest ;;
      ret (b' :: rest')
  end.

Definition cleanup : action unit :=
  bufs <- member buffers_ ;;
  bufs' <- cleanup_buffers bufs ;;
  assign (set_buffers bufs') ;;
  fd <- member fd_ ;;
  when (0 <=? fd) (call (sys_close fd) ;; ret tt) ;;
  assign (set_fd (-1)).

(** [~V4L2Camera()]: the object is gone afterwards; the world is what
    remains. *)
Definition V4L2Camera_destroy (c : V4L2Camera) (w : world) : world :=
  snd (cleanup c w).

Definition get_caps (c : V4L2Camera) : V4lCaps := caps_ c.

Definition has_valid_frame (c : V4L2Camera) : bool :=
  match last_buf_index_ c with Some _ => true | None => false end.

(** *** Move construction and move assignment

    A moved-from [std::string] is left empty; a moved-from
    [std::optional<uint32_t>] keeps its value; scalars are copied. *)

Definition moved_from_config (cfg : V4l2Config) : V4l2Config :=
  {| device_path_ := EmptyString; dimension_ := dimension_ cfg; format_ := format_ cfg;
     fps_num_ := fps_num_ cfg; buffer_count_ := buffer_count_ cfg |}.

Definition moved_from_caps : V4lCaps := {| driver := EmptyString; card := EmptyString |}.

(** [for (i = first; i < first + n; ++i) dst[i] = src[i]], both accesses
    unchecked: [None] is undefined behaviour. *)
Fixpoint copy_buffers (n : nat) (i : nat) (dst src : list MappedBuffer)
  : option (list MappedBuffer) :=
  match n with
  | O => Some dst
  | S n' =>
      match src !! i with
      | Some b =>
          if decide (i < length dst)%nat
          then copy_buffers n' (S i) (<[i := b]> dst) src
          else None
      | None => None
      end
  end.

(** [V4L2Camera(V4L2Camera &&other)].  [configured_] has no initialiser
    (its value is [indeterminate]) and [buffers_] is default-constructed,
    i.e. empty, before the copy loop runs.  The result is the new object
    and what is left of [other]. *)
Definition V4L2Camera_move (other : V4L2Camera) (indeterminate : bool)
  : outcome (V4L2Camera * V4L2Camera) :=
  let config := config_ other in
  match copy_buffers (Z.to_nat (buffer_count_ config)) 0 [] (buffers_ other) with
  | None => Undefined
  | Some bufs =>
      Return
        ({| config_ := config;
            fd_ := fd_ other;
            configured_ := indeterminate;
            last_buf_index_ := last_buf_index_ other;
            buffers_ := bufs;
            caps_ := caps_ other |},
         {| config_ := moved_from_config (config_ other);
            fd_ := -1;
            configured_ := configured_ other;
            last_buf_index_ := last_buf_index_ other;
            buffers_ := buffers_ other;
            caps_ := moved_from_caps |})
  end.

(** [operator=(V4L2Camera &&other)] for [this != &other]: the result is
    the assigned-to object, what is left of [other], and the world after
    the assigned-to object's own [cleanup]. *)
Definition V4L2Camera_move_assign (this other : V4L2Camera) (w : world)
  : outcome (V4L2Camera * V4L2Camera) * world :=
  let '(_, this1, w1) := cleanup this w in
  let config := config_ other in
  match copy_buffers (Z.to_nat (buffer_count_ config)) 0 (buffers_ this1) (buffers_ other) with
  | None => (Undefined, w1)
  | Some bufs =>
      (Return
         ({| config_ := config;
             fd_ := fd_ other;
             configured_ := configured_ this1;
             last_buf_index_ := last_buf_index_ other;
             buffers_ := bufs;
             caps_ := caps_ other |},
          {| config_ := moved_from_config (config_ other);
             fd_ := -1;
             configured_ := configured_ other;
             last_buf_index_ := last_buf_index_ other;
             buffers_ := buffers_ other;
             caps_ := moved_from_caps |}),
       w1)
  end.

End Engine.


Arguments world K : clear implicits.

(** ** A simulated capture device

    A small driver in the style of a UVC camera, used to run the engine on
    concrete inputs.  It produces one pixel format ([offered]) and silently
    substitutes it for any other request, grants at most [max_buffers]
    buffers, rejects buffer indices at or beyond the granted count, and
    reports the completed frames of [completed] (index and bytes used) in
    order. *)
Module Sim.

Record driver := {
  present : bool;
  offered : Z;
  max_buffers : Z;
  buffer_length : Z;
  granted : Z;
  completed : list (Z * Z);
  clock : Z;
  last_errno : Z
}.

Definition EINVAL : Z := 22.
Definition EAGAIN : Z := 11.
Definition ENODEV : Z := 19.
Definition mmap_base : Z := 0x7f0000000000.

Definition with_errno (e : Z) (d : driver) : driver :=
  {| present := present d; offered := offered d; max_buffers := max_buffers d;
     buffer_length := buffer_length d; granted := granted d;
     completed := completed d; clock := clock d; last_errno := e |}.

Definition with_granted (n : Z) (d : driver) : driver :=
  {| present := present d; offered := offered d; max_buffers := max_buffers d;
     buffer_length := buffer_length d; granted := n;
     completed := completed d; clock := clock d; last_errno := last_errno d |}.

Definition with_completed (q : list (Z * Z)) (d : driver) : driver :=
  {| present := present d; offered := offered d; max_buffers := max_buffers d;
     buffer_length := buffer_length d; granted := granted d;
     completed := q; clock := clock d + 1; last_errno := last_errno d |}.

(** The device is pulled out: from now on the queue calls fail. *)
Definition unplug (d : driver) : driver :=
  {| present := false; offered := offered d; max_buffers := max_buffers d;
     buffer_length := buffer_length d; granted := granted d;
     completed := completed d; clock := clock d; last_errno := last_errno d |}.

Definition with_pixelformat (f : Z) (fmt : v4l2_format) : v4l2_format :=
  {| fmt_type := fmt_type fmt; pix_width := pix_width fmt;
     pix_height := pix_height fmt; pix_pixelformat := f;
     pix_field := pix_field fmt; pix_bytesperline := pix_bytesperline fmt;
     pix_sizeimage := pix_sizeimage fmt; pix_colorspace := pix_colorspace fmt |}.

Definition answer (R : Type) (s : syscall R) : driver -> R * driver :=
  match s in syscall R return driver -> R * driver with
  | sys_open _ _ => fun d => (3, d)
  | sys_close _ => fun d => (0, d)
  | sys_mmap _ _ _ _ _ offset => fun d => (mmap_base + offset, d)
  | sys_munmap _ _ => fun d => (0, d)
  | ioctl_QUERYCAP _ cap => fun d =>
      ((0, {| cap_driver := "uvcvideo"; cap_card := "Simulated Camera";
              capabilities := Z.lor V4L2_CAP_VIDEO_CAPTURE V4L2_CAP_STREAMING |}), d)
  | ioctl_S_FMT _ fmt => fun d => ((0, with_pixelformat (offered d) fmt), d)
  | ioctl_G_FMT _ fmt => fun d => ((0, with_pixelformat (offered d) fmt), d)
  | ioctl_S_PARM _ parm => fun d => ((0, parm), d)
  | ioctl_REQBUFS _ req => fun d =>
      let n := Z.min (req_count req) (max_buffers d) in
      ((0, {| req_count := n; req_type := req_type req; req_memory := req_memory req |}),
       with_granted n d)
  | ioctl_QUERYBUF _ buf => fun d =>
      if buf_index buf <? granted d then
        ((0, {| buf_index := buf_index buf; buf_type := buf_type buf;
                buf_bytesused := 0; buf_tv_sec := 0; buf_tv_usec := 0;
                buf_memory := buf_memory buf;
                buf_offset := buf_index buf * buffer_length d;
                buf_length := buffer_length d |}), d)
      else ((-1, buf), with_errno EINVAL d)
  | ioctl_QBUF _ buf => fun d =>
      if negb (present d) then ((-1, buf), with_errno ENODEV d)
      else if buf_index buf <? granted d then ((0, buf), d)
      else ((-1, buf), with_errno EINVAL d)
  | ioctl_DQBUF _ buf => fun d =>
      if negb (present d) then ((-1, buf), with_errno ENODEV d)
      else
        match completed d with
        | [] => ((-1, buf), with_errno EAGAIN d)
        | (index, bytesused) :: rest =>
            ((0, {| buf_index := index; buf_type := buf_type buf;
                    buf_bytesused := bytesused;
                    buf_tv_sec := clock d; buf_tv_usec := 0;
                    buf_memory := buf_memory buf;
                    buf_offset := index * buffer_length d;
                    buf_length := buffer_length d |}),
             with_completed rest d)
        end
  | ioctl_STREAMON _ _ => fun d => (0, d)
  | ioctl_STREAMOFF _ _ => fun d => (0, d)
  | steady_clock_now_us => fun d => (clock d * 1000000 + 250, d)
  end.

#[export] Instance kernel_of_driver : Kernel driver :=
  {| sys := answer; errno := last_errno |}.

(** A camera that produces [fourcc] and grants [max] buffers of 4096
    bytes, with [frames] completed and waiting. *)
Definition camera (fourcc : Z) (max : Z) (frames : list (Z * Z)) : driver :=
  {| present := true; offered := fourcc; max_buffers := max;
     buffer_length := 4096; granted := 0; completed := frames;
     clock := 100; last_errno := 0 |}.

Definition boot (d : driver) : world driver :=
  {| kernel := d; trace := []; console := [] |}.

Definition config (count : Z) : V4l2Config :=
  {| device_path_ := "/dev/video0"; dimension_ := DIM_HD; format_ := MJPG;
     fps_num_ := FPS_30; buffer_count_ := count |}.

(** The state a run has reached: how the last call ended, the object and
    the world. *)
Definition run (A : Type) : Type := outcome A * V4L2Camera * world driver.

Definition object_of {A} (s : run A) : V4L2Camera := snd (fst s).
Definition world_of {A} (s : run A) : world driver := snd s.
Definition outcome_of {A} (s : run A) : outcome A := fst (fst s).

(** Run one more member function on the object, unless the run has
    already ended in an exception or undefined behaviour. *)
Definition and_then {A B} (s : run A) (m : V4L2Camera -> world driver -> run B) : run B :=
  match s with
  | (Return _, c, w) => m c w
  | (Throw e, c, w) => (Throw e, c, w)
  | (Undefined, c, w) => (Undefined, c, w)
  end.

(** [V4L2Camera cam(config); cam.open_device();] *)
Definition opened (count : Z) (d : driver) : run unit :=
  open_device (V4L2Camera_new (config count)) (boot d).

(** [... cam.configure(); cam.start_streaming();] *)
Definition started (count : Z) (d : driver) : run unit :=
  and_then (and_then (opened count d) configure) start_streaming.

(** The same run with the device pulled out at this point. *)
Definition unplugged {A} (s : run A) : run A :=
  (outcome_of s, object_of s,
   {| kernel := unplug (kernel (world_of s));
      trace := trace (world_of s);
      console := console (world_of s) |}).

End Sim.

(** The view [capture_frame] builds from the dequeued buffer [buf], the pool
    entry [mapped] and the clock reading [now]. *)
Definition frame_of (c : V4L2Camera) (buf : v4l2_buffer) (mapped : MappedBuffer) (now : Z) : FrameView :=
  {| timestamp_monotonic_us := u64 now;
     v4l2_timestamp_us := u64 (u64 (buf_tv_sec buf) * 1000000 + u64 (buf_tv_usec buf));
     image := {| span_data := data mapped; span_size := u32 (buf_bytesused buf) |};
     width := fst (dimensions_decompress (PixelDimension_value (dimension_ (config_ c))));
     height := snd (dimensions_decompress (PixelDimension_value (dimension_ (config_ c))));
     format := format_ (config_ c) |}.

(** ** v4l2-src.cpp: the push-source element that wraps the engine

    The element's own state, its helper functions and the parts of its
    start, stop and create callbacks that drive the engine.  What belongs to
    the streaming framework is kept outside: the result of
    [gst_base_src_negotiate] is an input of [start], and a [GstBuffer] is
    the record of the fields the element sets on it.  The element's
    messages are collected in a log of their own, next to the engine's
    console. *)
Module GstSrc.

Inductive GstVideoFormat :=
| GST_VIDEO_FORMAT_UNKNOWN
| GST_VIDEO_FORMAT_I420
| GST_VIDEO_FORMAT_YUY2.

Inductive GstFlowReturn := GST_FLOW_OK | GST_FLOW_ERROR.

(** The element's messages, by the text they carry. *)
Inductive log_line :=
| invalid_pixel_format_value (value : Z)
| invalid_fps_enum (value : Z)
| pixel_format_conversion_failed (value : Z)
| invalid_fps (value : Z)
| starting_with (cfg : V4l2Config) (width height : Z)
| failed_to_start_camera (e : exception)
| negotiation_failed
| stop_called
| stop_streaming_threw (e : exception)
| enter_create
| capture_frame_failed (e : exception)
| invalid_image (size : Z)
| valid_image (width height size : Z)
| pushing_buffer (pts dur offset : Z)
| requeuing_buffer
| no_valid_buffer
| release_frame_exception (e : exception).

(** [struct _V4L2Src], but for the parent object.  [device_path] is a
    [gchar *]: [_v4l2src_set_property] stores what [g_value_dup_string]
    returns, which is NULL ([None]) for a NULL value.  The rate and the
    resolution are held as enumerated values: their properties are
    registered as enums of exactly those.  The pixel format is held as its
    32-bit code, which [_v4l2src_start] validates itself. *)
Record V4L2Src := {
  device_path : option string;
  pixel_format : PixelFormat;
  resolution : PixelDimension;
  fps : FPS;
  buffer_count : Z;
  camera : option V4L2Camera;
  frame_number : Z
}.

(** The fields [_v4l2src_create] sets on the buffer it pushes. *)
Record GstBuffer := {
  memory_data : Z;
  memory_size : Z;
  buffer_duration : Z;
  buffer_offset : Z;
  buffer_offset_end : Z;
  buffer_pts : Z;
  video_meta : option (GstVideoFormat * Z * Z)
}.

(** [static_cast<gint>(x)]: the value as a signed 32-bit integer. *)
Definition gint (z : Z) : Z := (z + 2 ^ 31) mod 2 ^ 32 - 2 ^ 31.

(** [1'000'000'000 / static_cast<GstClockTime>(fps)]. *)
Definition ns_per_frame (f : FPS) : Z := 1000000000 / FPS_value f.

Definition to_pixel_format (value : Z) : option PixelFormat * list log_line :=
  let e := u32 value in
  if e =? MJPG then (Some MJPG, [])
  else if e =? YUYV then (Some YUYV, [])
  else (None, [invalid_pixel_format_value value]).

Definition to_fps_enum (value : Z) : option FPS * list log_line :=
  let e := u32 value in
  if e =? FPS_value FPS_15 then (Some FPS_15, [])
  else if e =? FPS_value FPS_30 then (Some FPS_30, [])
  else if e =? FPS_value FPS_60 then (Some FPS_60, [])
  else (None, [invalid_fps_enum value]).

Definition to_gst_video_format (fmt : PixelFormat) : GstVideoFormat :=
  if fmt =? YUYV then GST_VIDEO_FORMAT_YUY2
  else if fmt =? MJPG then GST_VIDEO_FORMAT_I420
  else GST_VIDEO_FORMAT_UNKNOWN.

(** [_v4l2src_init]. *)
Definition init : V4L2Src :=
  {| device_path := Some "/dev/video0"%string; pixel_format := MJPG;
     resolution := DIM_HD;
     fps := FPS_30; buffer_count := 2; camera := None; frame_number := 0 |}.

Definition with_camera (cam : option V4L2Camera) (self : V4L2Src) : V4L2Src :=
  {| device_path := device_path self; pixel_format := pixel_format self;
     resolution := resolution self; fps := fps self;
     buffer_count := buffer_count self; camera := cam;
     frame_number := frame_number self |}.

Definition with_frame_number (n : Z) (self : V4L2Src) : V4L2Src :=
  {| device_path := device_path self; pixel_format := pixel_format self;
     resolution := resolution self; fps := fps self;
     buffer_count := buffer_count self; camera := camera self;
     frame_number := n |}.

Section Element.

Context {K : Type} `{Kernel K}.

(** What a callback gives back: how it ended, the element, the world and
    the messages it wrote. *)
Definition result (A : Type) : Type :=
  outcome A * V4L2Src * world K * list log_line.

(** [self->camera.reset()], and the destruction of the camera a
    [unique_ptr] assignment replaces. *)
Definition reset_camera (cam : option V4L2Camera) (w : world K) : world K :=
  match cam with
  | Some c => V4L2Camera_destroy c w
  | None => w
  end.

(** [open_device(); configure(); start_streaming();] *)
Definition bring_up : action unit :=
  bind open_device (fun _ => bind configure (fun _ => start_streaming)).

(** [_v4l2src_start]; [negotiated] is what [gst_base_src_negotiate]
    returns.  The first statement assigns [self->device_path] to a
    [std::string], which is undefined for a null pointer. *)
Definition start (negotiated : bool) (self : V4L2Src) (w : world K) : result bool :=
  match device_path self with
  | None => (Undefined, self, w, [])
  | Some path =>
  let '(maybe_fmt, log1) := to_pixel_format (gint (pixel_format self)) in
  match maybe_fmt with
  | None =>
      (Return false, self, w,
       log1 ++ [pixel_format_conversion_failed (gint (pixel_format self))])
  | Some format =>
      let '(maybe_fps, log2) := to_fps_enum (gint (FPS_value (fps self))) in
      match maybe_fps with
      | None =>
          (Return false, self, w,
           log1 ++ log2 ++ [invalid_fps (gint (FPS_value (fps self)))])
      | Some rate =>
          let cfg :=
            {| device_path_ := path;
               dimension_ := resolution self;
               format_ := format;
               fps_num_ := rate;
               buffer_count_ := buffer_count self |} in
          let '(width, height) :=
            dimensions_decompress (PixelDimension_value (dimension_ cfg)) in
          let log3 := log1 ++ log2 ++ [starting_with cfg width height] in
          (* self->camera = std::make_unique<v4l2::V4L2Camera>(cfg); *)
          let w0 := reset_camera (camera self) w in
          match bring_up (V4L2Camera_new cfg) w0 with
          | (Throw e, c, w1) =>
              (Return false, with_camera None self, V4L2Camera_destroy c w1,
               log3 ++ [failed_to_start_camera e])
          | (Undefined, c, w1) =>
              (Undefined, with_camera (Some c) self, w1, log3)
          | (Return _, c, w1) =>
              let self1 := with_frame_number 0 (with_camera (Some c) self) in
              if negotiated then (Return true, self1, w1, log3)
              else (Return false, self1, w1, log3 ++ [negotiation_failed])
          end
      end
  end
  end.

(** [_v4l2src_stop]. *)
Definition stop (self : V4L2Src) (w : world K) : result bool :=
  match camera self with
  | None => (Return true, self, w, [stop_called])
  | Some c =>
      match stop_streaming c w with
      | (Return _, c1, w1) =>
          (Return true, with_camera None self, V4L2Camera_destroy c1 w1,
           [stop_called])
      | (Throw e, c1, w1) =>
          (Return true, with_camera None self, V4L2Camera_destroy c1 w1,
           [stop_called; stop_streaming_threw e])
      | (Undefined, c1, w1) =>
          (Undefined, with_camera (Some c1) self, w1, [stop_called])
      end
  end.

(** The destroy notification of a pushed buffer, run on the camera the
    buffer was created from. *)
Definition release_notify (cam : V4L2Camera) (w : world K)
  : outcome unit * V4L2Camera * world K * list log_line :=
  if has_valid_frame cam then
    match release_frame cam w with
    | (Return _, c1, w1) => (Return tt, c1, w1, [requeuing_buffer])
    | (Throw e, c1, w1) =>
        (Return tt, c1, w1, [requeuing_buffer; release_frame_exception e])
    | (Undefined, c1, w1) => (Undefined, c1, w1, [requeuing_buffer])
    end
  else (Return tt, cam, w, [no_valid_buffer]).

(** [_v4l2src_create]: the flow return and the buffer stored in
    [*outbuf].  Calling it without a camera dereferences a null pointer. *)
Definition create (self : V4L2Src) (w : world K)
  : result (GstFlowReturn * option GstBuffer) :=
  match camera self with
  | None => (Undefined, self, w, [enter_create])
  | Some c =>
      match capture_frame c w with
      | (Throw e, c1, w1) =>
          (Return (GST_FLOW_ERROR, None), with_camera (Some c1) self, w1,
           [enter_create; capture_frame_failed e])
      | (Undefined, c1, w1) =>
          (Undefined, with_camera (Some c1) self, w1, [enter_create])
      | (Return view, c1, w1) =>
          let size := span_size (image view) in
          if (size =? 0) || (16 * 1024 * 1024 <? size) then
            (Return (GST_FLOW_ERROR, None), with_camera (Some c1) self, w1,
             [enter_create; invalid_image size])
          else
            let dur := ns_per_frame (fps self) in
            let offset := frame_number self in
            let pts := u64 (v4l2_timestamp_us view * 1000) in
            let vf := to_gst_video_format (pixel_format self) in
            let meta :=
              match vf with
              | GST_VIDEO_FORMAT_UNKNOWN | GST_VIDEO_FORMAT_I420 => None
              | _ => Some (vf, width view, height view)
              end in
            (Return (GST_FLOW_OK,
                     Some {| memory_data := span_data (image view);
                             memory_size := size;
                             buffer_duration := dur;
                             buffer_offset := offset;
                             buffer_offset_end := u64 (offset + 1);
                             buffer_pts := pts;
                             video_meta := meta |}),
             with_frame_number (u64 (offset + 1)) (with_camera (Some c1) self),
             w1,
             [enter_create; valid_image (width view) (height view) size;
              pushing_buffer pts dur offset])
      end
  end.

End Element.

End GstSrc.

(** ** A device that cannot be used

    The simulated camera behind a node that may fail to open (with
    [open_errno]) and that reports the capability bits [reported_caps]:
    a missing or busy node, or a node that is not a streaming capture
    device.  Every other call is answered by the camera. *)
Module Faulty.

Record device := {
  base : Sim.driver;
  open_result : Z;
  open_errno : Z;
  reported_caps : Z
}.

Definition with_base (b : Sim.driver) (d : device) : device :=
  {| base := b; open_result := open_result d; open_errno := open_errno d;
     reported_caps := reported_caps d |}.

Definition answer (R : Type) (s : syscall R) (d : device) : R * device :=
  match s in syscall R return R * Sim.driver -> R * device with
  | sys_open _ _ => fun _ => (open_result d, d)
  | ioctl_QUERYCAP _ _ => fun _ =>
      ((0, {| cap_driver := "tuner"; cap_card := "Simulated Node";
              capabilities := reported_caps d |}), d)
  | _ => fun rb => (fst rb, with_base (snd rb) d)
  end (Sim.answer R s (base d)).

#[export] Instance kernel_of_device : Kernel device :=
  {| sys := answer;
     errno := fun d => if open_result d <? 0 then open_errno d
                       else Sim.last_errno (base d) |}.

Definition ENOENT : Z := 2.

(** A node that does not exist, a node held by another process, and a node
    that captures but cannot stream. *)
Definition missing : device :=
  {| base := Sim.camera MJPG 4 []; open_result := -1; open_errno := ENOENT;
     reported_caps := 0 |}.

Definition busy : device :=
  {| base := Sim.camera MJPG 4 []; open_result := -1; open_errno := EBUSY;
     reported_caps := 0 |}.

Definition no_streaming : device :=
  {| base := Sim.camera MJPG 4 []; open_result := 5; open_errno := 0;
     reported_caps := V4L2_CAP_VIDEO_CAPTURE |}.

Definition boot (d : device) : world device :=
  {| kernel := d; trace := []; console := [] |}.

End Faulty.

(** ** Relating the object before and after a call *)

(** Everything but the pool's contents is as before, and the pool has as
    many entries. *)
Definition same_but_buffers (c c' : V4L2Camera) : Prop :=
  config_ c' = config_ c /\ fd_ c' = fd_ c /\
  configured_ c' = configured_ c /\
  last_buf_index_ c' = last_buf_index_ c /\
  length (buffers_ c') = length (buffers_ c).

(** ** Reading a trace *)

(** The buffer index a call names, for the calls that name one on the way
    in: query-buffer and enqueue. *)
Definition touched_index (e : event) : option Z :=
  match e with
  | Ev s _ =>
      match s with
      | ioctl_QUERYBUF _ buf => Some (buf_index buf)
      | ioctl_QBUF _ buf => Some (buf_index buf)
      | _ => None
      end
  end.

Definition touched_indices (t : list event) : list Z :=
  omap touched_index t.

(** The same, call by call: the indices queried and the indices enqueued. *)
Definition queried_index (e : event) : option Z :=
  match e with
  | Ev s _ =>
      match s with
      | ioctl_QUERYBUF _ buf => Some (buf_index buf)
      | _ => None
      end
  end.

Definition queried_indices (t : list event) : list Z :=
  omap queried_index t.

Definition enqueued_index (e : event) : option Z :=
  match e with
  | Ev s _ =>
      match s with
      | ioctl_QBUF _ buf => Some (buf_index buf)
      | _ => None
      end
  end.

Definition enqueued_indices (t : list event) : list Z :=
  omap enqueued_index t.

(** The count a request-buffers call came back with. *)
Definition granted_count (e : event) : option Z :=
  match e with
  | Ev s r =>
      match s in syscall R return R -> option Z with
      | ioctl_REQBUFS _ _ => fun r => Some (req_count (snd r))
      | _ => fun _ => None
      end r
  end.

Definition granted_counts (t : list event) : list Z :=
  omap granted_count t.

(** What a loop body does in [configure]: it keeps the object but for the
    pool's contents, and names exactly the index it is run at. *)
Definition names_its_index {K : Type} `{Kernel K} (body : Z -> action unit) : Prop :=
  forall i c (w : world K) r c' w',
    body i c w = (r, c', w') ->
    same_but_buffers c c' /\
    exists new, trace w' = trace w ++ new /\ touched_indices new = [u32 i].

(** The regions (address and length) a trace unmaps. *)
Definition unmapped_region (e : event) : option (Z * Z) :=
  match e with
  | Ev s _ =>
      match s with
      | sys_munmap addr length => Some (addr, length)
      | _ => None
      end
  end.

Definition unmapped_regions (t : list event) : list (Z * Z) :=
  omap unmapped_region t.

(** The indices of the half-open range [[first, first + n)]. *)
Fixpoint indices_from (n : nat) (first : Z) : list Z :=
  match n with
  | O => []
  | S n' => first :: indices_from n' (first + 1)
  end.

(** The regions (address and length) a trace maps: the [mmap] calls that
    did not come back with [MAP_FAILED]. *)
Definition mapped_region (e : event) : option (Z * Z) :=
  match e with
  | Ev s r =>
      match s in syscall R return R -> option (Z * Z) with
      | sys_mmap _ length _ _ _ _ =>
          fun r => if r =? MAP_FAILED then None else Some (r, length)
      | _ => fun _ => None
      end r
  end.

Definition mapped_regions (t : list event) : list (Z * Z) :=
  omap mapped_region t.

(** The descriptors a trace opens: the non-negative results of [open]. *)
Definition opened_fd (e : event) : option Z :=
  match e with
  | Ev s r =>
      match s in syscall R return R -> option Z with
      | sys_open _ _ => fun r => if 0 <=? r then Some r else None
      | _ => fun _ => None
      end r
  end.

Definition opened_fds (t : list event) : list Z :=
  omap opened_fd t.

(** The descriptors a trace closes. *)
Definition closed_fd (e : event) : option Z :=
  match e with
  | Ev s _ =>
      match s with
      | sys_close fd => Some fd
      | _ => None
      end
  end.

Definition closed_fds (t : list event) : list Z :=
  omap closed_fd t.

(** Which call an entry of the trace is. *)
Inductive call_kind :=
| k_open | k_close | k_mmap | k_munmap
| k_QUERYCAP | k_S_FMT | k_G_FMT | k_S_PARM | k_REQBUFS
| k_QUERYBUF | k_QBUF | k_DQBUF | k_STREAMON | k_STREAMOFF
| k_clock.

Definition kind_of (e : event) : call_kind :=
  match e with
  | Ev s _ =>
      match s with
      | sys_open _ _ => k_open
      | sys_close _ => k_close
      | sys_mmap _ _ _ _ _ _ => k_mmap
      | sys_munmap _ _ => k_munmap
      | ioctl_QUERYCAP _ _ => k_QUERYCAP
      | ioctl_S_FMT _ _ => k_S_FMT
      | ioctl_G_FMT _ _ => k_G_FMT
      | ioctl_S_PARM _ _ => k_S_PARM
      | ioctl_REQBUFS _ _ => k_REQBUFS
      | ioctl_QUERYBUF _ _ => k_QUERYBUF
      | ioctl_QBUF _ _ => k_QBUF
      | ioctl_DQBUF _ _ => k_DQBUF
      | ioctl_STREAMON _ _ => k_STREAMON
      | ioctl_STREAMOFF _ _ => k_STREAMOFF
      | steady_clock_now_us => k_clock
      end
  end.

Definition kinds (t : list event) : list call_kind := map kind_of t.

(** The descriptor a call is made on, for the calls that take one. *)
Definition fd_of (e : event) : option Z :=
  match e with
  | Ev s _ =>
      match s with
      | sys_open _ _ => None
      | sys_close fd => Some fd
      | sys_mmap _ _ _ _ fd _ => Some fd
      | sys_munmap _ _ => None
      | ioctl_QUERYCAP fd _ => Some fd
      | ioctl_S_FMT fd _ => Some fd
      | ioctl_G_FMT fd _ => Some fd
      | ioctl_S_PARM fd _ => Some fd
      | ioctl_REQBUFS fd _ => Some fd
      | ioctl_QUERYBUF fd _ => Some fd
      | ioctl_QBUF fd _ => Some fd
      | ioctl_DQBUF fd _ => Some fd
      | ioctl_STREAMON fd _ => Some fd
      | ioctl_STREAMOFF fd _ => Some fd
      | steady_clock_now_us => None
      end
  end.

Definition fds (t : list event) : list Z := omap fd_of t.

(** The region a pool entry stands for, and the entry [cleanup] leaves in
    its place. *)
Definition region_of (b : MappedBuffer) : Z * Z := (data b, size b).

Definition released (b : MappedBuffer) : MappedBuffer :=
  if is_valid b then {| data := nullptr; size := 0 |} else b.

(** The calls [configure] makes. *)
Definition configure_call (e : event) : Prop :=
  In (kind_of e) [k_S_FMT; k_G_FMT; k_S_PARM; k_REQBUFS; k_QUERYBUF; k_mmap; k_QBUF].

(** The calls of a [configure] that runs to its end with [n] buffers, in
    order. *)
Definition configure_protocol (n : nat) : list call_kind :=
  [k_S_FMT; k_G_FMT; k_S_PARM; k_REQBUFS]
  ++ concat (replicate n [k_QUERYBUF; k_mmap])
  ++ replicate n k_QBUF.

(** ** The same kernel, reporting another grant

    [regranted g] answers every call as the kernel does and moves to the
    same state, but for the count a request-buffers call comes back with,
    which is [g].  What the engine does with the granted count shows in the
    difference between a run on the kernel and a run on [regranted g]. *)
Definition with_count (g : Z) (req : v4l2_requestbuffers) : v4l2_requestbuffers :=
  {| req_count := g; req_type := req_type req; req_memory := req_memory req |}.

Definition regrant_reply (g : Z) {R : Type} (s : syscall R) : R -> R :=
  match s in syscall R return R -> R with
  | ioctl_REQBUFS _ _ => fun r => (fst r, with_count g (snd r))
  | _ => fun r => r
  end.

Definition regranted {K : Type} `{Kernel K} (g : Z) : Kernel K :=
  {| sys := fun R s k => (regrant_reply g s (fst (sys s k)), snd (sys s k));
     errno := errno |}.

Definition regrant_event (g : Z) (e : event) : event :=
  match e with
  | Ev s r => Ev s (regrant_reply g s r)
  end.

(** Two worlds that differ only in the grants reported since the trace was
    [t0], and two actions that keep worlds so and end alike. *)
Definition grant_related {K : Type} (g : Z) (t0 : list event) (w w2 : world K) : Prop :=
  kernel w2 = kernel w /\ console w2 = console w /\
  exists new, trace w = t0 ++ new /\ trace w2 = t0 ++ map (regrant_event g) new.

Definition grant_blind {K : Type} {A : Type} (g : Z)
    (m2 m : V4L2Camera -> world K -> outcome A * V4L2Camera * world K) : Prop :=
  forall t0 c w w2,
    grant_related g t0 w w2 ->
    fst (fst (m2 c w2)) = fst (fst (m c w)) /\
    snd (fst (m2 c w2)) = snd (fst (m c w)) /\
    grant_related g t0 (snd (m c w)) (snd (m2 c w2)).

(** The calls of [configure] that name a buffer, in the order they are
    made: queries of the indices from 0 up, then enqueues of the indices
    from 0 up, the enqueues only after every one of the [n] indices was
    queried, and all [n] of both when the run is [complete]. *)
Definition queries_then_enqueues (n : nat) (complete : Prop) (new : list event) : Prop :=
  exists front back m1 m2,
    new = front ++ back /\
    queried_indices front = map u32 (indices_from m1 0) /\
    enqueued_indices front = [] /\
    queried_indices back = [] /\
    enqueued_indices back = map u32 (indices_from m2 0) /\
    (m1 <= n)%nat /\ (m2 <= n)%nat /\
    (back <> [] -> m1 = n) /\
    (complete -> m1 = n /\ m2 = n).

(** ** A streaming session

    What a client does between starting and stopping the stream:
    [capture_frame] and [release_frame] in any order, going on whatever
    they return, as the element does by catching what they throw. *)
Inductive request := Capture | Release.

Definition serve {K : Type} `{Kernel K} (o : request) (c : V4L2Camera) (w : world K)
  : V4L2Camera * world K :=
  match o with
  | Capture => let '(_, c', w') := capture_frame c w in (c', w')
  | Release => let '(_, c', w') := release_frame c w in (c', w')
  end.

Fixpoint session {K : Type} `{Kernel K} (ops : list request) (c : V4L2Camera) (w : world K)
  : V4L2Camera * world K :=
  match ops with
  | [] => (c, w)
  | o :: rest => let '(c', w') := serve o c w in session rest c' w'
  end.

(** The calls a session makes. *)
Definition streaming_call (e : event) : Prop :=
  In (kind_of e) [k_DQBUF; k_clock; k_QBUF].

(** ** The format/geometry model *)

Section Geometry.

Lemma u32_small z : 0 <= z < 2 ^ 32 -> u32 z = z.
Proof. intros H. unfold u32. now apply Z.mod_small. Qed.

Lemma u32_range z : 0 <= u32 z < 2 ^ 32.
Proof. unfold u32. apply Z.mod_pos_bound. lia. Qed.

Lemma u32_le z : 0 <= z -> u32 z <= z.
Proof. intros H. unfold u32. apply Z.mod_le; lia. Qed.

(** Packing two 16-bit halves and unpacking gives the halves back. *)
Lemma dimensions_roundtrip w h :
  0 <= w < 2 ^ 16 -> 0 <= h < 2 ^ 16 ->
  dimensions_decompress (dimensions_compress w h) = (w, h).
Proof.
  intros Hw Hh. unfold dimensions_decompress, dimensions_compress.
  assert (Hs : u32 (Z.shiftl w 16) = Z.shiftl w 16).
  { apply u32_small. rewrite Z.shiftl_mul_pow2 by lia. lia. }
  rewrite Hs. f_equal.
  - rewrite Z.shiftr_lor, Z.shiftr_shiftl_l by lia.
    rewrite Z.sub_diag, Z.shiftl_0_r.
    rewrite (Z.shiftr_div_pow2 h) by lia.
    rewrite Z.div_small by lia. apply Z.lor_0_r.
  - change 0xFFFF with (Z.ones 16).
    rewrite Z.land_lor_distr_l, !Z.land_ones by lia.
    rewrite Z.shiftl_mul_pow2 by lia.
    rewrite Z.mod_mul by lia.
    rewrite Z.mod_small by lia. apply Z.lor_0_l.
Qed.

Lemma PixelDimension_extent_range d :
  0 <= fst (PixelDimension_extent d) < 2 ^ 16 /\
  0 <= snd (PixelDimension_extent d) < 2 ^ 16.
Proof. destruct d; simpl; lia. Qed.

(** C7: for each of HD, FHD, 2K and 4K, unpacking the packed width/height
    pair gives back exactly that pair; the enumerator's stored value is
    that packed pair, so unpacking the enumerator gives its pair too. *)
Theorem pack_unpack_enumerated (d : PixelDimension) :
  let '(w, h) := PixelDimension_extent d in
  dimensions_decompress (dimensions_compress w h) = (w, h) /\
  dimensions_decompress (PixelDimension_value d) = (w, h).
Proof.
  pose proof (PixelDimension_extent_range d) as [Hw Hh].
  unfold PixelDimension_value.
  destruct (PixelDimension_extent d) as [w h]; simpl in *.
  split; now apply dimensions_roundtrip.
Qed.

(** The header's [static_assert]s. *)
Example decompress_HD : dimensions_decompress (PixelDimension_value DIM_HD) = (1280, 720).
Proof. reflexivity. Qed.

Example decompress_4K : dimensions_decompress (PixelDimension_value DIM_4K) = (3840, 2160).
Proof. reflexivity. Qed.

Example MJPG_value : MJPG = 0x47504A4D.
Proof. reflexivity. Qed.

Example YUYV_value : YUYV = 0x56595559.
Proof. reflexivity. Qed.

End Geometry.

(** ** The capture engine *)

Section EngineFacts.

Context {K : Type} `{Kernel K}.
Implicit Types (c : V4L2Camera) (w : world K).

Lemma call_eq {R} (s : syscall R) r k' c w :
  sys s (kernel w) = (r, k') ->
  call s c w = (Return r, c, after_call s r k' w).
Proof. intros E. unfold call. now rewrite E. Qed.

(** [release_frame] with the marker empty: the warning branch. *)
Lemma release_frame_warns c w :
  last_buf_index_ c = None ->
  release_frame c w =
    (Return tt, c, after_print (to_stderr msg_release_frame_without_index) w).
Proof.
  intros Hnone. unfold release_frame, bind, member, print.
  now rewrite Hnone.
Qed.

(** C5: with no buffer outstanding, [release_frame] returns normally, the
    object is unchanged, the kernel is not called (its state and the trace
    are unchanged) and the only effect is the warning on stderr. *)
Theorem release_frame_nothing_outstanding c w :
  last_buf_index_ c = None ->
  release_frame c w =
    (Return tt, c, after_print (to_stderr msg_release_frame_without_index) w) /\
  kernel (snd (release_frame c w)) = kernel w /\
  trace (snd (release_frame c w)) = trace w /\
  console (snd (release_frame c w)) =
    console w ++ [to_stderr msg_release_frame_without_index].
Proof.
  intros Hnone. rewrite (release_frame_warns _ _ Hnone). repeat split.
Qed.

(** *** Running [configure] up to the buffer request *)

Lemma configure_run c w :
  configure c w =
    if (fd_ c <? 0) || configured_ c then (Return tt, c, w)
    else
      let requested := u32 (format_ (config_ c)) in
      if negb (supported_format requested)
      then (Throw (invalid_argument (Unsupported_pixel_format requested)), c, w)
      else
        let '((rc1, fmt1), k1) := sys (ioctl_S_FMT (fd_ c) (format_request c)) (kernel w) in
        let w1 := after_call (ioctl_S_FMT (fd_ c) (format_request c)) (rc1, fmt1) k1 w in
        if rc1 <? 0 then
          (Throw (runtime_error (S_FMT_failed (errno k1))), c,
           if errno k1 =? EBUSY
           then after_print (to_stderr (msg_device_busy_during_S_FMT (device_path_ (config_ c)))) w1
           else w1)
        else
          let confirmed := u32 (pix_pixelformat fmt1) in
          if negb (confirmed =? requested)
          then (Throw (runtime_error (Driver_rejected_pixel_format requested confirmed)), c, w1)
          else
            let c1 := set_config (with_format confirmed (config_ c)) c in
            let w1' := after_print (to_stdout (msg_negotiated_pixel_format (fourcc_str confirmed))) w1 in
            let '((rc2, fmt2), k2) := sys (ioctl_G_FMT (fd_ c) format_query) k1 in
            let w2 := after_call (ioctl_G_FMT (fd_ c) format_query) (rc2, fmt2) k2 w1' in
            if rc2 <? 0 then (Throw (runtime_error G_FMT_failed), c1, w2)
            else if negb (u32 (pix_pixelformat fmt2) =? u32 confirmed)
                 then (Throw (runtime_error (Driver_format_mismatch
                                               (u32 (pix_pixelformat fmt2)) (u32 confirmed))),
                       c1, w2)
                 else configure_buffers (fd_ c) c1 w2.
Proof.
  unfold configure, bind at 1 2, member. cbn beta iota.
  destruct ((fd_ c <? 0) || configured_ c); [reflexivity |].
  unfold bind at 1. cbn beta iota.
  unfold supported_format. rewrite negb_orb.
  unfold format_request.
  destruct (dimensions_decompress _) as [wd ht]. cbn [fst snd].
  destruct (negb _ && negb _); [reflexivity |].
  unfold bind at 1, call at 1.
  destruct (sys (ioctl_S_FMT _ _) (kernel w)) as [[rc1 fmt1] k1].
  cbn beta iota zeta.
  destruct (rc1 <? 0).
  { unfold bind, read_errno, when, throw, print, ret. cbn.
    destruct (errno k1 =? EBUSY); reflexivity. }
  destruct (negb (u32 (pix_pixelformat fmt1) =? u32 (format_ (config_ c))));
    [reflexivity |].
  unfold bind at 1, print at 1. cbn beta iota.
  unfold bind at 1, assign at 1. cbn beta iota.
  unfold bind at 1, call at 1.
  change (kernel (after_print ?o ?w0)) with (kernel w0).
  change (kernel (after_call ?s ?r ?k ?w0)) with k.
  fold format_query.
  destruct (sys (ioctl_G_FMT _ _) k1) as [[rc2 fmt2] k2].
  cbn beta iota zeta.
  destruct (rc2 <? 0); [reflexivity |].
  unfold bind at 1. cbn beta iota.
  cbn [config_ set_config format_ with_format].
  destruct (negb _); reflexivity.
Qed.

(** *** The two loops of [configure] *)

Lemma bind_inv {A B} (m : action A) (k : A -> action B) c w r c' w' :
  bind m k c w = (r, c', w') ->
  (exists a c1 w1, m c w = (Return a, c1, w1) /\ k a c1 w1 = (r, c', w')) \/
  (exists e, m c w = (Throw e, c', w') /\ r = Throw e) \/
  (m c w = (Undefined, c', w') /\ r = Undefined).
Proof.
  unfold bind. destruct (m c w) as [[[a|e|] c1] w1]; intros Hk.
  - left. eauto.
  - right. left. inversion Hk. eauto.
  - right. right. inversion Hk. eauto.
Qed.

Lemma touched_indices_app t1 t2 :
  touched_indices (t1 ++ t2) = touched_indices t1 ++ touched_indices t2.
Proof. apply omap_app. Qed.

Lemma same_but_buffers_refl c : same_but_buffers c c.
Proof. repeat split. Qed.

Lemma same_but_buffers_trans c1 c2 c3 :
  same_but_buffers c1 c2 -> same_but_buffers c2 c3 -> same_but_buffers c1 c3.
Proof.
  intros (? & ? & ? & ? & ?) (? & ? & ? & ? & ?).
  repeat split; congruence.
Qed.

Ltac trace_grows :=
  eexists; split;
  [cbn [trace after_call]; rewrite <- ?app_assoc; reflexivity | reflexivity].

Lemma map_buffer_names_its_index fd : names_its_index (map_buffer fd).
Proof.
  intros i c w r c' w'. unfold map_buffer.
  unfold bind at 1, call at 1.
  destruct (sys (ioctl_QUERYBUF _ _) (kernel w)) as [[rc buf] k1].
  cbn beta iota zeta.
  destruct (rc <? 0).
  { unfold bind, read_errno, throw. cbn beta iota. intros [= <- <- <-].
    split; [apply same_but_buffers_refl | trace_grows]. }
  unfold bind at 1, call at 1.
  change (kernel (after_call ?s ?r0 ?k ?w0)) with k.
  destruct (sys (sys_mmap _ _ _ _ _ _) k1) as [mapped k2].
  cbn beta iota zeta.
  destruct (mapped =? MAP_FAILED).
  { unfold bind, read_errno, throw. cbn beta iota. intros [= <- <- <-].
    split; [apply same_but_buffers_refl | trace_grows]. }
  unfold store_buffer, bind, member. cbn beta iota.
  destruct (decide _); unfold assign, undefined; intros [= <- <- <-].
  - split; [| trace_grows].
    repeat split. cbn [buffers_ set_buffers]. apply length_insert.
  - split; [apply same_but_buffers_refl | trace_grows].
Qed.

Lemma enqueue_buffer_names_its_index fd : names_its_index (enqueue_buffer fd).
Proof.
  intros i c w r c' w'. unfold enqueue_buffer.
  unfold bind at 1, call at 1.
  destruct (sys (ioctl_QBUF _ _) (kernel w)) as [[rc buf] k1].
  cbn beta iota zeta. cbn [fst].
  destruct (rc <? 0); unfold bind, read_errno, throw, ret; cbn beta iota;
    intros [= <- <- <-];
    (split; [apply same_but_buffers_refl | trace_grows]).
Qed.

(** A loop over [[i, i + n)] names a prefix of that range, in order, and
    the whole range when it runs to its end. *)
Lemma for_each_index_inv body :
  names_its_index body ->
  forall n i c w r c' w',
    for_each_index n i body c w = (r, c', w') ->
    same_but_buffers c c' /\
    exists new m,
      trace w' = trace w ++ new /\
      touched_indices new = map u32 (indices_from m i) /\
      (m <= n)%nat /\
      (r = Return tt -> m = n).
Proof.
  intros Hbody. induction n as [| n IH]; intros i c w r c' w' Hrun.
  - cbn in Hrun. unfold ret in Hrun. injection Hrun as <- <- <-.
    split; [apply same_but_buffers_refl |].
    exists [], 0%nat. rewrite app_nil_r. auto.
  - cbn [for_each_index] in Hrun.
    apply bind_inv in Hrun
      as [(a & c1 & w1 & Hb & Hrest) | [(e & Hb & ->) | [Hb ->]]].
    + destruct (Hbody _ _ _ _ _ _ Hb) as (Hs1 & new1 & Ht1 & Hi1).
      destruct (IH _ _ _ _ _ _ Hrest) as (Hs2 & new2 & m & Ht2 & Hi2 & Hle & Hall).
      split; [eapply same_but_buffers_trans; eassumption |].
      exists (new1 ++ new2), (S m).
      rewrite Ht2, Ht1, app_assoc, touched_indices_app, Hi1, Hi2.
      repeat split; auto with lia.
    + destruct (Hbody _ _ _ _ _ _ Hb) as (Hs1 & new1 & Ht1 & Hi1).
      split; [exact Hs1 |]. exists new1, 1%nat.
      repeat split; auto with lia. discriminate.
    + destruct (Hbody _ _ _ _ _ _ Hb) as (Hs1 & new1 & Ht1 & Hi1).
      split; [exact Hs1 |]. exists new1, 1%nat.
      repeat split; auto with lia. discriminate.
Qed.

Lemma indices_from_bounds m first :
  Forall (fun i => first <= i < first + Z.of_nat m) (indices_from m first).
Proof.
  revert first. induction m as [| m IH]; intros first; cbn [indices_from].
  - constructor.
  - constructor; [lia |].
    eapply Forall_impl; [apply IH |]. cbn beta. intros; lia.
Qed.

Lemma touched_below_count m (count : Z) :
  (m <= Z.to_nat count)%nat ->
  Forall (fun i => 0 <= i < count) (map u32 (indices_from m 0)).
Proof.
  intros Hm. apply Forall_map.
  eapply Forall_impl; [apply indices_from_bounds |]. cbn beta.
  intros i Hi. pose proof (u32_range i). pose proof (u32_le i). lia.
Qed.

(** *** [configure] from the frame-rate request to the end *)

Lemma configure_buffers_inv fd c w r c' w' :
  configure_buffers fd c w = (r, c', w') ->
  let n := Z.to_nat (buffer_count_ (config_ c)) in
  config_ c' = config_ c /\ fd_ c' = fd_ c /\
  last_buf_index_ c' = last_buf_index_ c /\
  length (buffers_ c') = length (buffers_ c) /\
  (r = Return tt -> configured_ c' = true) /\
  exists new m1 m2,
    trace w' = trace w ++ new /\
    touched_indices new = map u32 (indices_from m1 0) ++ map u32 (indices_from m2 0) /\
    (m1 <= n)%nat /\ (m2 <= n)%nat /\
    (r = Return tt -> m1 = n /\ m2 = n).
Proof.
  intros Hrun n. unfold configure_buffers in Hrun.
  unfold bind at 1, member at 1 in Hrun. cbn beta iota in Hrun.
  unfold bind at 1, call at 1 in Hrun.
  destruct (sys (ioctl_S_PARM _ _) (kernel w)) as [[rc1 parm] k1].
  cbn beta iota zeta in Hrun. cbn [fst] in Hrun.
  destruct (rc1 <? 0).
  { unfold bind, read_errno, throw in Hrun. cbn beta iota in Hrun.
    injection Hrun as <- <- <-. repeat split; try discriminate.
    eexists _, 0%nat, 0%nat.
    split; [cbn [trace after_call]; reflexivity |].
    repeat split; auto with lia; discriminate. }
  unfold bind at 1, member at 1 in Hrun. cbn beta iota in Hrun.
  unfold bind at 1, call at 1 in Hrun.
  change (kernel (after_call ?s ?r0 ?k ?w0)) with k in Hrun.
  destruct (sys (ioctl_REQBUFS _ _) k1) as [[rc2 req] k2].
  cbn beta iota zeta in Hrun. cbn [fst] in Hrun.
  destruct (rc2 <? 0).
  { unfold bind, read_errno, throw in Hrun. cbn beta iota in Hrun.
    injection Hrun as <- <- <-. repeat split; try discriminate.
    eexists _, 0%nat, 0%nat.
    split; [cbn [trace after_call]; rewrite <- app_assoc; reflexivity |].
    repeat split; auto with lia; discriminate. }
  fold n in Hrun.
  set (w2 := after_call (ioctl_REQBUFS fd _) (rc2, req) k2 _) in Hrun.
  assert (Hw2 : exists pre, trace w2 = trace w ++ pre /\ touched_indices pre = []).
  { eexists. subst w2. cbn [trace after_call]. rewrite <- app_assoc.
    split; reflexivity. }
  destruct Hw2 as (pre & Hpre & Hpre0). clearbody w2.
  apply bind_inv in Hrun
    as [(a & c1 & w3 & Hmap & Hrun) | [(e & Hmap & ->) | [Hmap ->]]].
  - destruct (for_each_index_inv _ (map_buffer_names_its_index fd) _ _ _ _ _ _ _ Hmap)
      as ((Hc1 & Hf1 & Hd1 & Hl1 & Hb1) & new1 & m1 & Ht1 & Hi1 & Hle1 & Hall1).
    assert (Hn : Z.to_nat (buffer_count_ (config_ c1)) = n) by (unfold n; now rewrite Hc1).
    apply bind_inv in Hrun
      as [(a2 & c2 & w4 & Henq & Hrun) | [(e & Henq & ->) | [Henq ->]]].
    + destruct (for_each_index_inv _ (enqueue_buffer_names_its_index fd) _ _ _ _ _ _ _ Henq)
        as ((Hc2 & Hf2 & Hd2 & Hl2 & Hb2) & new2 & m2 & Ht2 & Hi2 & Hle2 & Hall2).
      unfold assign in Hrun. injection Hrun as <- <- <-.
      cbn [config_ fd_ last_buf_index_ buffers_ configured_ set_configured].
      repeat split; try congruence.
      exists (pre ++ new1 ++ new2), m1, m2.
      rewrite Ht2, Ht1, Hpre, !touched_indices_app, Hpre0, Hi1, Hi2, <- !app_assoc.
      destruct a, a2. repeat split; auto.
    + destruct (for_each_index_inv _ (enqueue_buffer_names_its_index fd) _ _ _ _ _ _ _ Henq)
        as ((Hc2 & Hf2 & Hd2 & Hl2 & Hb2) & new2 & m2 & Ht2 & Hi2 & Hle2 & Hall2).
      repeat split; try congruence; try discriminate.
      exists (pre ++ new1 ++ new2), m1, m2.
      rewrite Ht2, Ht1, Hpre, !touched_indices_app, Hpre0, Hi1, Hi2, <- !app_assoc.
      repeat split; auto; discriminate.
    + destruct (for_each_index_inv _ (enqueue_buffer_names_its_index fd) _ _ _ _ _ _ _ Henq)
        as ((Hc2 & Hf2 & Hd2 & Hl2 & Hb2) & new2 & m2 & Ht2 & Hi2 & Hle2 & Hall2).
      repeat split; try congruence; try discriminate.
      exists (pre ++ new1 ++ new2), m1, m2.
      rewrite Ht2, Ht1, Hpre, !touched_indices_app, Hpre0, Hi1, Hi2, <- !app_assoc.
      repeat split; auto; discriminate.
  - destruct (for_each_index_inv _ (map_buffer_names_its_index fd) _ _ _ _ _ _ _ Hmap)
      as ((Hc1 & Hf1 & Hd1 & Hl1 & Hb1) & new1 & m1 & Ht1 & Hi1 & Hle1 & Hall1).
    repeat split; try congruence; try discriminate.
    exists (pre ++ new1), m1, 0%nat.
    rewrite Ht1, Hpre, !touched_indices_app, Hpre0, Hi1, <- !app_assoc.
    cbn [indices_from map]. rewrite app_nil_r.
    repeat split; auto with lia; discriminate.
  - destruct (for_each_index_inv _ (map_buffer_names_its_index fd) _ _ _ _ _ _ _ Hmap)
      as ((Hc1 & Hf1 & Hd1 & Hl1 & Hb1) & new1 & m1 & Ht1 & Hi1 & Hle1 & Hall1).
    repeat split; try congruence; try discriminate.
    exists (pre ++ new1), m1, 0%nat.
    rewrite Ht1, Hpre, !touched_indices_app, Hpre0, Hi1, <- !app_assoc.
    cbn [indices_from map]. rewrite app_nil_r.
    repeat split; auto with lia; discriminate.
Qed.

(** *** [configure] as a whole *)

Lemma configure_inv c w r c' w' :
  configure c w = (r, c', w') ->
  let n := Z.to_nat (buffer_count_ (config_ c)) in
  fd_ c' = fd_ c /\
  last_buf_index_ c' = last_buf_index_ c /\
  length (buffers_ c') = length (buffers_ c) /\
  buffer_count_ (config_ c') = buffer_count_ (config_ c) /\
  (r = Return tt -> fd_ c' < 0 \/ configured_ c' = true) /\
  exists new m1 m2,
    trace w' = trace w ++ new /\
    touched_indices new = map u32 (indices_from m1 0) ++ map u32 (indices_from m2 0) /\
    (m1 <= n)%nat /\ (m2 <= n)%nat /\
    (r = Return tt -> (fd_ c <? 0) || configured_ c = false -> m1 = n /\ m2 = n).
Proof.
  intros Hrun n. rewrite configure_run in Hrun.
  destruct ((fd_ c <? 0) || configured_ c) eqn:Hguard.
  { injection Hrun as <- <- <-. repeat split.
    - intros _. apply orb_true_iff in Hguard as [Hfd | Hcfg]; [left; lia | now right].
    - exists [], 0%nat, 0%nat. rewrite app_nil_r.
      repeat split; auto with lia; discriminate. }
  cbn zeta in Hrun.
  destruct (negb (supported_format _)).
  { injection Hrun as <- <- <-. repeat split; try discriminate.
    exists [], 0%nat, 0%nat. rewrite app_nil_r.
    repeat split; auto with lia; discriminate. }
  destruct (sys (ioctl_S_FMT _ _) (kernel w)) as [[rc1 fmt1] k1].
  destruct (rc1 <? 0).
  { injection Hrun as <- <- <-. repeat split; try discriminate.
    eexists _, 0%nat, 0%nat.
    split; [destruct (errno k1 =? EBUSY); cbn [trace after_call after_print]; reflexivity |].
    repeat split; auto with lia; discriminate. }
  destruct (negb (_ =? _)).
  { injection Hrun as <- <- <-. repeat split; try discriminate.
    eexists _, 0%nat, 0%nat.
    split; [cbn [trace after_call after_print]; reflexivity |].
    repeat split; auto with lia; discriminate. }
  destruct (sys (ioctl_G_FMT _ _) k1) as [[rc2 fmt2] k2].
  destruct (rc2 <? 0).
  { injection Hrun as <- <- <-. repeat split; try discriminate.
    eexists _, 0%nat, 0%nat.
    split; [cbn [trace after_call after_print]; rewrite <- app_assoc; reflexivity |].
    repeat split; auto with lia; discriminate. }
  destruct (negb (_ =? _)).
  { injection Hrun as <- <- <-. repeat split; try discriminate.
    eexists _, 0%nat, 0%nat.
    split; [cbn [trace after_call after_print]; rewrite <- app_assoc; reflexivity |].
    repeat split; auto with lia; discriminate. }
  apply configure_buffers_inv in Hrun.
  cbn zeta in Hrun.
  cbn [config_ fd_ last_buf_index_ buffers_ set_config buffer_count_ with_format
       trace after_call after_print] in Hrun.
  destruct Hrun as (Hc & Hf & Hd & Hl & Hcfg & new & m1 & m2 & Ht & Hi & Hle1 & Hle2 & Hall).
  repeat split; auto.
  - now rewrite Hc.
  - eexists _, m1, m2.
    split; [rewrite Ht, <- !app_assoc; reflexivity |].
    rewrite !touched_indices_app. repeat split; auto; now apply Hall.
Qed.

Lemma u32_idem z : u32 (u32 z) = u32 z.
Proof. apply u32_small, u32_range. Qed.

(** C8: when the device was never opened or the engine is already
    configured, [configure] returns normally with the object, the kernel
    and the trace untouched; this covers a freshly constructed engine; and
    once [configure] has returned, calling it again is such a no-op. *)
Theorem configure_idempotent_noop c w :
  fd_ c < 0 \/ configured_ c = true ->
  configure c w = (Return tt, c, w) /\
  (forall cfg, configure (V4L2Camera_new cfg) w = (Return tt, V4L2Camera_new cfg, w)) /\
  (forall c0 w0 c' w',
     configure c0 w0 = (Return tt, c', w') ->
     configure c' w' = (Return tt, c', w')).
Proof.
  assert (Hnoop : forall c1 (w1 : world K),
             fd_ c1 < 0 \/ configured_ c1 = true ->
             configure c1 w1 = (Return tt, c1, w1)).
  { intros c1 w1 Hg. rewrite configure_run.
    assert (Hb : (fd_ c1 <? 0) || configured_ c1 = true).
    { apply orb_true_iff. destruct Hg as [Hfd | Hcfg]; [left | now right].
      now apply Z.ltb_lt. }
    now rewrite Hb. }
  intros Hguard. split; [now apply Hnoop |]. split.
  - intros cfg. apply Hnoop. left. cbn. lia.
  - intros c0 w0 c' w' Hrun. apply Hnoop.
    apply configure_inv in Hrun. cbn zeta in Hrun.
    destruct Hrun as (_ & _ & _ & _ & Hdone & _). now apply Hdone.
Qed.

(** C4: past the guard and the format validation, when the set-format call
    succeeds with a pixel format other than the requested one, [configure]
    throws at once (the object is untouched and no further call is made).
    When the returned format is the requested one, the configuration holds
    that confirmed value however [configure] ends, the format is queried
    again, and [configure] throws unless the query succeeds and reports the
    confirmed value; only then does it go on to the frame rate and the
    buffers. *)
Theorem configure_verifies_format c w rc1 fmt1 k1 :
  (fd_ c <? 0) || configured_ c = false ->
  supported_format (u32 (format_ (config_ c))) = true ->
  sys (ioctl_S_FMT (fd_ c) (format_request c)) (kernel w) = ((rc1, fmt1), k1) ->
  0 <= rc1 ->
  let requested := u32 (format_ (config_ c)) in
  let returned := u32 (pix_pixelformat fmt1) in
  let w1 := after_call (ioctl_S_FMT (fd_ c) (format_request c)) (rc1, fmt1) k1 w in
  (returned <> requested ->
   configure c w =
     (Throw (runtime_error (Driver_rejected_pixel_format requested returned)), c, w1)) /\
  (returned = requested ->
   (forall r c' w', configure c w = (r, c', w') -> format_ (config_ c') = returned) /\
   forall rc2 fmt2 k2,
     sys (ioctl_G_FMT (fd_ c) format_query) k1 = ((rc2, fmt2), k2) ->
     let c1 := set_config (with_format returned (config_ c)) c in
     let w2 := after_call (ioctl_G_FMT (fd_ c) format_query) (rc2, fmt2) k2
                 (after_print (to_stdout (msg_negotiated_pixel_format (fourcc_str returned))) w1) in
     (rc2 < 0 -> configure c w = (Throw (runtime_error G_FMT_failed), c1, w2)) /\
     (0 <= rc2 -> u32 (pix_pixelformat fmt2) <> returned ->
      configure c w =
        (Throw (runtime_error (Driver_format_mismatch (u32 (pix_pixelformat fmt2)) returned)),
         c1, w2)) /\
     (0 <= rc2 -> u32 (pix_pixelformat fmt2) = returned ->
      configure c w = configure_buffers (fd_ c) c1 w2)).
Proof.
  intros Hguard Hsup E1 Hrc1 requested returned w1.
  assert (Hrun := configure_run c w).
  rewrite Hguard in Hrun. cbn zeta in Hrun.
  rewrite Hsup, E1 in Hrun. cbn [negb] in Hrun.
  destruct (Z.ltb_spec rc1 0) as [? | _]; [lia |].
  fold requested returned w1 in Hrun.
  split.
  - intros Hne. rewrite Hrun.
    destruct (Z.eqb_spec returned requested); [contradiction | reflexivity].
  - intros Heq.
    destruct (Z.eqb_spec returned requested) as [_ | ?]; [| contradiction].
    cbn [negb] in Hrun.
    destruct (sys (ioctl_G_FMT (fd_ c) format_query) k1) as [[rc2 fmt2] k2] eqn:E2.
    assert (Hidem : u32 returned = returned) by apply u32_idem.
    rewrite !Hidem in Hrun.
    split.
    + intros r c' w' Hres. rewrite Hrun in Hres.
      destruct (rc2 <? 0); [now injection Hres as <- <- <- |].
      destruct (negb _); [now injection Hres as <- <- <- |].
      apply configure_buffers_inv in Hres. cbn zeta in Hres.
      destruct Hres as (Hc & _). now rewrite Hc.
    + intros rc2' fmt2' k2' [= <- <- <-] c1 w2.
      repeat split.
      * intros Hneg. rewrite Hrun.
        destruct (Z.ltb_spec rc2 0); [reflexivity | lia].
      * intros Hpos Hne. rewrite Hrun.
        destruct (Z.ltb_spec rc2 0); [lia |].
        destruct (Z.eqb_spec (u32 (pix_pixelformat fmt2)) returned);
          [contradiction | reflexivity].
      * intros Hpos Heq2. rewrite Hrun.
        destruct (Z.ltb_spec rc2 0); [lia |].
        destruct (Z.eqb_spec (u32 (pix_pixelformat fmt2)) returned);
          [reflexivity | contradiction].
Qed.

(** *** Running [capture_frame] and [release_frame] against the kernel's answers *)

Lemma capture_frame_run c w rc buf k' :
  sys (ioctl_DQBUF (fd_ c) (capture_buffer 0)) (kernel w) = ((rc, buf), k') ->
  let w1 := after_call (ioctl_DQBUF (fd_ c) (capture_buffer 0)) (rc, buf) k' w in
  let index := u32 (buf_index buf) in
  capture_frame c w =
    if rc <? 0 then (Throw (runtime_error DQBUF_failed), c, w1)
    else if Z.of_nat (length (buffers_ c)) <=? index
    then (Throw (runtime_error (DQBUF_invalid_index index)), c, w1)
    else
      match buffers_ c !! Z.to_nat index with
      | None => (Undefined, set_last_buf_index (Some index) c, w1)
      | Some mapped =>
          let '(now, k2) := sys steady_clock_now_us k' in
          (Return (frame_of c buf mapped now),
           set_last_buf_index (Some index) c,
           after_call steady_clock_now_us now k2 w1)
      end.
Proof.
  intros E. unfold capture_frame, bind, member. cbn beta iota.
  rewrite (call_eq _ _ _ _ _ E). cbn beta iota.
  destruct (rc <? 0); [reflexivity |].
  destruct (Z.of_nat (length (buffers_ c)) <=? u32 (buf_index buf)); [reflexivity |].
  unfold assign. cbn beta iota.
  destruct (buffers_ c !! Z.to_nat (u32 (buf_index buf))) as [mapped|]; [| reflexivity].
  cbn [config_ set_last_buf_index].
  unfold frame_of.
  destruct (dimensions_decompress _) as [wd ht].
  unfold call. change (kernel (after_call ?s ?r ?k ?w)) with k.
  destruct (sys steady_clock_now_us k') as [now k2]. reflexivity.
Qed.

Lemma release_frame_run c w index rc buf k' :
  last_buf_index_ c = Some index ->
  sys (ioctl_QBUF (fd_ c) (capture_buffer index)) (kernel w) = ((rc, buf), k') ->
  let w1 := after_call (ioctl_QBUF (fd_ c) (capture_buffer index)) (rc, buf) k' w in
  release_frame c w =
    if rc <? 0 then (Throw (runtime_error (QBUF_failed_for index)), c, w1)
    else (Return tt, set_last_buf_index None c, w1).
Proof.
  intros Hsome E. unfold release_frame, bind, member. cbn beta iota.
  rewrite Hsome. cbn beta iota.
  rewrite (call_eq _ _ _ _ _ E). cbn [fst].
  destruct (rc <? 0); reflexivity.
Qed.

(** A successful capture leaves the marker set to the dequeued index,
    which lies within the pool. *)
Lemma capture_frame_Return_inv c w v c1 w1 :
  capture_frame c w = (Return v, c1, w1) ->
  exists rc buf k' mapped now k2,
    sys (ioctl_DQBUF (fd_ c) (capture_buffer 0)) (kernel w) = ((rc, buf), k') /\
    0 <= rc /\
    u32 (buf_index buf) < Z.of_nat (length (buffers_ c)) /\
    buffers_ c !! Z.to_nat (u32 (buf_index buf)) = Some mapped /\
    sys steady_clock_now_us k' = (now, k2) /\
    v = frame_of c buf mapped now /\
    c1 = set_last_buf_index (Some (u32 (buf_index buf))) c /\
    w1 = after_call steady_clock_now_us now k2
           (after_call (ioctl_DQBUF (fd_ c) (capture_buffer 0)) (rc, buf) k' w).
Proof.
  destruct (sys (ioctl_DQBUF (fd_ c) (capture_buffer 0)) (kernel w))
    as [[rc buf] k'] eqn:E.
  rewrite (capture_frame_run _ _ _ _ _ E). cbn zeta.
  destruct (Z.ltb_spec rc 0); [discriminate |].
  destruct (Z.leb_spec (Z.of_nat (length (buffers_ c))) (u32 (buf_index buf)));
    [discriminate |].
  destruct (buffers_ c !! Z.to_nat (u32 (buf_index buf))) as [mapped|] eqn:Hm;
    [| discriminate].
  destruct (sys steady_clock_now_us k') as [now k2] eqn:Hc.
  intros [= <- <- <-].
  exists rc, buf, k', mapped, now, k2. repeat split; auto.
Qed.

Lemma release_frame_Return_inv c w c2 w2 index :
  last_buf_index_ c = Some index ->
  release_frame c w = (Return tt, c2, w2) ->
  c2 = set_last_buf_index None c.
Proof.
  intros Hsome.
  destruct (sys (ioctl_QBUF (fd_ c) (capture_buffer index)) (kernel w))
    as [[rc buf] k'] eqn:E.
  rewrite (release_frame_run _ _ _ _ _ _ Hsome E). cbn zeta.
  destruct (rc <? 0); [discriminate |]. now intros [= <- <-].
Qed.

(** C6: after a successful [capture_frame], [has_valid_frame] is true;
    after the successful [release_frame] that follows it is false; and a
    second [release_frame] then leaves the object, the kernel and the
    trace as they are (it only prints the warning). *)
Theorem has_valid_frame_tracks_cycle c w v c1 w1 :
  capture_frame c w = (Return v, c1, w1) ->
  has_valid_frame c1 = true /\
  forall c2 w2,
    release_frame c1 w1 = (Return tt, c2, w2) ->
    has_valid_frame c2 = false /\
    release_frame c2 w2 =
      (Return tt, c2, after_print (to_stderr msg_release_frame_without_index) w2).
Proof.
  intros Hcap.
  destruct (capture_frame_Return_inv _ _ _ _ _ Hcap)
    as (rc & buf & k' & mapped & now & k2 & _ & _ & _ & _ & _ & _ & -> & _).
  split; [reflexivity |].
  intros c2 w2 Hrel.
  apply release_frame_Return_inv with (index := u32 (buf_index buf)) in Hrel;
    [| reflexivity].
  subst c2. split; [reflexivity |].
  now apply release_frame_warns.
Qed.

(** C9: when the requeue inside [release_frame] fails, [release_frame]
    throws, the object (and so the marker) is unchanged, and the next
    [release_frame] makes the same enqueue call for the same index. *)
Theorem release_frame_requeue_failure c w index rc buf k' :
  last_buf_index_ c = Some index ->
  sys (ioctl_QBUF (fd_ c) (capture_buffer index)) (kernel w) = ((rc, buf), k') ->
  rc < 0 ->
  let w1 := after_call (ioctl_QBUF (fd_ c) (capture_buffer index)) (rc, buf) k' w in
  release_frame c w = (Throw (runtime_error (QBUF_failed_for index)), c, w1) /\
  has_valid_frame c = true /\
  exists r c2 reply k2,
    release_frame c w1 =
      (r, c2, after_call (ioctl_QBUF (fd_ c) (capture_buffer index)) reply k2 w1).
Proof.
  intros Hsome E Hrc w1. split; [| split].
  - rewrite (release_frame_run _ _ _ _ _ _ Hsome E). cbn zeta.
    destruct (Z.ltb_spec rc 0); [reflexivity | lia].
  - unfold has_valid_frame. now rewrite Hsome.
  - destruct (sys (ioctl_QBUF (fd_ c) (capture_buffer index)) (kernel w1))
      as [[rc2 buf2] k2] eqn:E2.
    rewrite (release_frame_run _ _ _ _ _ _ Hsome E2). cbn zeta.
    destruct (rc2 <? 0); eauto 6.
Qed.

(** [capture_frame] never reads the marker: its outcome and its effect on
    the world are the same whatever the marker holds. *)
Lemma capture_frame_marker_blind c w m :
  fst (fst (capture_frame (set_last_buf_index m c) w)) = fst (fst (capture_frame c w)) /\
  snd (capture_frame (set_last_buf_index m c) w) = snd (capture_frame c w).
Proof.
  destruct (sys (ioctl_DQBUF (fd_ c) (capture_buffer 0)) (kernel w))
    as [[rc buf] k'] eqn:E.
  rewrite (capture_frame_run c _ _ _ _ E).
  rewrite (capture_frame_run (set_last_buf_index m c) _ _ _ _ E).
  cbn zeta. cbn [set_last_buf_index buffers_ fd_].
  destruct (rc <? 0); [auto |].
  destruct (_ <=? _); [auto |].
  destruct (buffers_ c !! _); [| auto].
  destruct (sys steady_clock_now_us k'). auto.
Qed.

(** C10: [capture_frame] does not look at the marker.  Called with a
    buffer [old] outstanding it behaves as with none, and on success the
    marker holds the newly dequeued index; the [release_frame] that follows
    enqueues that index, and once it has returned nothing is outstanding:
    [old] is not enqueued by the engine again. *)
Theorem capture_frame_overwrites_marker c w old :
  let c_out := set_last_buf_index (Some old) c in
  fst (fst (capture_frame c_out w)) = fst (fst (capture_frame c w)) /\
  snd (capture_frame c_out w) = snd (capture_frame c w) /\
  forall v c1 w1,
    capture_frame c_out w = (Return v, c1, w1) ->
    exists rc buf k',
      sys (ioctl_DQBUF (fd_ c) (capture_buffer 0)) (kernel w) = ((rc, buf), k') /\
      last_buf_index_ c1 = Some (u32 (buf_index buf)) /\
      exists r c2 reply k2,
        release_frame c1 w1 =
          (r, c2, after_call (ioctl_QBUF (fd_ c) (capture_buffer (u32 (buf_index buf))))
                             reply k2 w1) /\
        (r = Return tt -> last_buf_index_ c2 = None).
Proof.
  intros c_out.
  destruct (capture_frame_marker_blind c w (Some old)) as [Ho Hw].
  split; [exact Ho |]. split; [exact Hw |].
  intros v c1 w1 Hcap.
  destruct (capture_frame_Return_inv _ _ _ _ _ Hcap)
    as (rc & buf & k' & mapped & now & k2 & E & _ & _ & _ & _ & _ & -> & _).
  exists rc, buf, k'. split; [exact E |]. split; [reflexivity |].
  set (c1 := set_last_buf_index (Some (u32 (buf_index buf))) c_out).
  assert (Hsome : last_buf_index_ c1 = Some (u32 (buf_index buf))) by reflexivity.
  destruct (sys (ioctl_QBUF (fd_ c1) (capture_buffer (u32 (buf_index buf)))) (kernel w1))
    as [[rc2 buf2] k3] eqn:E2.
  rewrite (release_frame_run _ _ _ _ _ _ Hsome E2). cbn zeta.
  change (fd_ c1) with (fd_ c).
  destruct (rc2 <? 0).
  - eexists _, _, _, _. split; [reflexivity | discriminate].
  - eexists _, _, _, _. split; [reflexivity | reflexivity].
Qed.

(** C2 (as the code has it): when the dequeue succeeds and the reported
    index lies outside the pool, [capture_frame] throws and returns no
    view; when it lies inside, the view starts at that pool entry and its
    length is the reported bytes-used value, whatever the entry's mapped
    length: it stays within the mapping exactly when the reported value
    does. *)
Theorem capture_frame_view c w rc buf k' :
  sys (ioctl_DQBUF (fd_ c) (capture_buffer 0)) (kernel w) = ((rc, buf), k') ->
  0 <= rc ->
  let index := u32 (buf_index buf) in
  let w1 := after_call (ioctl_DQBUF (fd_ c) (capture_buffer 0)) (rc, buf) k' w in
  (Z.of_nat (length (buffers_ c)) <= index ->
   capture_frame c w = (Throw (runtime_error (DQBUF_invalid_index index)), c, w1)) /\
  (index < Z.of_nat (length (buffers_ c)) ->
   exists mapped v c1 w2,
     buffers_ c !! Z.to_nat index = Some mapped /\
     capture_frame c w = (Return v, c1, w2) /\
     last_buf_index_ c1 = Some index /\
     buffers_ c1 = buffers_ c /\
     span_data (image v) = data mapped /\
     span_size (image v) = u32 (buf_bytesused buf) /\
     (span_size (image v) <= size mapped <-> u32 (buf_bytesused buf) <= size mapped)).
Proof.
  intros E Hrc index w1.
  rewrite (capture_frame_run _ _ _ _ _ E). cbn zeta. fold index. fold w1.
  destruct (Z.ltb_spec rc 0); [lia |].
  split; intros Hidx.
  - destruct (Z.leb_spec (Z.of_nat (length (buffers_ c))) index); [reflexivity | lia].
  - destruct (Z.leb_spec (Z.of_nat (length (buffers_ c))) index); [lia |].
    assert (Hlt : (Z.to_nat index < length (buffers_ c))%nat).
    { pose proof (u32_range (buf_index buf)). unfold index in *. lia. }
    destruct (lookup_lt_is_Some_2 _ _ Hlt) as [mapped Hm].
    rewrite Hm. destruct (sys steady_clock_now_us k') as [now k2].
    exists mapped. eexists _, _, _. split; [reflexivity |].
    split; [reflexivity |]. cbn. repeat split; auto.
Qed.

(** *** The granted count is not read *)

Lemma sys_regranted g {R} (s : syscall R) (k : K) :
  @sys K (regranted g) R s k = (regrant_reply g s (fst (sys s k)), snd (sys s k)).
Proof. reflexivity. Qed.

Lemma grant_related_refl g (w : world K) : grant_related g (trace w) w w.
Proof.
  split; [reflexivity |]. split; [reflexivity |].
  exists []. cbn [map]. rewrite app_nil_r. split; reflexivity.
Qed.

Lemma blind_ret g {A} (a : A) : grant_blind (K := K) g (ret a) (ret a).
Proof. intros t0 c w w2 Hrel. cbn. auto. Qed.

Lemma blind_throw g {A} e : grant_blind (K := K) (A := A) g (throw e) (throw e).
Proof. intros t0 c w w2 Hrel. cbn. auto. Qed.

Lemma blind_undefined g {A} : grant_blind (K := K) (A := A) g undefined undefined.
Proof. intros t0 c w w2 Hrel. cbn. auto. Qed.

Lemma blind_member g {A} (f : V4L2Camera -> A) :
  grant_blind (K := K) g (member f) (member f).
Proof. intros t0 c w w2 Hrel. cbn. auto. Qed.

Lemma blind_assign g f : grant_blind (K := K) g (assign f) (assign f).
Proof. intros t0 c w w2 Hrel. cbn. auto. Qed.

Lemma blind_print g o : grant_blind (K := K) g (print o) (print o).
Proof.
  intros t0 c w w2 (Hk & Hc & Ht). unfold print, grant_related.
  cbn [fst snd kernel trace console after_print]. rewrite Hc. auto.
Qed.

Lemma blind_read_errno g : grant_blind (K := K) g (@read_errno K (regranted g)) read_errno.
Proof.
  intros t0 c w w2 Hrel. unfold read_errno. cbn [fst snd].
  destruct Hrel as (Hk & Hrest). rewrite Hk.
  split; [reflexivity |]. split; [reflexivity |]. split; [exact Hk | exact Hrest].
Qed.

Lemma blind_bind g {A B} (m2 m : action A) (k2 k : A -> action B) :
  grant_blind (K := K) g m2 m ->
  (forall a, grant_blind (K := K) g (k2 a) (k a)) ->
  grant_blind (K := K) g (bind m2 k2) (bind m k).
Proof.
  intros Hm Hk t0 c w w2 Hrel. unfold bind.
  specialize (Hm t0 c w w2 Hrel).
  destruct (m c w) as [[r c1] w1], (m2 c w2) as [[r2 c2] w2'].
  cbn [fst snd] in Hm. destruct Hm as (-> & -> & Hrel').
  destruct r as [a | e |]; [now apply Hk | cbn; auto | cbn; auto].
Qed.

Lemma blind_when g b (m2 m : action unit) :
  grant_blind (K := K) g m2 m -> grant_blind (K := K) g (when b m2) (when b m).
Proof. intros Hm. destruct b; [exact Hm | apply blind_ret]. Qed.

Lemma blind_for_each_index g (body2 body : Z -> action unit) :
  (forall i, grant_blind (K := K) g (body2 i) (body i)) ->
  forall n i, grant_blind (K := K) g (for_each_index n i body2) (for_each_index n i body).
Proof.
  intros Hbody. induction n as [| n IH]; intros i; cbn [for_each_index].
  - apply blind_ret.
  - apply blind_bind; [apply Hbody | intros _; apply IH].
Qed.

Lemma grant_related_after_call g t0 {R} (s : syscall R) r k' (w w2 : world K) :
  grant_related g t0 w w2 ->
  grant_related g t0 (after_call s r k' w) (after_call s (regrant_reply g s r) k' w2).
Proof.
  intros (Hk & Hc & new & Ht & Ht2).
  split; [reflexivity |]. split; [exact Hc |].
  exists (new ++ [Ev s r]). cbn [trace after_call].
  rewrite Ht, Ht2, map_app, <- !app_assoc. split; reflexivity.
Qed.

(** Every call but request-buffers is answered alike. *)
Lemma blind_call g {R} (s : syscall R) :
  (forall r, regrant_reply g s r = r) ->
  grant_blind (K := K) g (@call K (regranted g) R s) (call s).
Proof.
  intros Hid t0 c w w2 Hrel. unfold call.
  rewrite sys_regranted. destruct Hrel as (Hk & Hrest). rewrite Hk, Hid.
  destruct (sys s (kernel w)) as [r k']. cbn [fst snd].
  split; [reflexivity |]. split; [reflexivity |].
  rewrite <- (Hid r) at 2.
  apply grant_related_after_call. split; [exact Hk | exact Hrest].
Qed.

(** What follows request-buffers is handed the other count. *)
Lemma blind_bind_reqbufs g {B} fd req
    (k2 k : Z * v4l2_requestbuffers -> action B) :
  (forall rc granted, grant_blind (K := K) g (k2 (rc, with_count g granted)) (k (rc, granted))) ->
  grant_blind (K := K) g (bind (@call K (regranted g) _ (ioctl_REQBUFS fd req)) k2)
                (bind (call (ioctl_REQBUFS fd req)) k).
Proof.
  intros Hk t0 c w w2 Hrel. unfold bind, call.
  rewrite sys_regranted. destruct Hrel as (Hke & Hrest). rewrite Hke.
  destruct (sys (ioctl_REQBUFS fd req) (kernel w)) as [[rc granted] k'].
  cbn [fst snd regrant_reply].
  apply Hk.
  apply (grant_related_after_call g t0 (ioctl_REQBUFS fd req) (rc, granted) k').
  split; [exact Hke | exact Hrest].
Qed.

Ltac blind :=
  repeat match goal with
  | |- grant_blind _ (ret _) (ret _) => apply blind_ret
  | |- grant_blind _ (throw _) (throw _) => apply blind_throw
  | |- grant_blind _ undefined undefined => apply blind_undefined
  | |- grant_blind _ (member _) (member _) => apply blind_member
  | |- grant_blind _ (assign _) (assign _) => apply blind_assign
  | |- grant_blind _ (print _) (print _) => apply blind_print
  | |- grant_blind _ (@read_errno _ _) (@read_errno _ _) => apply blind_read_errno
  | |- grant_blind _ (when _ _) (when _ _) => apply blind_when
  | |- grant_blind _ (for_each_index _ _ _) (for_each_index _ _ _) =>
      apply blind_for_each_index; intros
  | |- grant_blind _ (bind (@call _ _ _ (ioctl_REQBUFS _ _)) _) _ =>
      apply blind_bind_reqbufs; intros; cbv beta; cbn [fst snd]
  | |- grant_blind _ (bind _ _) (bind _ _) => apply blind_bind; [| intros]
  | |- grant_blind _ (@call _ _ _ _) (@call _ _ _ _) =>
      apply blind_call; intros; reflexivity
  | |- grant_blind _ (if ?b then _ else _) _ => destruct b
  | |- grant_blind _ (match ?p with pair _ _ => _ end) _ => destruct p
  end.

Lemma blind_store_buffer g i b :
  grant_blind (K := K) g (store_buffer i b) (store_buffer i b).
Proof. unfold store_buffer. blind. Qed.

Lemma blind_map_buffer g fd i :
  grant_blind (K := K) g (@map_buffer K (regranted g) fd i) (map_buffer fd i).
Proof. unfold map_buffer. blind. apply blind_store_buffer. Qed.

Lemma blind_enqueue_buffer g fd i :
  grant_blind (K := K) g (@enqueue_buffer K (regranted g) fd i) (enqueue_buffer fd i).
Proof. unfold enqueue_buffer. blind. Qed.

Lemma blind_configure g : grant_blind (K := K) g (@configure K (regranted g)) configure.
Proof.
  unfold configure. blind;
    first [apply blind_map_buffer | apply blind_enqueue_buffer].
Qed.

(** [configure] on the kernel that reports [g] ends as on the kernel
    itself, with the same object, in the same kernel state and after the
    same calls. *)
Lemma configure_regranted g c w r c' w' :
  configure c w = (r, c', w') ->
  exists new,
    trace w' = trace w ++ new /\
    @configure K (regranted g) c w
    = (r, c', {| kernel := kernel w';
                 trace := trace w ++ map (regrant_event g) new;
                 console := console w' |}).
Proof.
  intros Hrun.
  destruct (blind_configure g (trace w) c w w (grant_related_refl g w))
    as (Hr & Hc & Hk & Hcons & new & Ht & Ht2).
  rewrite Hrun in Hr, Hc, Hk, Hcons, Ht. cbn [fst snd] in Hr, Hc, Hk, Hcons, Ht.
  exists new. split; [exact Ht |].
  destruct (@configure K (regranted g) c w) as [[r2 c2] w2].
  cbn [fst snd] in Hr, Hc, Hk, Hcons, Ht2. subst r2 c2.
  destruct w2 as [k2 t2 o2]. cbn [kernel trace console] in Hk, Hcons, Ht2.
  now subst.
Qed.

Lemma granted_counts_regranted g t :
  granted_counts (map (regrant_event g) t) = map (fun _ => g) (granted_counts t).
Proof.
  induction t as [| e t IH]; [reflexivity |].
  assert (Hcons : forall e0 t0,
             granted_counts (e0 :: t0)
             = match granted_count e0 with
               | Some x => x :: granted_counts t0
               | None => granted_counts t0
               end) by reflexivity.
  cbn [map]. rewrite !Hcons, IH.
  destruct e as [R s r]. destruct s; reflexivity.
Qed.

(** *** Queries come before enqueues *)

Lemma for_each_index_reads (f f0 : event -> option Z) (body : Z -> action unit) :
  (forall i c w r c' w',
     body i c w = (r, c', w') ->
     exists new, trace w' = trace w ++ new /\ omap f new = [u32 i] /\ omap f0 new = []) ->
  forall n i c w r c' w',
    for_each_index n i body c w = (r, c', w') ->
    exists new m,
      trace w' = trace w ++ new /\
      omap f new = map u32 (indices_from m i) /\
      omap f0 new = [] /\
      (m <= n)%nat /\
      (r = Return tt -> m = n).
Proof.
  intros Hbody. induction n as [| n IH]; intros i c w r c' w' Hrun.
  - cbn in Hrun. unfold ret in Hrun. injection Hrun as <- <- <-.
    exists [], 0%nat. rewrite app_nil_r. auto.
  - cbn [for_each_index] in Hrun.
    apply bind_inv in Hrun
      as [(a & c1 & w1 & Hb & Hrest) | [(e & Hb & ->) | [Hb ->]]].
    + destruct (Hbody _ _ _ _ _ _ Hb) as (new1 & Ht1 & Hi1 & Hz1).
      destruct (IH _ _ _ _ _ _ Hrest) as (new2 & m & Ht2 & Hi2 & Hz2 & Hle & Hall).
      exists (new1 ++ new2), (S m).
      rewrite Ht2, Ht1, app_assoc, !omap_app, Hi1, Hi2, Hz1, Hz2.
      repeat split; auto with lia.
    + destruct (Hbody _ _ _ _ _ _ Hb) as (new1 & Ht1 & Hi1 & Hz1).
      exists new1, 1%nat. repeat split; auto with lia. discriminate.
    + destruct (Hbody _ _ _ _ _ _ Hb) as (new1 & Ht1 & Hi1 & Hz1).
      exists new1, 1%nat. repeat split; auto with lia. discriminate.
Qed.

Ltac trace_reads :=
  eexists; split;
  [cbn [trace after_call]; rewrite <- ?app_assoc; reflexivity | split; reflexivity].

Lemma map_buffer_queries fd i c w r c' w' :
  map_buffer fd i c w = (r, c', w') ->
  exists new,
    trace w' = trace w ++ new /\
    omap queried_index new = [u32 i] /\ omap enqueued_index new = [].
Proof.
  unfold map_buffer.
  unfold bind at 1, call at 1.
  destruct (sys (ioctl_QUERYBUF _ _) (kernel w)) as [[rc buf] k1].
  cbn beta iota zeta.
  destruct (rc <? 0).
  { unfold bind, read_errno, throw. cbn beta iota. intros [= <- <- <-]. trace_reads. }
  unfold bind at 1, call at 1.
  change (kernel (after_call ?s ?r0 ?k ?w0)) with k.
  destruct (sys (sys_mmap _ _ _ _ _ _) k1) as [mapped k2].
  cbn beta iota zeta.
  destruct (mapped =? MAP_FAILED).
  { unfold bind, read_errno, throw. cbn beta iota. intros [= <- <- <-]. trace_reads. }
  unfold store_buffer, bind, member. cbn beta iota.
  destruct (decide _); unfold assign, undefined; intros [= <- <- <-]; trace_reads.
Qed.

Lemma enqueue_buffer_enqueues fd i c w r c' w' :
  enqueue_buffer fd i c w = (r, c', w') ->
  exists new,
    trace w' = trace w ++ new /\
    omap enqueued_index new = [u32 i] /\ omap queried_index new = [].
Proof.
  unfold enqueue_buffer.
  unfold bind at 1, call at 1.
  destruct (sys (ioctl_QBUF _ _) (kernel w)) as [[rc buf] k1].
  cbn beta iota zeta. cbn [fst].
  destruct (rc <? 0); unfold bind, read_errno, throw, ret; cbn beta iota;
    intros [= <- <- <-]; trace_reads.
Qed.

Lemma no_buffer_named n (complete : Prop) t :
  queried_indices t = [] -> enqueued_indices t = [] -> ~ complete ->
  queries_then_enqueues n complete t.
Proof.
  intros Hq He Hno. exists t, [], 0%nat, 0%nat. rewrite app_nil_r.
  repeat split; auto with lia; try tauto; try congruence.
Qed.

Lemma queries_then_enqueues_after n (complete : Prop) pre new :
  queried_indices pre = [] -> enqueued_indices pre = [] ->
  queries_then_enqueues n complete new ->
  queries_then_enqueues n complete (pre ++ new).
Proof.
  intros Hq He (front & back & m1 & m2 & -> & Hqf & Hef & Hqb & Heb & H1 & H2 & H3 & H4).
  exists (pre ++ front), back, m1, m2.
  unfold queried_indices, enqueued_indices in *.
  rewrite !omap_app, Hq, He, Hqf, Hef, app_assoc. repeat split; auto; now apply H4.
Qed.

Lemma queries_then_enqueues_when n (complete complete' : Prop) new :
  (complete' -> complete) ->
  queries_then_enqueues n complete new ->
  queries_then_enqueues n complete' new.
Proof.
  intros Himp (front & back & m1 & m2 & Hn & Hqf & Hef & Hqb & Heb & H1 & H2 & H3 & H4).
  exists front, back, m1, m2. repeat split; auto; now apply H4, Himp.
Qed.

Lemma configure_buffers_order fd c w r c' w' :
  configure_buffers fd c w = (r, c', w') ->
  exists new,
    trace w' = trace w ++ new /\
    queries_then_enqueues (Z.to_nat (buffer_count_ (config_ c))) (r = Return tt) new.
Proof.
  intros Hrun. set (n := Z.to_nat (buffer_count_ (config_ c))).
  unfold configure_buffers in Hrun.
  unfold bind at 1, member at 1 in Hrun. cbn beta iota in Hrun.
  unfold bind at 1, call at 1 in Hrun.
  destruct (sys (ioctl_S_PARM _ _) (kernel w)) as [[rc1 parm] k1].
  cbn beta iota zeta in Hrun. cbn [fst] in Hrun.
  destruct (rc1 <? 0).
  { unfold bind, read_errno, throw in Hrun. cbn beta iota in Hrun.
    injection Hrun as <- <- <-.
    eexists. split; [cbn [trace after_call]; reflexivity |].
    apply no_buffer_named; [reflexivity | reflexivity | discriminate]. }
  unfold bind at 1, member at 1 in Hrun. cbn beta iota in Hrun.
  unfold bind at 1, call at 1 in Hrun.
  change (kernel (after_call ?s ?r0 ?k ?w0)) with k in Hrun.
  destruct (sys (ioctl_REQBUFS _ _) k1) as [[rc2 req] k2].
  cbn beta iota zeta in Hrun. cbn [fst] in Hrun.
  destruct (rc2 <? 0).
  { unfold bind, read_errno, throw in Hrun. cbn beta iota in Hrun.
    injection Hrun as <- <- <-.
    eexists. split; [cbn [trace after_call]; rewrite <- app_assoc; reflexivity |].
    apply no_buffer_named; [reflexivity | reflexivity | discriminate]. }
  fold n in Hrun.
  set (w2 := after_call (ioctl_REQBUFS fd _) (rc2, req) k2 _) in Hrun.
  assert (Hw2 : exists pre, trace w2 = trace w ++ pre /\
                            queried_indices pre = [] /\ enqueued_indices pre = []).
  { eexists. subst w2. cbn [trace after_call]. rewrite <- app_assoc.
    split; [reflexivity |]. split; reflexivity. }
  destruct Hw2 as (pre & Hpre & Hq0 & He0). clearbody w2.
  apply bind_inv in Hrun
    as [(a & c1 & w3 & Hmap & Hrun) | [(e & Hmap & ->) | [Hmap ->]]].
  - destruct (for_each_index_reads _ _ _ (map_buffer_queries fd) _ _ _ _ _ _ _ Hmap)
      as (new1 & m1 & Ht1 & Hi1 & Hz1 & Hle1 & Hall1).
    specialize (Hall1 ltac:(destruct a; reflexivity)).
    assert (Hshape : forall new2 m2 (complete : Prop),
               omap enqueued_index new2 = map u32 (indices_from m2 0) ->
               omap queried_index new2 = [] ->
               (m2 <= n)%nat -> (complete -> m2 = n) ->
               queries_then_enqueues n complete (pre ++ new1 ++ new2)).
    { intros new2 m2 complete Hi2 Hz2 Hle2 Hall2.
      rewrite app_assoc. exists (pre ++ new1), new2, m1, m2.
      unfold queried_indices, enqueued_indices in *.
      rewrite !omap_app, Hq0, He0, Hi1, Hz1.
      repeat split; auto. }
    apply bind_inv in Hrun
      as [(a2 & c2 & w4 & Henq & Hrun) | [(e & Henq & ->) | [Henq ->]]].
    + destruct (for_each_index_reads _ _ _ (enqueue_buffer_enqueues fd) _ _ _ _ _ _ _ Henq)
        as (new2 & m2 & Ht2 & Hi2 & Hz2 & Hle2 & Hall2).
      unfold assign in Hrun. injection Hrun as <- <- <-.
      exists (pre ++ new1 ++ new2).
      split; [rewrite Ht2, Ht1, Hpre, <- !app_assoc; reflexivity |].
      apply Hshape with (m2 := m2); auto.
      intros _. apply Hall2. destruct a2; reflexivity.
    + destruct (for_each_index_reads _ _ _ (enqueue_buffer_enqueues fd) _ _ _ _ _ _ _ Henq)
        as (new2 & m2 & Ht2 & Hi2 & Hz2 & Hle2 & Hall2).
      exists (pre ++ new1 ++ new2).
      split; [rewrite Ht2, Ht1, Hpre, <- !app_assoc; reflexivity |].
      apply Hshape with (m2 := m2); auto.
    + destruct (for_each_index_reads _ _ _ (enqueue_buffer_enqueues fd) _ _ _ _ _ _ _ Henq)
        as (new2 & m2 & Ht2 & Hi2 & Hz2 & Hle2 & Hall2).
      exists (pre ++ new1 ++ new2).
      split; [rewrite Ht2, Ht1, Hpre, <- !app_assoc; reflexivity |].
      apply Hshape with (m2 := m2); auto.
  - destruct (for_each_index_reads _ _ _ (map_buffer_queries fd) _ _ _ _ _ _ _ Hmap)
      as (new1 & m1 & Ht1 & Hi1 & Hz1 & Hle1 & Hall1).
    exists (pre ++ new1). split; [rewrite Ht1, Hpre, <- !app_assoc; reflexivity |].
    exists (pre ++ new1), [], m1, 0%nat. rewrite app_nil_r.
    unfold queried_indices, enqueued_indices in *.
    rewrite !omap_app, Hq0, He0, Hi1, Hz1.
    repeat split; auto with lia; try congruence; discriminate.
  - destruct (for_each_index_reads _ _ _ (map_buffer_queries fd) _ _ _ _ _ _ _ Hmap)
      as (new1 & m1 & Ht1 & Hi1 & Hz1 & Hle1 & Hall1).
    exists (pre ++ new1). split; [rewrite Ht1, Hpre, <- !app_assoc; reflexivity |].
    exists (pre ++ new1), [], m1, 0%nat. rewrite app_nil_r.
    unfold queried_indices, enqueued_indices in *.
    rewrite !omap_app, Hq0, He0, Hi1, Hz1.
    repeat split; auto with lia; try congruence; discriminate.
Qed.

Lemma configure_order c w r c' w' :
  configure c w = (r, c', w') ->
  exists new,
    trace w' = trace w ++ new /\
    queries_then_enqueues (Z.to_nat (buffer_count_ (config_ c)))
      (r = Return tt /\ (fd_ c <? 0) || configured_ c = false) new.
Proof.
  intros Hrun. rewrite configure_run in Hrun.
  destruct ((fd_ c <? 0) || configured_ c) eqn:Hguard.
  { injection Hrun as <- <- <-. exists []. rewrite app_nil_r.
    split; [reflexivity |].
    apply no_buffer_named; [reflexivity | reflexivity |]. intros [_ Hno]. discriminate. }
  cbn zeta in Hrun.
  destruct (negb (supported_format _)).
  { injection Hrun as <- <- <-. exists []. rewrite app_nil_r.
    split; [reflexivity |].
    apply no_buffer_named; [reflexivity | reflexivity |]. intros [Hno _]. discriminate. }
  destruct (sys (ioctl_S_FMT _ _) (kernel w)) as [[rc1 fmt1] k1].
  destruct (rc1 <? 0).
  { injection Hrun as <- <- <-. eexists.
    split; [destruct (errno k1 =? EBUSY); cbn [trace after_call after_print]; reflexivity |].
    apply no_buffer_named; [reflexivity | reflexivity |]. intros [Hno _]. discriminate. }
  destruct (negb (_ =? _)).
  { injection Hrun as <- <- <-. eexists.
    split; [cbn [trace after_call after_print]; reflexivity |].
    apply no_buffer_named; [reflexivity | reflexivity |]. intros [Hno _]. discriminate. }
  destruct (sys (ioctl_G_FMT _ _) k1) as [[rc2 fmt2] k2].
  destruct (rc2 <? 0).
  { injection Hrun as <- <- <-. eexists.
    split; [cbn [trace after_call after_print]; rewrite <- app_assoc; reflexivity |].
    apply no_buffer_named; [reflexivity | reflexivity |]. intros [Hno _]. discriminate. }
  destruct (negb (_ =? _)).
  { injection Hrun as <- <- <-. eexists.
    split; [cbn [trace after_call after_print]; rewrite <- app_assoc; reflexivity |].
    apply no_buffer_named; [reflexivity | reflexivity |]. intros [Hno _]. discriminate. }
  apply configure_buffers_order in Hrun.
  cbn [config_ set_config buffer_count_ with_format trace after_call after_print] in Hrun.
  destruct Hrun as (new & Ht & Hord).
  eexists. split; [rewrite Ht, <- !app_assoc; reflexivity |].
  cbn [app].
  apply (queries_then_enqueues_after _ _ [_; _]); [reflexivity | reflexivity |].
  eapply queries_then_enqueues_when; [| exact Hord]. tauto.
Qed.

(** C1 (as the code has it): [configure] works with the configured buffer
    count, whatever count the request-buffers call comes back with.  The
    pool is built with that many entries and keeps them; every index that
    [configure] names in a query-buffer or enqueue call is below the
    configured count; the queries run over the indices from 0 up and the
    enqueues, which start only after every configured index was queried,
    over the indices from 0 up, so that a [configure] that runs to its end
    has queried and then enqueued every index below the count; the granted
    count is not read: on a kernel that reports any other count [g] in its
    place, [configure] ends the same way, with the same object, in the same
    kernel state and after the same calls; and the bounds check of a later
    [capture_frame] is against the pool's size. *)
Theorem configure_uses_configured_count g c w r c' w' :
  configure c w = (r, c', w') ->
  let count := buffer_count_ (config_ c) in
  length (buffers_ (V4L2Camera_new (config_ c))) = Z.to_nat count /\
  length (buffers_ c') = length (buffers_ c) /\
  (exists new,
     trace w' = trace w ++ new /\
     Forall (fun i => 0 <= i < count) (touched_indices new) /\
     (r = Return tt -> (fd_ c <? 0) || configured_ c = false ->
      touched_indices new =
        map u32 (indices_from (Z.to_nat count) 0) ++
        map u32 (indices_from (Z.to_nat count) 0)) /\
     queries_then_enqueues (Z.to_nat count)
       (r = Return tt /\ (fd_ c <? 0) || configured_ c = false) new /\
     @configure K (regranted g) c w
     = (r, c', {| kernel := kernel w';
                  trace := trace w ++ map (regrant_event g) new;
                  console := console w' |}) /\
     granted_counts (map (regrant_event g) new)
     = map (fun _ => g) (granted_counts new)) /\
  (forall w2 rc buf k2,
     sys (ioctl_DQBUF (fd_ c') (capture_buffer 0)) (kernel w2) = ((rc, buf), k2) ->
     0 <= rc ->
     Z.of_nat (length (buffers_ c)) <= u32 (buf_index buf) <->
     fst (fst (capture_frame c' w2)) =
       Throw (runtime_error (DQBUF_invalid_index (u32 (buf_index buf))))).
Proof.
  intros Hrun count.
  destruct (configure_order _ _ _ _ _ Hrun) as (new1 & Ht1 & Hord).
  destruct (configure_regranted g _ _ _ _ _ Hrun) as (new2 & Ht2 & Hre).
  apply configure_inv in Hrun. cbn zeta in Hrun. fold count in Hrun.
  destruct Hrun as (_ & _ & Hlen & _ & _ & new & m1 & m2 & Ht & Hi & Hle1 & Hle2 & Hall).
  assert (new1 = new) by (rewrite Ht in Ht1; now apply app_inv_head in Ht1).
  assert (new2 = new) by (rewrite Ht in Ht2; now apply app_inv_head in Ht2).
  subst new1 new2.
  split; [| split; [exact Hlen | split]].
  - cbn [buffers_ V4L2Camera_new]. apply length_replicate.
  - exists new. split; [exact Ht |]. split; [| split; [| split; [| split]]].
    + rewrite Hi. apply Forall_app. split; now apply touched_below_count.
    + intros Hr Hg. destruct (Hall Hr Hg) as [-> ->]. exact Hi.
    + exact Hord.
    + exact Hre.
    + apply granted_counts_regranted.
  - intros w2 rc buf k2 E Hrc.
    rewrite (capture_frame_run _ _ _ _ _ E). cbn zeta. rewrite Hlen.
    destruct (Z.ltb_spec rc 0); [lia |].
    destruct (Z.leb_spec (Z.of_nat (length (buffers_ c))) (u32 (buf_index buf))).
    + cbn [fst]. tauto.
    + split; [lia |].
      destruct (buffers_ c' !! _); [| discriminate].
      destruct (sys steady_clock_now_us k2). discriminate.
Qed.

End EngineFacts.

(** ** More on the capture engine *)

Section EngineMore.

Context {K : Type} `{Kernel K}.
Implicit Types (c : V4L2Camera) (w : world K).

(** *** open_device *)

Lemma open_device_run c w :
  open_device c w =
    let path := device_path_ (config_ c) in
    let '(fd, k1) := sys (sys_open path O_RDWR) (kernel w) in
    let c1 := set_fd fd c in
    let w1 := after_call (sys_open path O_RDWR) fd k1 w in
    if fd <? 0 then
      (Throw (runtime_error (Failed_to_open_device (errno k1))), c1,
       if errno k1 =? EBUSY
       then after_print (to_stderr (msg_device_already_in_use path)) w1
       else w1)
    else
      let '((rc, cap), k2) := sys (ioctl_QUERYCAP fd v4l2_capability_zero) k1 in
      let w2 := after_call (ioctl_QUERYCAP fd v4l2_capability_zero) (rc, cap) k2 w1 in
      if rc <? 0 then (Throw (runtime_error (QUERYCAP_failed (errno k2))), c1, w2)
      else if Z.land (u32 (capabilities cap)) V4L2_CAP_VIDEO_CAPTURE =? 0
      then (Throw (runtime_error No_video_capture), c1, w2)
      else if Z.land (u32 (capabilities cap)) V4L2_CAP_STREAMING =? 0
      then (Throw (runtime_error No_streaming_io), c1, w2)
      else (Return tt,
            set_caps {| driver := cap_driver cap; card := cap_card cap |} c1, w2).
Proof.
  unfold open_device. unfold bind at 1, member at 1. cbn beta iota zeta.
  unfold bind at 1, call at 1.
  destruct (sys (sys_open _ _) (kernel w)) as [fd k1]. cbn beta iota zeta.
  unfold bind at 1, assign at 1. cbn beta iota.
  destruct (fd <? 0).
  { unfold bind, read_errno, when, print, throw, ret. cbn beta iota.
    change (kernel (after_call ?s ?r ?k ?w0)) with k.
    destruct (errno k1 =? EBUSY); reflexivity. }
  unfold bind at 1, call at 1.
  change (kernel (after_call ?s ?r ?k ?w0)) with k.
  destruct (sys (ioctl_QUERYCAP _ _) k1) as [[rc cap] k2]. cbn beta iota zeta.
  destruct (rc <? 0); [reflexivity |].
  destruct (_ =? 0); [reflexivity |].
  destruct (_ =? 0); reflexivity.
Qed.

(** *** cleanup *)

Lemma released_invalid b : is_valid (released b) = false.
Proof.
  unfold released. destruct (is_valid b) eqn:Hb; [reflexivity | exact Hb].
Qed.

Lemma released_of_invalid b : is_valid b = false -> released b = b.
Proof. intros Hb. unfold released. now rewrite Hb. Qed.

(** The loop of [cleanup]: one [munmap] per valid entry, in order, and
    nothing else. *)
Lemma cleanup_buffers_inv bufs c w :
  exists unmaps w',
    cleanup_buffers bufs c w = (Return (map released bufs), c, w') /\
    trace w' = trace w ++ unmaps /\
    console w' = console w /\
    Forall2 (fun e b => exists r : Z, e = Ev (sys_munmap (data b) (size b)) r)
            unmaps (List.filter is_valid bufs).
Proof.
  revert w. induction bufs as [| b rest IH]; intros w.
  - exists [], w. cbn. rewrite app_nil_r. repeat split. constructor.
  - cbn [cleanup_buffers map List.filter]. unfold bind at 1.
    unfold released at 1.
    destruct (is_valid b) eqn:Hb.
    + unfold bind at 1, call at 1.
      destruct (sys (sys_munmap (data b) (size b)) (kernel w)) as [r k1].
      cbn beta iota. unfold ret at 1. cbn beta iota.
      set (w1 := after_call (sys_munmap (data b) (size b)) r k1 w).
      destruct (IH w1) as (unmaps & w' & Hrun & Ht & Hc & Hall).
      unfold bind. rewrite Hrun. unfold ret.
      exists (Ev (sys_munmap (data b) (size b)) r :: unmaps), w'.
      repeat split; auto.
      * rewrite Ht. subst w1. cbn [trace after_call].
        rewrite <- app_assoc. reflexivity.
      * constructor; [eauto | exact Hall].
    + unfold ret at 1. cbn beta iota.
      destruct (IH w) as (unmaps & w' & Hrun & Ht & Hc & Hall).
      unfold bind. rewrite Hrun. unfold ret.
      exists unmaps, w'. repeat split; auto.
Qed.

Lemma unmaps_read unmaps valid :
  Forall2 (fun e b => exists r : Z, e = Ev (sys_munmap (data b) (size b)) r)
          unmaps valid ->
  unmapped_regions unmaps = map region_of valid /\
  kinds unmaps = replicate (length valid) k_munmap /\
  closed_fds unmaps = [] /\ mapped_regions unmaps = [] /\ fds unmaps = [].
Proof.
  induction 1 as [| e b unmaps valid [r ->] _ (IH1 & IH2 & IH3 & IH4 & IH5)].
  - repeat split.
  - unfold unmapped_regions, kinds, closed_fds, mapped_regions, fds in *.
    cbn. rewrite IH1, IH2, IH3, IH4, IH5. repeat split.
Qed.

Lemma cleanup_inv c w :
  exists unmaps closes w',
    cleanup c w =
      (Return tt, set_fd (-1) (set_buffers (map released (buffers_ c)) c), w') /\
    trace w' = trace w ++ unmaps ++ closes /\
    console w' = console w /\
    Forall2 (fun e b => exists r : Z, e = Ev (sys_munmap (data b) (size b)) r)
            unmaps (List.filter is_valid (buffers_ c)) /\
    (if 0 <=? fd_ c
     then exists r : Z, closes = [Ev (sys_close (fd_ c)) r]
     else closes = []).
Proof.
  destruct (cleanup_buffers_inv (buffers_ c) c w) as (unmaps & w1 & Hrun & Ht & Hc & Hall).
  unfold cleanup. unfold bind at 1, member at 1. cbn beta iota.
  unfold bind at 1. rewrite Hrun.
  unfold bind at 1, assign at 1. cbn beta iota.
  unfold bind at 1, member at 1. cbn beta iota.
  cbn [fd_ set_buffers].
  destruct (0 <=? fd_ c) eqn:Hfd.
  - unfold when, bind at 1. unfold bind at 1, call at 1.
    destruct (sys (sys_close (fd_ c)) (kernel w1)) as [r k2].
    cbn beta iota. unfold ret, assign.
    exists unmaps, [Ev (sys_close (fd_ c)) r]. eexists.
    split; [reflexivity |]. cbn [trace console after_call].
    rewrite Ht, <- app_assoc. repeat split; eauto.
  - unfold when, bind, ret, assign.
    exists unmaps, [], w1. rewrite app_nil_r. repeat split; auto.
Qed.

(** X5: [cleanup] never throws.  It unmaps exactly the valid pool entries,
    in pool order, then closes the descriptor if there is one, and makes no
    other call; afterwards the descriptor is [-1], no entry is valid and the
    pool has as many entries.  The configuration, the configured flag, the
    marker and the capability snapshot are left as they were. *)
Theorem cleanup_releases_everything c w :
  exists c' w' new,
    cleanup c w = (Return tt, c', w') /\
    fd_ c' = -1 /\
    Forall (fun b => is_valid b = false) (buffers_ c') /\
    length (buffers_ c') = length (buffers_ c) /\
    (config_ c' = config_ c /\ configured_ c' = configured_ c /\
     last_buf_index_ c' = last_buf_index_ c /\ caps_ c' = caps_ c) /\
    trace w' = trace w ++ new /\
    unmapped_regions new = map region_of (List.filter is_valid (buffers_ c)) /\
    kinds new = replicate (length (List.filter is_valid (buffers_ c))) k_munmap
                ++ (if 0 <=? fd_ c then [k_close] else []) /\
    closed_fds new = (if 0 <=? fd_ c then [fd_ c] else []).
Proof.
  destruct (cleanup_inv c w) as (unmaps & closes & w' & Hrun & Ht & _ & Hall & Hclose).
  destruct (unmaps_read _ _ Hall) as (Hu & Hk & Hcf & _ & _).
  eexists _, w', (unmaps ++ closes). split; [exact Hrun |].
  cbn [fd_ buffers_ config_ configured_ last_buf_index_ caps_ set_fd set_buffers].
  split; [reflexivity |]. split.
  { apply Forall_map. apply Forall_forall. intros b _. apply released_invalid. }
  split; [apply length_map |]. split; [repeat split |].
  split; [exact Ht |].
  unfold unmapped_regions, kinds, closed_fds in *.
  rewrite !omap_app, map_app, Hu, Hk, Hcf.
  destruct (0 <=? fd_ c).
  - destruct Hclose as [r ->]. cbn. rewrite app_nil_r. repeat split.
  - subst closes. cbn. rewrite !app_nil_r. repeat split.
Qed.

Lemma cleanup_quiet c w :
  fd_ c = -1 ->
  Forall (fun b => is_valid b = false) (buffers_ c) ->
  cleanup c w = (Return tt, c, w).
Proof.
  intros Hfd Hinv.
  assert (Hbufs : forall bufs, Forall (fun b => is_valid b = false) bufs ->
                  cleanup_buffers bufs c w = (Return bufs, c, w)).
  { induction 1 as [| b rest Hb _ IH]; [reflexivity |].
    cbn [cleanup_buffers]. unfold bind at 1. rewrite Hb.
    unfold ret at 1. cbn beta iota. unfold bind. rewrite IH. reflexivity. }
  unfold cleanup. unfold bind at 1, member at 1. cbn beta iota.
  unfold bind at 1. rewrite (Hbufs _ Hinv).
  unfold bind, assign, member, when, ret. cbn beta iota.
  cbn [fd_ set_buffers]. rewrite Hfd. cbn.
  destruct c; cbn in *. subst. reflexivity.
Qed.

(** X6: [cleanup] is safe to repeat: run again on what it left, it makes no
    call and changes nothing; and on a freshly constructed engine it makes
    no call either. *)
Theorem cleanup_idempotent c w :
  cleanup (snd (fst (cleanup c w))) (snd (cleanup c w))
  = (Return tt, snd (fst (cleanup c w)), snd (cleanup c w)) /\
  forall cfg, cleanup (V4L2Camera_new cfg) w = (Return tt, V4L2Camera_new cfg, w).
Proof.
  split.
  - destruct (cleanup_inv c w) as (unmaps & closes & w' & Hrun & _).
    rewrite Hrun. cbn [fst snd]. apply cleanup_quiet.
    + reflexivity.
    + cbn [buffers_ set_fd set_buffers]. apply Forall_map.
      apply Forall_forall. intros b _. apply released_invalid.
  - intros cfg. apply cleanup_quiet; [reflexivity |].
    cbn [buffers_ V4L2Camera_new]. apply Forall_replicate. reflexivity.
Qed.

(** *** open_device, continued *)

(** X7: when the node cannot be opened, [open_device] throws after that one
    call (no capability query is made), reports "already in use" on stderr
    exactly when the error is [EBUSY], and leaves the negative result in the
    descriptor, so that [configure] on the engine is a no-op and [cleanup]
    closes nothing. *)
Theorem open_device_cannot_open c w fd k1 :
  sys (sys_open (device_path_ (config_ c)) O_RDWR) (kernel w) = (fd, k1) ->
  fd < 0 ->
  exists w',
    open_device c w
    = (Throw (runtime_error (Failed_to_open_device (errno k1))), set_fd fd c, w') /\
    trace w' = trace w ++ [Ev (sys_open (device_path_ (config_ c)) O_RDWR) fd] /\
    console w' = console w ++
      (if errno k1 =? EBUSY
       then [to_stderr (msg_device_already_in_use (device_path_ (config_ c)))]
       else []) /\
    configure (set_fd fd c) w' = (Return tt, set_fd fd c, w') /\
    closed_fds (trace (snd (cleanup (set_fd fd c) w'))) = closed_fds (trace w').
Proof.
  intros E Hfd. rewrite open_device_run. cbn zeta. rewrite E.
  destruct (Z.ltb_spec fd 0) as [_ | ?]; [| lia].
  eexists. split; [reflexivity |].
  assert (Hnoop : forall w0 : world K, configure (set_fd fd c) w0 = (Return tt, set_fd fd c, w0)).
  { intros w0. rewrite configure_run. cbn [fd_ set_fd].
    destruct (Z.ltb_spec fd 0) as [_ | ?]; [reflexivity | lia]. }
  assert (Hclose : forall w0 : world K,
             closed_fds (trace (snd (cleanup (set_fd fd c) w0))) = closed_fds (trace w0)).
  { intros w0.
    destruct (cleanup_inv (set_fd fd c) w0)
      as (unmaps & closes & w2 & Hrun & Ht & _ & Hall & Hclose).
    rewrite Hrun. cbn [snd]. rewrite Ht.
    destruct (unmaps_read _ _ Hall) as (_ & _ & Hcf & _ & _).
    cbn [fd_ set_fd] in Hclose.
    destruct (Z.leb_spec 0 fd); [lia |]. subst closes.
    unfold closed_fds in *. rewrite !omap_app, Hcf. cbn. now rewrite !app_nil_r. }
  destruct (errno k1 =? EBUSY); cbn [trace console after_call after_print];
    rewrite ?app_nil_r; auto.
Qed.

(** X8: when [open_device] returns, it has made exactly the open call and
    the capability query, the descriptor is the non-negative result of the
    open, the reported capabilities include video capture and streaming,
    the snapshot holds the reported driver and card names, and nothing else
    of the object has changed. *)
Theorem open_device_returns c w c' w' :
  open_device c w = (Return tt, c', w') ->
  exists fd rc cap,
    trace w' = trace w ++
      [Ev (sys_open (device_path_ (config_ c)) O_RDWR) fd;
       Ev (ioctl_QUERYCAP fd v4l2_capability_zero) (rc, cap)] /\
    console w' = console w /\
    0 <= fd /\ 0 <= rc /\
    Z.land (u32 (capabilities cap)) V4L2_CAP_VIDEO_CAPTURE <> 0 /\
    Z.land (u32 (capabilities cap)) V4L2_CAP_STREAMING <> 0 /\
    c' = set_caps {| driver := cap_driver cap; card := cap_card cap |} (set_fd fd c).
Proof.
  rewrite open_device_run. cbn zeta.
  destruct (sys (sys_open _ _) (kernel w)) as [fd k1].
  destruct (Z.ltb_spec fd 0); [discriminate |].
  destruct (sys (ioctl_QUERYCAP _ _) k1) as [[rc cap] k2].
  destruct (Z.ltb_spec rc 0); [discriminate |].
  destruct (Z.eqb_spec (Z.land (u32 (capabilities cap)) V4L2_CAP_VIDEO_CAPTURE) 0);
    [discriminate |].
  destruct (Z.eqb_spec (Z.land (u32 (capabilities cap)) V4L2_CAP_STREAMING) 0);
    [discriminate |].
  intros [= <- <-]. exists fd, rc, cap.
  cbn [trace console after_call]. rewrite <- app_assoc. repeat split; auto.
Qed.

(** The destructor of an engine that holds a descriptor closes it. *)
Lemma destroy_closes c w :
  0 <= fd_ c ->
  exists closing,
    trace (V4L2Camera_destroy c w) = trace w ++ closing /\
    closed_fds closing = [fd_ c] /\
    unmapped_regions closing = map region_of (List.filter is_valid (buffers_ c)).
Proof.
  intros Hfd. unfold V4L2Camera_destroy.
  destruct (cleanup_inv c w) as (unmaps & closes & w2 & Hrun & Ht & _ & Hall & Hclose).
  rewrite Hrun. cbn [snd]. exists (unmaps ++ closes).
  split; [exact Ht |].
  destruct (unmaps_read _ _ Hall) as (Hu & _ & Hcf & _ & _).
  destruct (Z.leb_spec 0 (fd_ c)); [| lia].
  destruct Hclose as [r ->].
  unfold closed_fds, unmapped_regions in *. rewrite !omap_app, Hcf, Hu.
  cbn. rewrite app_nil_r. split; reflexivity.
Qed.

(** X9: when [open_device] throws after the node was opened (the capability
    query failed or a capability is missing), it has not closed the
    descriptor: the engine holds it, and the destructor closes it. *)
Theorem open_device_keeps_descriptor_on_late_failure c w e c' w' :
  open_device c w = (Throw e, c', w') ->
  0 <= fd_ c' ->
  (exists err, e = runtime_error (QUERYCAP_failed err)
               \/ e = runtime_error No_video_capture
               \/ e = runtime_error No_streaming_io) /\
  (exists new,
     trace w' = trace w ++ new /\
     kinds new = [k_open; k_QUERYCAP] /\
     buffers_ c' = buffers_ c) /\
  exists closing,
    trace (V4L2Camera_destroy c' w') = trace w' ++ closing /\
    closed_fds closing = [fd_ c'].
Proof.
  intros Hrun Hfd.
  destruct (destroy_closes c' w' Hfd) as (closing & Hd & Hcf & _).
  assert (Hclosed : exists closing,
             trace (V4L2Camera_destroy c' w') = trace w' ++ closing /\
             closed_fds closing = [fd_ c']) by eauto.
  clear Hd Hcf closing.
  rewrite open_device_run in Hrun. cbn zeta in Hrun.
  destruct (sys (sys_open _ _) (kernel w)) as [fd k1].
  destruct (Z.ltb_spec fd 0).
  { injection Hrun as <- <- <-. cbn [fd_ set_fd] in Hfd. lia. }
  destruct (sys (ioctl_QUERYCAP _ _) k1) as [[rc cap] k2].
  assert (Hnew : exists new,
             trace (after_call (ioctl_QUERYCAP fd v4l2_capability_zero) (rc, cap) k2
                      (after_call (sys_open (device_path_ (config_ c)) O_RDWR) fd k1 w))
             = trace w ++ new /\
             kinds new = [k_open; k_QUERYCAP] /\
             buffers_ (set_fd fd c) = buffers_ c).
  { eexists. cbn [trace after_call]. rewrite <- app_assoc.
    split; [reflexivity |]. split; reflexivity. }
  destruct (rc <? 0).
  { injection Hrun as <- <- <-. split; [eauto |]. split; assumption. }
  destruct (_ =? 0).
  { injection Hrun as <- <- <-. split; [exists 0; auto |]. split; assumption. }
  destruct (_ =? 0).
  { injection Hrun as <- <- <-. split; [exists 0; auto |]. split; assumption. }
  discriminate.
Qed.

(** *** configure, continued: what each loop does to the pool and the trace *)

(** One round of the "map buffers" loop at an index inside the pool. *)
Lemma map_buffer_inv fd i c w r c' w' :
  map_buffer fd i c w = (r, c', w') ->
  0 <= i < Z.of_nat (length (buffers_ c)) ->
  exists rc buf,
    let query := Ev (ioctl_QUERYBUF fd (capture_buffer (u32 i))) (rc, buf) in
    (r = Throw (runtime_error (QUERYBUF_failed i (errno (kernel w')))) /\
     c' = c /\ trace w' = trace w ++ [query] /\ console w' = console w) \/
    exists addr,
      let map_call := sys_mmap nullptr (u32 (buf_length buf))
                               (Z.lor PROT_READ PROT_WRITE) MAP_SHARED
                               fd (u32 (buf_offset buf)) in
      trace w' = trace w ++ [query; Ev map_call addr] /\
      console w' = console w /\
      ((addr = MAP_FAILED /\ c' = c /\
        r = Throw (runtime_error (mmap_failed i (errno (kernel w'))))) \/
       (addr <> MAP_FAILED /\ r = Return tt /\
        c' = set_buffers (<[Z.to_nat i := {| data := addr; size := u32 (buf_length buf) |}]>
                            (buffers_ c)) c)).
Proof.
  intros Hrun Hi. unfold map_buffer in Hrun.
  unfold bind at 1, call at 1 in Hrun.
  destruct (sys (ioctl_QUERYBUF _ _) (kernel w)) as [[rc buf] k1].
  cbn beta iota zeta in Hrun. exists rc, buf. cbn zeta.
  destruct (rc <? 0).
  { unfold bind, read_errno, throw in Hrun. cbn beta iota in Hrun.
    injection Hrun as <- <- <-. left. repeat split. }
  right.
  unfold bind at 1, call at 1 in Hrun.
  change (kernel (after_call ?s ?r0 ?k ?w0)) with k in Hrun.
  destruct (sys (sys_mmap _ _ _ _ _ _) k1) as [addr k2].
  cbn beta iota zeta in Hrun. exists addr.
  destruct (Z.eqb_spec addr MAP_FAILED) as [Hfail | Hok].
  { unfold bind, read_errno, throw in Hrun. cbn beta iota in Hrun.
    injection Hrun as <- <- <-. cbn [trace console after_call].
    rewrite <- app_assoc. split; [reflexivity |]. split; [reflexivity |].
    left. repeat split. exact Hfail. }
  unfold store_buffer, bind, member in Hrun. cbn beta iota in Hrun.
  destruct (decide _) as [_ | Hout]; [| contradiction].
  unfold assign in Hrun. injection Hrun as <- <- <-.
  cbn [trace console after_call]. rewrite <- app_assoc.
  split; [reflexivity |]. split; [reflexivity |]. right. repeat split. exact Hok.
Qed.

Lemma enqueue_buffer_inv fd i c w r c' w' :
  enqueue_buffer fd i c w = (r, c', w') ->
  exists rc buf,
    c' = c /\ console w' = console w /\
    trace w' = trace w ++ [Ev (ioctl_QBUF fd (capture_buffer (u32 i))) (rc, buf)] /\
    (r = Return tt \/ r = Throw (runtime_error (QBUF_failed_at i (errno (kernel w'))))) /\
    (r = Return tt <-> 0 <= rc).
Proof.
  intros Hrun. unfold enqueue_buffer in Hrun.
  unfold bind at 1, call at 1 in Hrun.
  destruct (sys (ioctl_QBUF _ _) (kernel w)) as [[rc buf] k1].
  cbn beta iota zeta in Hrun. cbn [fst] in Hrun. exists rc, buf.
  destruct (Z.ltb_spec rc 0).
  - unfold bind, read_errno, throw in Hrun. cbn beta iota in Hrun.
    injection Hrun as <- <- <-. repeat split; auto; try discriminate; lia.
  - unfold ret in Hrun. injection Hrun as <- <- <-. repeat split; auto.
Qed.

Lemma mapped_regions_cons e t :
  mapped_regions (e :: t)
  = match mapped_region e with
    | Some region => region :: mapped_regions t
    | None => mapped_regions t
    end.
Proof. reflexivity. Qed.

(** The calls of the "map buffers" loop started at index [i] with [n]
    rounds to go, on a pool that reaches up to [i + n]. *)
Lemma map_loop_inv fd n : forall i c w r c' w',
  for_each_index n i (map_buffer fd) c w = (r, c', w') ->
  0 <= i -> Z.of_nat n + i <= Z.of_nat (length (buffers_ c)) ->
  r <> Undefined /\
  same_but_buffers c c' /\
  console w' = console w /\
  (forall p, (p < Z.to_nat i)%nat -> buffers_ c' !! p = buffers_ c !! p) /\
  exists new,
    trace w' = trace w ++ new /\
    (exists rest, concat (replicate n [k_QUERYBUF; k_mmap]) = kinds new ++ rest /\
                  (r = Return tt -> rest = [])) /\
    Forall (fun e => fd_of e = Some fd) new /\
    Forall (fun e => kind_of e = k_QUERYBUF \/ kind_of e = k_mmap) new /\
    Forall (fun region =>
              exists p, buffers_ c' !! p
                        = Some {| data := fst region; size := snd region |})
           (mapped_regions new).
Proof.
  induction n as [| n IH]; intros i c w r c' w' Hrun Hi Hpool.
  - cbn in Hrun. unfold ret in Hrun. injection Hrun as <- <- <-.
    split; [discriminate |]. split; [apply same_but_buffers_refl |].
    split; [reflexivity |]. split; [reflexivity |].
    exists []. rewrite app_nil_r. split; [reflexivity |].
    split; [exists []; split; reflexivity |]. repeat constructor.
  - cbn [for_each_index] in Hrun.
    apply bind_inv in Hrun
      as [(a & c1 & w1 & Hb & Hrest) | [(e & Hb & ->) | [Hb ->]]].
    + apply map_buffer_inv in Hb as (rc & buf & Hb); [| lia].
      cbn zeta in Hb.
      destruct Hb as [(Hthrow & _) | (addr & Ht1 & Hc1 & [(_ & _ & Hthrow) | (Hok & _ & ->)])];
        try discriminate.
      apply IH in Hrest as (Hdef & Hsame & Hcon & Hkeep & new & Ht & Hk & Hfd & Hkind & Hrec);
        [| lia | cbn [buffers_ set_buffers]; rewrite length_insert; lia].
      cbn [buffers_ set_buffers] in Hkeep.
      split; [exact Hdef |]. split.
      { eapply same_but_buffers_trans; [| exact Hsame].
        repeat split. cbn [buffers_ set_buffers]. apply length_insert. }
      split; [congruence |]. split.
      { intros p Hp. rewrite Hkeep by lia.
        apply list_lookup_insert_ne. lia. }
      eexists (_ :: _ :: new). split.
      { rewrite Ht, Ht1, <- app_assoc. reflexivity. }
      destruct Hk as (rest & Hk & Hall). split.
      { exists rest. split; [| exact Hall].
        cbn [replicate concat]. rewrite Hk. reflexivity. }
      split; [repeat constructor; assumption |].
      split.
      { constructor; [left; reflexivity |].
        constructor; [right; reflexivity | exact Hkind]. }
      rewrite 2!mapped_regions_cons. cbn [mapped_region].
      destruct (Z.eqb_spec addr MAP_FAILED) as [? | _]; [contradiction |].
      constructor; [| exact Hrec].
      exists (Z.to_nat i). cbn [fst snd].
      rewrite Hkeep by lia. apply list_lookup_insert_eq. lia.
    + apply map_buffer_inv in Hb as (rc & buf & Hb); [| lia].
      cbn zeta in Hb.
      split; [discriminate |].
      destruct Hb as [(_ & -> & Ht1 & Hc1) | (addr & Ht1 & Hc1 & [(Hfail & -> & _) | (_ & Hret & _)])];
        try discriminate.
      * split; [apply same_but_buffers_refl |]. split; [exact Hc1 |].
        split; [reflexivity |].
        eexists. split; [exact Ht1 |]. split.
        { eexists. split; [cbn [replicate concat kinds map kind_of]; reflexivity |].
          discriminate. }
        split; [repeat constructor |].
        split; [constructor; [left; reflexivity | constructor] |].
        constructor.
      * split; [apply same_but_buffers_refl |]. split; [exact Hc1 |].
        split; [reflexivity |].
        eexists. split; [exact Ht1 |]. split.
        { eexists. split; [cbn [replicate concat kinds map kind_of]; reflexivity |].
          discriminate. }
        split; [repeat constructor |].
        split.
        { constructor; [left; reflexivity |].
          constructor; [right; reflexivity | constructor]. }
        rewrite 2!mapped_regions_cons. cbn [mapped_region].
        subst addr. rewrite Z.eqb_refl. constructor.
    + apply map_buffer_inv in Hb as (rc & buf & Hb); [| lia].
      cbn zeta in Hb.
      destruct Hb as [(Hthrow & _) | (addr & _ & _ & [(_ & _ & Hthrow) | (_ & Hret & _)])];
        discriminate.
Qed.

Lemma enqueue_loop_inv fd n : forall i c w r c' w',
  for_each_index n i (enqueue_buffer fd) c w = (r, c', w') ->
  r <> Undefined /\ c' = c /\ console w' = console w /\
  exists new,
    trace w' = trace w ++ new /\
    (exists rest, replicate n k_QBUF = kinds new ++ rest /\
                  (r = Return tt -> rest = [])) /\
    Forall (fun e => fd_of e = Some fd) new /\
    Forall (fun e => kind_of e = k_QBUF) new.
Proof.
  induction n as [| n IH]; intros i c w r c' w' Hrun.
  - cbn in Hrun. unfold ret in Hrun. injection Hrun as <- <- <-.
    split; [discriminate |]. split; [reflexivity |]. split; [reflexivity |].
    exists []. rewrite app_nil_r. split; [reflexivity |].
    split; [exists []; split; reflexivity |]. split; constructor.
  - cbn [for_each_index] in Hrun.
    apply bind_inv in Hrun
      as [(a & c1 & w1 & Hb & Hrest) | [(e & Hb & ->) | [Hb ->]]].
    + apply enqueue_buffer_inv in Hb as (rc & buf & -> & Hc1 & Ht1 & _ & _).
      apply IH in Hrest as (Hdef & -> & Hcon & new & Ht & (rest & Hk & Hall) & Hfd & Hkind).
      split; [exact Hdef |]. split; [reflexivity |]. split; [congruence |].
      eexists (_ :: new). split; [rewrite Ht, Ht1, <- app_assoc; reflexivity |].
      split; [exists rest; split; [cbn [replicate]; rewrite Hk; reflexivity | exact Hall] |].
      split; constructor; auto.
    + apply enqueue_buffer_inv in Hb as (rc & buf & -> & Hc1 & Ht1 & _ & _).
      split; [discriminate |]. split; [reflexivity |]. split; [exact Hc1 |].
      eexists. split; [exact Ht1 |].
      split; [eexists; split; [cbn [replicate kinds map kind_of]; reflexivity | discriminate] |].
      split; repeat constructor.
    + apply enqueue_buffer_inv in Hb as (rc & buf & _ & _ & _ & [Hr | Hr] & _);
        discriminate.
Qed.

Lemma read_by_kind e :
  (kind_of e <> k_munmap -> unmapped_region e = None) /\
  (kind_of e <> k_close -> closed_fd e = None) /\
  (kind_of e <> k_mmap -> mapped_region e = None).
Proof.
  destruct e as [R s r]. destruct s; cbn; repeat split; intros; congruence.
Qed.

Lemma omap_nothing {A B} (f : A -> option B) (t : list A) :
  Forall (fun e => f e = None) t -> omap f t = [].
Proof.
  induction 1 as [| e t He _ IH]; [reflexivity |].
  cbn. rewrite He. exact IH.
Qed.

Lemma configure_calls_release_nothing t :
  Forall configure_call t -> unmapped_regions t = [] /\ closed_fds t = [].
Proof.
  intros Hall. split; apply omap_nothing; eapply Forall_impl; try exact Hall;
    intros e He; apply read_by_kind; intros Hk; unfold configure_call in He;
    rewrite Hk in He; cbn in He; intuition discriminate.
Qed.

Lemma no_mmap_no_region t :
  Forall (fun e => kind_of e <> k_mmap) t -> mapped_regions t = [].
Proof.
  intros Hall. apply omap_nothing. eapply Forall_impl; [exact Hall |].
  intros e He. now apply read_by_kind.
Qed.

Lemma mapped_regions_app t1 t2 :
  mapped_regions (t1 ++ t2) = mapped_regions t1 ++ mapped_regions t2.
Proof. apply omap_app. Qed.

Lemma kinds_app t1 t2 : kinds (t1 ++ t2) = kinds t1 ++ kinds t2.
Proof. apply map_app. Qed.

(** [configure] from the frame-rate request on, on a pool that holds the
    configured number of entries. *)
Lemma configure_buffers_trace fd c w r c' w' :
  configure_buffers fd c w = (r, c', w') ->
  (Z.to_nat (buffer_count_ (config_ c)) <= length (buffers_ c))%nat ->
  let n := Z.to_nat (buffer_count_ (config_ c)) in
  r <> Undefined /\
  (r <> Return tt -> configured_ c' = configured_ c) /\
  console w' = console w /\
  exists new,
    trace w' = trace w ++ new /\
    (exists rest,
       [k_S_PARM; k_REQBUFS] ++ concat (replicate n [k_QUERYBUF; k_mmap])
         ++ replicate n k_QBUF = kinds new ++ rest /\
       (r = Return tt -> rest = [])) /\
    Forall (fun e => fd_of e = Some fd) new /\
    Forall configure_call new /\
    Forall (fun region =>
              exists p, buffers_ c' !! p
                        = Some {| data := fst region; size := snd region |})
           (mapped_regions new).
Proof.
  intros Hrun Hpool n. unfold configure_buffers in Hrun.
  unfold bind at 1, member at 1 in Hrun. cbn beta iota in Hrun.
  unfold bind at 1, call at 1 in Hrun.
  destruct (sys (ioctl_S_PARM _ _) (kernel w)) as [[rc1 parm] k1].
  cbn beta iota zeta in Hrun. cbn [fst] in Hrun.
  destruct (rc1 <? 0).
  { unfold bind, read_errno, throw in Hrun. cbn beta iota in Hrun.
    injection Hrun as <- <- <-.
    split; [discriminate |]. split; [reflexivity |]. split; [reflexivity |].
    eexists. split; [cbn [trace after_call]; reflexivity |].
    split; [eexists; split; [cbn [kinds map kind_of app]; reflexivity | discriminate] |].
    split; [repeat constructor |].
    split; [constructor; [cbn; tauto | constructor] |]. constructor. }
  unfold bind at 1, member at 1 in Hrun. cbn beta iota in Hrun.
  unfold bind at 1, call at 1 in Hrun.
  change (kernel (after_call ?s ?r0 ?k ?w0)) with k in Hrun.
  destruct (sys (ioctl_REQBUFS _ _) k1) as [[rc2 req] k2].
  cbn beta iota zeta in Hrun. cbn [fst] in Hrun.
  match type of Hrun with
  | context [after_call (ioctl_REQBUFS fd ?rq) _ _ (after_call (ioctl_S_PARM fd ?pm) _ _ _)] =>
      set (pre := [Ev (ioctl_S_PARM fd pm) (rc1, parm); Ev (ioctl_REQBUFS fd rq) (rc2, req)])
  end.
  assert (Hpre_fd : Forall (fun e => fd_of e = Some fd) pre) by repeat constructor.
  assert (Hpre_call : Forall configure_call pre)
    by (constructor; [cbn; tauto | constructor; [cbn; tauto | constructor]]).
  destruct (rc2 <? 0).
  { unfold bind, read_errno, throw in Hrun. cbn beta iota in Hrun.
    injection Hrun as <- <- <-.
    split; [discriminate |]. split; [reflexivity |]. split; [reflexivity |].
    exists pre. split; [cbn [trace after_call]; rewrite <- app_assoc; reflexivity |].
    split; [eexists; split; [cbn [kinds map kind_of app pre]; reflexivity | discriminate] |].
    split; [exact Hpre_fd |]. split; [exact Hpre_call |]. constructor. }
  fold n in Hrun.
  set (w2 := after_call (ioctl_REQBUFS fd _) (rc2, req) k2 _) in Hrun.
  assert (Hw2 : trace w2 = trace w ++ pre /\ console w2 = console w).
  { subst w2. cbn [trace console after_call]. rewrite <- app_assoc. split; reflexivity. }
  destruct Hw2 as [Htw2 Hcw2]. clearbody w2.
  assert (Hmapkinds : forall t, Forall (fun e => kind_of e = k_QUERYBUF \/ kind_of e = k_mmap) t
                                -> Forall configure_call t).
  { intros t Ht. eapply Forall_impl; [exact Ht |]. intros e [He | He];
      unfold configure_call; rewrite He; cbn; tauto. }
  assert (Hqkinds : forall t, Forall (fun e => kind_of e = k_QBUF) t
                              -> Forall configure_call t
                                 /\ Forall (fun e => kind_of e <> k_mmap) t).
  { intros t Ht. split; (eapply Forall_impl; [exact Ht |]); intros e He.
    - unfold configure_call. rewrite He. cbn. tauto.
    - rewrite He. discriminate. }
  assert (Hpre_nomap : mapped_regions pre = []) by reflexivity.
  apply bind_inv in Hrun
    as [(a & c1 & w3 & Hmap & Hrun) | [(e & Hmap & ->) | [Hmap ->]]].
  - apply map_loop_inv in Hmap
      as (_ & (Hc1 & Hf1 & Hd1 & Hl1 & Hb1) & Hcon1 & _ & new1 & Ht1 & (rest1 & Hk1 & Hall1) & Hfd1 & Hkind1 & Hrec1);
      [| lia | fold n; lia].
    specialize (Hall1 ltac:(destruct a; reflexivity)). subst rest1.
    rewrite app_nil_r in Hk1.
    assert (Hn : Z.to_nat (buffer_count_ (config_ c1)) = n) by (unfold n; now rewrite Hc1).
    apply bind_inv in Hrun
      as [(a2 & c2 & w4 & Henq & Hrun) | [(e & Henq & ->) | [Henq ->]]].
    + apply enqueue_loop_inv in Henq
        as (_ & -> & Hcon2 & new2 & Ht2 & (rest2 & Hk2 & Hall2) & Hfd2 & Hkind2).
      specialize (Hall2 ltac:(destruct a2; reflexivity)). subst rest2.
      rewrite app_nil_r in Hk2.
      destruct (Hqkinds _ Hkind2) as [Hcall2 Hnomap2].
      unfold assign in Hrun. injection Hrun as <- <- <-.
      split; [discriminate |]. split; [intros Hne; now contradiction Hne |].
      split; [congruence |].
      exists (pre ++ new1 ++ new2).
      split; [rewrite Ht2, Ht1, Htw2, <- !app_assoc; reflexivity |].
      split.
      { exists []. split; [| reflexivity].
        rewrite !kinds_app, <- Hk1, <- Hk2, app_nil_r. reflexivity. }
      split; [repeat (apply Forall_app; split); assumption |].
      split; [repeat (apply Forall_app; split); auto |].
      rewrite !mapped_regions_app, Hpre_nomap, (no_mmap_no_region _ Hnomap2), app_nil_r.
      exact Hrec1.
    + apply enqueue_loop_inv in Henq
        as (_ & -> & Hcon2 & new2 & Ht2 & (rest2 & Hk2 & _) & Hfd2 & Hkind2).
      destruct (Hqkinds _ Hkind2) as [Hcall2 Hnomap2].
      split; [discriminate |]. split; [intros _; congruence |].
      split; [congruence |].
      exists (pre ++ new1 ++ new2).
      split; [rewrite Ht2, Ht1, Htw2, <- !app_assoc; reflexivity |].
      split.
      { exists rest2. split; [| discriminate].
        rewrite !kinds_app, <- Hk1, Hk2, <- !app_assoc. reflexivity. }
      split; [repeat (apply Forall_app; split); assumption |].
      split; [repeat (apply Forall_app; split); auto |].
      rewrite !mapped_regions_app, Hpre_nomap, (no_mmap_no_region _ Hnomap2), app_nil_r.
      exact Hrec1.
    + apply enqueue_loop_inv in Henq as (Hdef & _). now contradiction Hdef.
  - apply map_loop_inv in Hmap
      as (_ & (Hc1 & Hf1 & Hd1 & Hl1 & Hb1) & Hcon1 & _ & new1 & Ht1 & (rest1 & Hk1 & _) & Hfd1 & Hkind1 & Hrec1);
      [| lia | fold n; lia].
    split; [discriminate |]. split; [intros _; exact Hd1 |].
    split; [congruence |].
    exists (pre ++ new1).
    split; [rewrite Ht1, Htw2, <- !app_assoc; reflexivity |].
    split.
    { exists (rest1 ++ replicate n k_QBUF). split; [| discriminate].
      rewrite !kinds_app, Hk1, <- !app_assoc. reflexivity. }
    split; [apply Forall_app; split; assumption |].
    split; [apply Forall_app; split; auto |].
    rewrite mapped_regions_app, Hpre_nomap. exact Hrec1.
  - apply map_loop_inv in Hmap as (Hdef & _); [| lia | fold n; lia].
    now contradiction Hdef.
Qed.

(** [configure] as a whole, on a pool that holds the configured number of
    entries (as the constructor builds it). *)
Lemma configure_trace c w r c' w' :
  configure c w = (r, c', w') ->
  (Z.to_nat (buffer_count_ (config_ c)) <= length (buffers_ c))%nat ->
  let n := Z.to_nat (buffer_count_ (config_ c)) in
  r <> Undefined /\
  (r <> Return tt -> configured_ c' = configured_ c) /\
  exists new,
    trace w' = trace w ++ new /\
    (exists rest,
       configure_protocol n = kinds new ++ rest /\
       (r = Return tt -> (fd_ c <? 0) || configured_ c = false -> rest = [])) /\
    Forall (fun e => fd_of e = Some (fd_ c)) new /\
    Forall configure_call new /\
    Forall (fun region =>
              exists p, buffers_ c' !! p
                        = Some {| data := fst region; size := snd region |})
           (mapped_regions new).
Proof.
  intros Hrun Hpool n. rewrite configure_run in Hrun.
  assert (Hstop : forall t,
             Forall (fun e => fd_of e = Some (fd_ c)) t ->
             Forall configure_call t ->
             mapped_regions t = [] ->
             (exists rest, configure_protocol n = kinds t ++ rest) ->
             forall e0 c0 w0,
               trace w0 = trace w ++ t ->
               configured_ c0 = configured_ c ->
               (@Throw unit e0, c0, w0) = (r, c', w') ->
               r <> Undefined /\
               (r <> Return tt -> configured_ c' = configured_ c) /\
               exists new,
                 trace w' = trace w ++ new /\
                 (exists rest,
                    configure_protocol n = kinds new ++ rest /\
                    (r = Return tt -> (fd_ c <? 0) || configured_ c = false -> rest = [])) /\
                 Forall (fun e => fd_of e = Some (fd_ c)) new /\
                 Forall configure_call new /\
                 Forall (fun region =>
                           exists p, buffers_ c' !! p
                                     = Some {| data := fst region; size := snd region |})
                        (mapped_regions new)).
  { intros t Hfd Hcall Hnomap (rest & Hrest) e0 c0 w0 Ht Hcfg [= <- <- <-].
    split; [discriminate |]. split; [intros _; exact Hcfg |].
    exists t. split; [exact Ht |].
    split; [exists rest; split; [exact Hrest | discriminate] |].
    split; [exact Hfd |]. split; [exact Hcall |]. rewrite Hnomap. constructor. }
  destruct ((fd_ c <? 0) || configured_ c) eqn:Hguard.
  { injection Hrun as <- <- <-.
    split; [discriminate |]. split; [reflexivity |].
    exists []. rewrite app_nil_r. split; [reflexivity |].
    split; [eexists; split; [reflexivity | discriminate] |].
    repeat constructor. }
  cbn zeta in Hrun.
  destruct (negb (supported_format _)).
  { refine (Hstop [] _ _ _ _ _ _ _ _ _ Hrun);
      [constructor | constructor | reflexivity | eexists; reflexivity
      | now rewrite app_nil_r | reflexivity]. }
  destruct (sys (ioctl_S_FMT _ _) (kernel w)) as [[rc1 fmt1] k1].
  set (e1 := Ev (ioctl_S_FMT (fd_ c) (format_request c)) (rc1, fmt1)) in *.
  assert (Hcall1 : Forall configure_call [e1]) by (constructor; [cbn; tauto | constructor]).
  assert (Hfd1 : Forall (fun e => fd_of e = Some (fd_ c)) [e1]) by repeat constructor.
  destruct (rc1 <? 0).
  { refine (Hstop [e1] _ _ _ _ _ _ _ _ _ Hrun);
      [assumption | assumption | reflexivity | eexists; reflexivity
      | destruct (errno k1 =? EBUSY); reflexivity | reflexivity]. }
  destruct (negb (_ =? _)).
  { refine (Hstop [e1] _ _ _ _ _ _ _ _ _ Hrun);
      [assumption | assumption | reflexivity | eexists; reflexivity
      | reflexivity | reflexivity]. }
  destruct (sys (ioctl_G_FMT _ _) k1) as [[rc2 fmt2] k2].
  set (e2 := Ev (ioctl_G_FMT (fd_ c) format_query) (rc2, fmt2)) in *.
  assert (Hcall2 : Forall configure_call [e1; e2])
    by (constructor; [cbn; tauto | constructor; [cbn; tauto | constructor]]).
  assert (Hfd2 : Forall (fun e => fd_of e = Some (fd_ c)) [e1; e2]) by repeat constructor.
  destruct (rc2 <? 0).
  { refine (Hstop [e1; e2] _ _ _ _ _ _ _ _ _ Hrun);
      [assumption | assumption | reflexivity | eexists; reflexivity
      | cbn [trace after_call after_print]; now rewrite <- app_assoc | reflexivity]. }
  destruct (negb (_ =? _)).
  { refine (Hstop [e1; e2] _ _ _ _ _ _ _ _ _ Hrun);
      [assumption | assumption | reflexivity | eexists; reflexivity
      | cbn [trace after_call after_print]; now rewrite <- app_assoc | reflexivity]. }
  apply configure_buffers_trace in Hrun; [| exact Hpool].
  cbn zeta in Hrun.
  cbn [config_ configured_ set_config buffer_count_ with_format trace console
       after_call after_print] in Hrun.
  fold n in Hrun. fold e1 e2 in Hrun.
  destruct Hrun as (Hdef & Hcfg & _ & new & Ht & (rest & Hk & Hall) & Hfd & Hcall & Hrec).
  split; [exact Hdef |]. split; [exact Hcfg |].
  exists ([e1; e2] ++ new).
  split; [rewrite Ht, <- !app_assoc; reflexivity |].
  split.
  { exists rest. split; [| intros Hr _; now apply Hall].
    unfold configure_protocol. rewrite kinds_app.
    change ([k_S_FMT; k_G_FMT; k_S_PARM; k_REQBUFS] ++ ?l)
      with ([k_S_FMT; k_G_FMT] ++ ([k_S_PARM; k_REQBUFS] ++ l)).
    rewrite Hk, <- !app_assoc. reflexivity. }
  split; [apply Forall_app; split; assumption |].
  split; [apply Forall_app; split; assumption |].
  rewrite mapped_regions_app. exact Hrec.
Qed.

(** X10: the calls [configure] makes are, in order, a prefix of: set
    format, get format, set frame rate, request buffers, then query-buffer
    and map for each index, then enqueue for each index; every one of them
    is made on the engine's descriptor; and a [configure] that passes its
    guard and returns has made the whole sequence, and nothing after it. *)
Theorem configure_follows_protocol c w r c' w' :
  configure c w = (r, c', w') ->
  (Z.to_nat (buffer_count_ (config_ c)) <= length (buffers_ c))%nat ->
  exists new rest,
    trace w' = trace w ++ new /\
    configure_protocol (Z.to_nat (buffer_count_ (config_ c))) = kinds new ++ rest /\
    fds new = replicate (length new) (fd_ c) /\
    (r = Return tt -> (fd_ c <? 0) || configured_ c = false -> rest = []).
Proof.
  intros Hrun Hpool.
  apply configure_trace in Hrun as (_ & _ & new & Ht & (rest & Hk & Hall) & Hfd & _); [| exact Hpool].
  exists new, rest. split; [exact Ht |]. split; [exact Hk |]. split; [| exact Hall].
  clear Ht Hk. induction Hfd as [| e t He _ IH]; [reflexivity |].
  unfold fds in *. cbn. rewrite He. cbn. now rewrite IH.
Qed.

(** X11: on a pool that holds the configured number of entries, [configure]
    never runs into an out-of-range pool access; whichever way it ends,
    every region it has mapped is held by a pool entry, with the length it
    was mapped with, and it has unmapped nothing and closed nothing. *)
Theorem configure_records_mappings c w r c' w' :
  configure c w = (r, c', w') ->
  (Z.to_nat (buffer_count_ (config_ c)) <= length (buffers_ c))%nat ->
  r <> Undefined /\
  exists new,
    trace w' = trace w ++ new /\
    Forall (fun region => {| data := fst region; size := snd region |} ∈ buffers_ c')
           (mapped_regions new) /\
    unmapped_regions new = [] /\ closed_fds new = [].
Proof.
  intros Hrun Hpool.
  apply configure_trace in Hrun as (Hdef & _ & new & Ht & _ & _ & Hcall & Hrec); [| exact Hpool].
  split; [exact Hdef |]. exists new. split; [exact Ht |]. split.
  - eapply Forall_impl; [exact Hrec |]. intros region [p Hp].
    eapply list_elem_of_lookup_2. exact Hp.
  - now apply configure_calls_release_nothing.
Qed.

(** X12: destroying the engine after [configure], however [configure]
    ended, unmaps every region [configure] mapped at a non-null address and
    closes the descriptor. *)
Theorem configure_then_destroy_releases c w r c' w' :
  configure c w = (r, c', w') ->
  (Z.to_nat (buffer_count_ (config_ c)) <= length (buffers_ c))%nat ->
  0 <= fd_ c ->
  exists new closing,
    trace w' = trace w ++ new /\
    trace (V4L2Camera_destroy c' w') = trace w' ++ closing /\
    Forall (fun region => fst region <> nullptr -> region ∈ unmapped_regions closing)
           (mapped_regions new) /\
    closed_fds closing = [fd_ c].
Proof.
  intros Hrun Hpool Hfd.
  assert (Hfd' : fd_ c' = fd_ c).
  { apply configure_inv in Hrun. cbn zeta in Hrun. tauto. }
  assert (Hmapped : forall t, Forall (fun region => fst region <> MAP_FAILED) (mapped_regions t)).
  { induction t as [| e t IH]; [constructor |].
    rewrite mapped_regions_cons.
    destruct (mapped_region e) as [region |] eqn:He; [| exact IH].
    constructor; [| exact IH].
    destruct e as [R s reply]. destruct s; try discriminate.
    cbn in He. destruct (Z.eqb_spec reply MAP_FAILED); [discriminate |].
    injection He as <-. exact n. }
  apply configure_trace in Hrun as (_ & _ & new & Ht & _ & _ & _ & Hrec); [| exact Hpool].
  destruct (destroy_closes c' w') as (closing & Hd & Hcf & Hu); [lia |].
  exists new, closing. split; [exact Ht |]. split; [exact Hd |].
  split; [| now rewrite Hcf, Hfd'].
  rewrite Hu.
  specialize (Hmapped new).
  apply Forall_forall. intros region Hin Hnonnull.
  rewrite Forall_forall in Hrec, Hmapped.
  destruct (Hrec _ Hin) as [p Hp]. specialize (Hmapped _ Hin).
  apply list_elem_of_In.
  replace region with (region_of {| data := fst region; size := snd region |})
    by (destruct region; reflexivity).
  apply in_map. apply filter_In. split.
  - apply list_elem_of_In. eapply list_elem_of_lookup_2. exact Hp.
  - unfold is_valid. cbn [data].
    destruct (Z.eqb_spec (fst region) nullptr); [contradiction |].
    destruct (Z.eqb_spec (fst region) MAP_FAILED); [contradiction |]. reflexivity.
Qed.

(** X13: a pixel format outside MJPEG and YUYV is rejected before any call
    is made: on an open, unconfigured engine [configure] throws
    [invalid_argument] with the object and the world untouched. *)
Theorem configure_rejects_unsupported_format c w :
  0 <= fd_ c -> configured_ c = false ->
  u32 (format_ (config_ c)) <> V4L2_PIX_FMT_MJPEG ->
  u32 (format_ (config_ c)) <> V4L2_PIX_FMT_YUYV ->
  configure c w
  = (Throw (invalid_argument (Unsupported_pixel_format (u32 (format_ (config_ c))))), c, w).
Proof.
  intros Hfd Hcfg Hm Hy. rewrite configure_run. rewrite Hcfg.
  destruct (Z.ltb_spec (fd_ c) 0); [lia |]. cbn [orb]. cbn zeta.
  unfold supported_format.
  destruct (Z.eqb_spec (u32 (format_ (config_ c))) V4L2_PIX_FMT_MJPEG); [contradiction |].
  destruct (Z.eqb_spec (u32 (format_ (config_ c))) V4L2_PIX_FMT_YUYV); [contradiction |].
  reflexivity.
Qed.

(** X14: a [configure] that throws leaves the engine unconfigured and keeps
    what it holds: the configured flag, the descriptor, the marker, the
    buffer count and the pool size are as before, so the descriptor is still
    the destructor's to close. *)
Theorem configure_failure_keeps_engine c w e c' w' :
  configure c w = (Throw e, c', w') ->
  (Z.to_nat (buffer_count_ (config_ c)) <= length (buffers_ c))%nat ->
  configured_ c' = false /\
  0 <= fd_ c' /\ fd_ c' = fd_ c /\
  last_buf_index_ c' = last_buf_index_ c /\
  buffer_count_ (config_ c') = buffer_count_ (config_ c) /\
  length (buffers_ c') = length (buffers_ c).
Proof.
  intros Hrun Hpool.
  assert (Hguard : (fd_ c <? 0) || configured_ c = false).
  { destruct ((fd_ c <? 0) || configured_ c) eqn:Hg; [| reflexivity].
    rewrite configure_run, Hg in Hrun. discriminate. }
  apply orb_false_iff in Hguard as [Hfd Hcfg].
  pose proof (configure_inv _ _ _ _ _ Hrun) as Hinv. cbn zeta in Hinv.
  destruct Hinv as (Hf & Hm & Hl & Hb & _).
  apply configure_trace in Hrun as (_ & Hkeep & _); [| exact Hpool].
  rewrite Hkeep by discriminate.
  destruct (Z.ltb_spec (fd_ c) 0); [discriminate |].
  repeat split; auto. lia.
Qed.

(** *** capture_frame and release_frame, continued *)

(** X15: [capture_frame] never reads outside the pool, and when it throws
    it has made the dequeue call and nothing else: the object, and with it
    the marker, is as before.  It throws either because the dequeue failed,
    or because the dequeue succeeded with an index at or beyond the pool
    size; in that case the dequeued buffer is not enqueued again. *)
Theorem capture_frame_failure c w :
  fst (fst (capture_frame c w)) <> Undefined /\
  forall e c' w',
    capture_frame c w = (Throw e, c', w') ->
    c' = c /\ console w' = console w /\
    exists rc buf,
      trace w' = trace w ++ [Ev (ioctl_DQBUF (fd_ c) (capture_buffer 0)) (rc, buf)] /\
      ((rc < 0 /\ e = runtime_error DQBUF_failed) \/
       (0 <= rc /\ Z.of_nat (length (buffers_ c)) <= u32 (buf_index buf) /\
        e = runtime_error (DQBUF_invalid_index (u32 (buf_index buf))))).
Proof.
  destruct (sys (ioctl_DQBUF (fd_ c) (capture_buffer 0)) (kernel w))
    as [[rc buf] k'] eqn:E.
  rewrite (capture_frame_run _ _ _ _ _ E). cbn zeta.
  destruct (Z.ltb_spec rc 0).
  { split; [discriminate |]. intros e c' w' [= <- <- <-].
    split; [reflexivity |]. split; [reflexivity |].
    exists rc, buf. split; [reflexivity |]. left. auto. }
  destruct (Z.leb_spec (Z.of_nat (length (buffers_ c))) (u32 (buf_index buf))).
  { split; [discriminate |]. intros e c' w' [= <- <- <-].
    split; [reflexivity |]. split; [reflexivity |].
    exists rc, buf. split; [reflexivity |]. right. auto. }
  assert (Hlt : (Z.to_nat (u32 (buf_index buf)) < length (buffers_ c))%nat).
  { pose proof (u32_range (buf_index buf)). lia. }
  destruct (lookup_lt_is_Some_2 _ _ Hlt) as [mapped Hm]. rewrite Hm.
  destruct (sys steady_clock_now_us k') as [now k2].
  split; [discriminate |]. intros e c' w'. discriminate.
Qed.

Lemma u64_timestamp sec usec :
  u64 (u64 sec * 1000000 + u64 usec) = u64 (sec * 1000000 + usec).
Proof.
  unfold u64.
  rewrite Z.add_mod by lia. rewrite Z.mul_mod_idemp_l by lia.
  rewrite Z.mod_mod by lia. rewrite <- Z.add_mod by lia. reflexivity.
Qed.

(** X16: the view of a successful [capture_frame] carries the width and
    height of the configured dimension and the configured pixel format,
    whatever the driver reports for the frame; its driver timestamp is the
    dequeued seconds and microseconds put together in microseconds, modulo
    2^64, and its host timestamp is the clock read after the dequeue. *)
Theorem capture_frame_metadata c w v c' w' :
  capture_frame c w = (Return v, c', w') ->
  (width v, height v) = PixelDimension_extent (dimension_ (config_ c)) /\
  format v = format_ (config_ c) /\
  exists rc buf now,
    trace w' = trace w ++ [Ev (ioctl_DQBUF (fd_ c) (capture_buffer 0)) (rc, buf);
                           Ev steady_clock_now_us now] /\
    v4l2_timestamp_us v = u64 (buf_tv_sec buf * 1000000 + buf_tv_usec buf) /\
    timestamp_monotonic_us v = u64 now.
Proof.
  intros Hcap.
  destruct (capture_frame_Return_inv _ _ _ _ _ Hcap)
    as (rc & buf & k' & mapped & now & k2 & _ & _ & _ & _ & _ & -> & _ & ->).
  unfold frame_of. cbn [width height format v4l2_timestamp_us timestamp_monotonic_us].
  pose proof (PixelDimension_extent_range (dimension_ (config_ c))) as [Hw Hh].
  unfold PixelDimension_value.
  rewrite dimensions_roundtrip by assumption.
  split; [destruct (PixelDimension_extent _); reflexivity |].
  split; [reflexivity |].
  exists rc, buf, now. cbn [trace after_call]. rewrite <- app_assoc.
  split; [reflexivity |]. split; [apply u64_timestamp | reflexivity].
Qed.

(** X17: with nothing outstanding, a capture followed by a release that both
    return leave the object exactly as it was, and the three calls they make
    are the dequeue, the clock read, and the enqueue of the very index the
    dequeue reported. *)
Theorem capture_release_cycle c w v c1 w1 c2 w2 :
  last_buf_index_ c = None ->
  capture_frame c w = (Return v, c1, w1) ->
  release_frame c1 w1 = (Return tt, c2, w2) ->
  c2 = c /\ console w2 = console w /\
  exists rc buf now reply,
    trace w2 = trace w ++
      [Ev (ioctl_DQBUF (fd_ c) (capture_buffer 0)) (rc, buf);
       Ev steady_clock_now_us now;
       Ev (ioctl_QBUF (fd_ c) (capture_buffer (u32 (buf_index buf)))) reply] /\
    u32 (buf_index buf) < Z.of_nat (length (buffers_ c)).
Proof.
  intros Hnone Hcap Hrel.
  destruct (capture_frame_Return_inv _ _ _ _ _ Hcap)
    as (rc & buf & k' & mapped & now & k2 & _ & _ & Hidx & _ & _ & _ & -> & ->).
  set (c1 := set_last_buf_index (Some (u32 (buf_index buf))) c) in *.
  assert (Hsome : last_buf_index_ c1 = Some (u32 (buf_index buf))) by reflexivity.
  match type of Hrel with release_frame _ ?w0 = _ =>
    destruct (sys (ioctl_QBUF (fd_ c1) (capture_buffer (u32 (buf_index buf)))) (kernel w0))
      as [[rc2 buf2] k3] eqn:E2
  end.
  rewrite (release_frame_run _ _ _ _ _ _ Hsome E2) in Hrel. cbn zeta in Hrel.
  destruct (rc2 <? 0); [discriminate |].
  injection Hrel as <- <-.
  split.
  { subst c1. destruct c. cbn in *. subst. reflexivity. }
  split; [reflexivity |].
  exists rc, buf, now, (rc2, buf2).
  cbn [trace after_call]. rewrite <- !app_assoc. split; [reflexivity | exact Hidx].
Qed.

(** *** Move construction and move assignment, continued *)

Lemma copy_buffers_Some n : forall i dst src,
  (i + n <= length dst)%nat -> (i + n <= length src)%nat ->
  copy_buffers n i dst src
  = Some (take i dst ++ take n (drop i src) ++ drop (i + n) dst).
Proof.
  induction n as [| n IH]; intros i dst src Hd Hs.
  - cbn [copy_buffers]. rewrite take_0, Nat.add_0_r. cbn [app].
    now rewrite take_drop.
  - cbn [copy_buffers].
    destruct (lookup_lt_is_Some_2 src i ltac:(lia)) as [b Hb]. rewrite Hb.
    destruct (decide (i < length dst)%nat) as [_ | ?]; [| lia].
    rewrite IH by (rewrite ?length_insert; lia).
    f_equal.
    rewrite (take_S_r (<[i:=b]> dst) i b) by (apply list_lookup_insert_eq; lia).
    rewrite take_insert_ge by lia.
    rewrite drop_insert_lt by lia.
    rewrite (drop_S src b i Hb). cbn [take].
    rewrite <- app_assoc. cbn [app].
    replace (S i + n)%nat with (i + S n)%nat by lia. reflexivity.
Qed.

Lemma copy_buffers_None n : forall i dst src,
  (0 < n)%nat ->
  (length dst < i + n)%nat \/ (length src < i + n)%nat ->
  copy_buffers n i dst src = None.
Proof.
  induction n as [| n IH]; intros i dst src Hn Hshort; [lia |].
  cbn [copy_buffers].
  destruct (src !! i) as [b |] eqn:Hb; [| reflexivity].
  destruct (decide (i < length dst)%nat) as [Hlt | ?]; [| reflexivity].
  apply lookup_lt_Some in Hb.
  apply IH; [| rewrite length_insert; lia].
  destruct n; [lia | lia].
Qed.

(** X18: move assignment first cleans up the assigned-to engine and then
    copies as many pool entries as the source's configured count, without
    checking either pool.  With both pools that long it is defined: the
    assigned-to engine gets the source's configuration, descriptor, marker,
    snapshot and those entries, but keeps its own configured flag; with a
    positive count and a shorter pool on either side it is undefined. *)
Theorem move_assign_bounds this other w :
  let n := Z.to_nat (buffer_count_ (config_ other)) in
  ((n <= length (buffers_ this))%nat /\ (n <= length (buffers_ other))%nat ->
   exists this' other' w1,
     V4L2Camera_move_assign this other w = (Return (this', other'), w1) /\
     w1 = snd (cleanup this w) /\
     buffers_ this' = take n (buffers_ other) ++ drop n (map released (buffers_ this)) /\
     config_ this' = config_ other /\ fd_ this' = fd_ other /\
     last_buf_index_ this' = last_buf_index_ other /\ caps_ this' = caps_ other /\
     configured_ this' = configured_ this) /\
  ((0 < n)%nat ->
   (length (buffers_ this) < n)%nat \/ (length (buffers_ other) < n)%nat ->
   fst (V4L2Camera_move_assign this other w) = Undefined).
Proof.
  intros n. unfold V4L2Camera_move_assign.
  destruct (cleanup_inv this w) as (unmaps & closes & w1 & Hrun & _).
  rewrite Hrun. cbn [snd buffers_ configured_ set_fd set_buffers]. fold n. split.
  - intros [Hd Hs].
    rewrite copy_buffers_Some by (rewrite ?length_map; lia).
    eexists _, _, _. split; [reflexivity |].
    cbn [buffers_ config_ fd_ last_buf_index_ caps_ configured_].
    rewrite take_0. cbn [app drop]. repeat split.
  - intros Hn Hshort.
    rewrite copy_buffers_None by (rewrite ?length_map; lia). reflexivity.
Qed.

Lemma copy_into_empty_pool n src : copy_buffers (S n) 0 [] src = None.
Proof.
  apply copy_buffers_None; [lia |]. left. cbn. lia.
Qed.

(** X19: move construction is defined exactly when the source's configured
    buffer count is zero (the new pool is empty when the copy loop runs);
    the object it then builds has an empty pool and the source's descriptor,
    and the source's descriptor is reset. *)
Theorem move_construct_defined_iff other indeterminate :
  let n := Z.to_nat (buffer_count_ (config_ other)) in
  (V4L2Camera_move other indeterminate <> Undefined <-> n = 0%nat) /\
  forall this' other',
    V4L2Camera_move other indeterminate = Return (this', other') ->
    buffers_ this' = [] /\ fd_ this' = fd_ other /\ fd_ other' = -1 /\
    buffers_ other' = buffers_ other.
Proof.
  intros n. unfold V4L2Camera_move. fold n.
  destruct n as [| n'].
  - cbn [copy_buffers]. split.
    + split; [reflexivity | discriminate].
    + intros this' other' [= <- <-]. repeat split.
  - rewrite copy_into_empty_pool. split.
    + split; [intros Hdef; now contradiction Hdef | discriminate].
    + discriminate.
Qed.

(** What the destructor leaves in the trace. *)
Lemma cleanup_releases_trace c w :
  exists closing,
    trace (snd (cleanup c w)) = trace w ++ closing /\
    unmapped_regions closing = map region_of (List.filter is_valid (buffers_ c)) /\
    closed_fds closing = (if 0 <=? fd_ c then [fd_ c] else []).
Proof.
  destruct (cleanup_inv c w) as (unmaps & closes & w2 & Hrun & Ht & _ & Hall & Hclose).
  rewrite Hrun. cbn [snd]. exists (unmaps ++ closes). split; [exact Ht |].
  destruct (unmaps_read _ _ Hall) as (Hu & _ & Hcf & _ & _).
  unfold closed_fds, unmapped_regions in *. rewrite !omap_app, Hcf, Hu.
  destruct (0 <=? fd_ c).
  - destruct Hclose as [r ->]. cbn. rewrite app_nil_r. split; reflexivity.
  - subst closes. cbn. rewrite !app_nil_r. split; reflexivity.
Qed.

(** *** Bringing the engine up: open, configure, start *)

Lemma read_opened_by_kind e : kind_of e <> k_open -> opened_fd e = None.
Proof.
  destruct e as [R s r]. destruct s; cbn; intros; congruence.
Qed.

Lemma cleanup_trace_kinds c w :
  exists closing,
    trace (snd (cleanup c w)) = trace w ++ closing /\
    Forall (fun e => kind_of e = k_munmap \/ kind_of e = k_close) closing.
Proof.
  destruct (cleanup_inv c w) as (unmaps & closes & w2 & Hrun & Ht & _ & Hall & Hclose).
  rewrite Hrun. cbn [snd]. exists (unmaps ++ closes). split; [exact Ht |].
  apply Forall_app. split.
  - clear Ht Hrun. induction Hall as [| e b t bs [r ->] _ IH]; constructor; auto.
  - destruct (0 <=? fd_ c).
    + destruct Hclose as [r ->]. constructor; [now right | constructor].
    + subst closes. constructor.
Qed.

Lemma open_device_inv c w r c' w' :
  open_device c w = (r, c', w') ->
  r <> Undefined /\
  buffers_ c' = buffers_ c /\ config_ c' = config_ c /\
  configured_ c' = configured_ c /\ last_buf_index_ c' = last_buf_index_ c /\
  (r = Return tt -> 0 <= fd_ c') /\
  exists new,
    trace w' = trace w ++ new /\
    opened_fds new = (if 0 <=? fd_ c' then [fd_ c'] else []) /\
    (r = Return tt -> kinds new = [k_open; k_QUERYCAP]) /\
    Forall (fun e => kind_of e = k_open \/ kind_of e = k_QUERYCAP) new.
Proof.
  rewrite open_device_run. cbn zeta.
  destruct (sys (sys_open _ _) (kernel w)) as [fd k1].
  destruct (Z.ltb_spec fd 0).
  { intros [= <- <- <-]. cbn [fd_ buffers_ config_ configured_ last_buf_index_ set_fd].
    split; [discriminate |]. do 4 (split; [reflexivity |]). split; [discriminate |].
    eexists [_]. split; [destruct (errno k1 =? EBUSY); reflexivity |].
    unfold opened_fds. cbn.
    destruct (Z.leb_spec 0 fd); [lia |]. split; [reflexivity |].
    split; [discriminate |]. constructor; [now left | constructor]. }
  destruct (sys (ioctl_QUERYCAP _ _) k1) as [[rc cap] k2].
  assert (Hnew : exists new,
             trace (after_call (ioctl_QUERYCAP fd v4l2_capability_zero) (rc, cap) k2
                      (after_call (sys_open (device_path_ (config_ c)) O_RDWR) fd k1 w))
             = trace w ++ new /\
             opened_fds new = (if 0 <=? fd then [fd] else []) /\
             kinds new = [k_open; k_QUERYCAP] /\
             Forall (fun e => kind_of e = k_open \/ kind_of e = k_QUERYCAP) new).
  { eexists [_; _]. cbn [trace after_call]. rewrite <- app_assoc.
    split; [reflexivity |]. unfold opened_fds. cbn.
    destruct (Z.leb_spec 0 fd); [| lia]. split; [reflexivity |].
    split; [reflexivity |].
    constructor; [now left | constructor; [now right | constructor]]. }
  destruct Hnew as (new & Ht & Ho & Hk & Hall).
  assert (Hend : forall (r0 : outcome unit) c0,
             r0 <> Undefined ->
             fd_ c0 = fd -> buffers_ c0 = buffers_ c -> config_ c0 = config_ c ->
             configured_ c0 = configured_ c -> last_buf_index_ c0 = last_buf_index_ c ->
             (r0, c0,
              after_call (ioctl_QUERYCAP fd v4l2_capability_zero) (rc, cap) k2
                (after_call (sys_open (device_path_ (config_ c)) O_RDWR) fd k1 w))
             = (r, c', w') ->
             r <> Undefined /\
             buffers_ c' = buffers_ c /\ config_ c' = config_ c /\
             configured_ c' = configured_ c /\ last_buf_index_ c' = last_buf_index_ c /\
             (r = Return tt -> 0 <= fd_ c') /\
             exists new,
               trace w' = trace w ++ new /\
               opened_fds new = (if 0 <=? fd_ c' then [fd_ c'] else []) /\
               (r = Return tt -> kinds new = [k_open; k_QUERYCAP]) /\
               Forall (fun e => kind_of e = k_open \/ kind_of e = k_QUERYCAP) new).
  { intros r0 c0 Hdef Hf Hb Hc Hcf Hm [= <- <- <-].
    split; [exact Hdef |]. do 4 (split; [assumption |]).
    split; [intros _; lia |].
    exists new. rewrite Hf. auto. }
  destruct (rc <? 0); [apply Hend; (discriminate || reflexivity) |].
  destruct (_ =? 0); [apply Hend; (discriminate || reflexivity) |].
  destruct (_ =? 0); apply Hend; (discriminate || reflexivity).
Qed.

Lemma start_streaming_run c w :
  let '(rc, k') := sys (ioctl_STREAMON (fd_ c) V4L2_BUF_TYPE_VIDEO_CAPTURE) (kernel w) in
  start_streaming c w
  = (if rc <? 0 then Throw (runtime_error STREAMON_failed) else Return tt, c,
     after_call (ioctl_STREAMON (fd_ c) V4L2_BUF_TYPE_VIDEO_CAPTURE) rc k' w).
Proof.
  unfold start_streaming, bind, member, call. cbn beta iota.
  destruct (sys _ (kernel w)) as [rc k']. destruct (rc <? 0); reflexivity.
Qed.

End EngineMore.

(** ** The element *)

Section ElementFacts.

Context {K : Type} `{Kernel K}.
Implicit Types (c : V4L2Camera) (w : world K) (self : GstSrc.V4L2Src).

(** *** The conversions *)

Lemma u32_gint z : u32 (GstSrc.gint z) = u32 z.
Proof.
  unfold u32, GstSrc.gint.
  rewrite Zminus_mod, Z.mod_mod by lia.
  rewrite <- Zminus_mod. f_equal. lia.
Qed.

Lemma to_pixel_format_spec v :
  GstSrc.to_pixel_format v
  = (if supported_format (u32 v)
     then (Some (u32 v), [])
     else (None, [GstSrc.invalid_pixel_format_value v])).
Proof.
  unfold GstSrc.to_pixel_format, supported_format. cbn zeta.
  change V4L2_PIX_FMT_MJPEG with MJPG. change V4L2_PIX_FMT_YUYV with YUYV.
  destruct (Z.eqb_spec (u32 v) MJPG) as [-> | _]; [reflexivity |].
  destruct (Z.eqb_spec (u32 v) YUYV) as [-> | _]; reflexivity.
Qed.

(** X20: [to_pixel_format] accepts exactly the codes [configure] accepts: for
    any value, and for a stored format handed over as [gint], it gives the
    code when that is MJPEG or YUYV, silently, and nothing, with one
    message, otherwise. *)
Theorem to_pixel_format_accepts_supported value :
  GstSrc.to_pixel_format value
  = (if supported_format (u32 value)
     then (Some (u32 value), [])
     else (None, [GstSrc.invalid_pixel_format_value value])) /\
  fst (GstSrc.to_pixel_format (GstSrc.gint value))
  = (if supported_format (u32 value) then Some (u32 value) else None).
Proof.
  split; [apply to_pixel_format_spec |].
  rewrite to_pixel_format_spec, u32_gint.
  destruct (supported_format (u32 value)); reflexivity.
Qed.

(** X21: [to_fps_enum] gives back every enumerated rate handed over as
    [gint], silently, and whatever it accepts is the value of the rate it
    gives. *)
Theorem to_fps_enum_roundtrip :
  (forall f, GstSrc.to_fps_enum (GstSrc.gint (FPS_value f)) = (Some f, [])) /\
  (forall value f,
     fst (GstSrc.to_fps_enum value) = Some f -> u32 value = FPS_value f) /\
  (forall value,
     fst (GstSrc.to_fps_enum value) = None ->
     snd (GstSrc.to_fps_enum value) = [GstSrc.invalid_fps_enum value]).
Proof.
  split; [| split].
  - intros f. destruct f; reflexivity.
  - intros value f. unfold GstSrc.to_fps_enum. cbn zeta.
    destruct (Z.eqb_spec (u32 value) (FPS_value FPS_15)) as [-> | _];
      [now intros [= <-] |].
    destruct (Z.eqb_spec (u32 value) (FPS_value FPS_30)) as [-> | _];
      [now intros [= <-] |].
    destruct (Z.eqb_spec (u32 value) (FPS_value FPS_60)) as [-> | _];
      [now intros [= <-] | discriminate].
  - intros value. unfold GstSrc.to_fps_enum. cbn zeta.
    destruct (_ =? _); [discriminate |].
    destruct (_ =? _); [discriminate |].
    destruct (_ =? _); [discriminate | reflexivity].
Qed.

(** *** The destroy notification and stop *)

(** X22: the destroy notification never lets an exception out.  With
    nothing outstanding it makes no call and touches nothing (the engine's
    own warning is not reached); with a buffer outstanding it makes the one
    enqueue call for it, clears the marker when that succeeds and leaves the
    engine as it was, with the exception logged, when it fails. *)
Theorem release_notify_contained cam w :
  exists c' w' log,
    GstSrc.release_notify cam w = (Return tt, c', w', log) /\
    (last_buf_index_ cam = None ->
     c' = cam /\ w' = w /\ log = [GstSrc.no_valid_buffer]) /\
    (forall index,
       last_buf_index_ cam = Some index ->
       exists reply,
         trace w' = trace w ++ [Ev (ioctl_QBUF (fd_ cam) (capture_buffer index)) reply] /\
         console w' = console w /\
         (0 <= fst reply ->
          c' = set_last_buf_index None cam /\ log = [GstSrc.requeuing_buffer]) /\
         (fst reply < 0 ->
          c' = cam /\
          log = [GstSrc.requeuing_buffer;
                 GstSrc.release_frame_exception (runtime_error (QBUF_failed_for index))])).
Proof.
  unfold GstSrc.release_notify, has_valid_frame.
  destruct (last_buf_index_ cam) as [index |] eqn:Hmark.
  - destruct (sys (ioctl_QBUF (fd_ cam) (capture_buffer index)) (kernel w))
      as [[rc buf] k'] eqn:E.
    rewrite (release_frame_run _ _ _ _ _ _ Hmark E). cbn zeta.
    destruct (Z.ltb_spec rc 0).
    + eexists _, _, _. split; [reflexivity |]. split; [discriminate |].
      intros index' [= <-]. exists (rc, buf). cbn [fst].
      split; [reflexivity |]. split; [reflexivity |]. split; [lia | auto].
    + eexists _, _, _. split; [reflexivity |]. split; [discriminate |].
      intros index' [= <-]. exists (rc, buf). cbn [fst].
      split; [reflexivity |]. split; [reflexivity |]. split; [auto | lia].
  - eexists _, _, _. split; [reflexivity |]. split; [auto | discriminate].
Qed.

Lemma stop_streaming_run c w :
  let '(rc, k') := sys (ioctl_STREAMOFF (fd_ c) V4L2_BUF_TYPE_VIDEO_CAPTURE) (kernel w) in
  stop_streaming c w
  = (if rc <? 0 then Throw (runtime_error STREAMOFF_failed) else Return tt, c,
     after_call (ioctl_STREAMOFF (fd_ c) V4L2_BUF_TYPE_VIDEO_CAPTURE) rc k' w).
Proof.
  unfold stop_streaming, bind, member, call. cbn beta iota.
  destruct (sys _ (kernel w)) as [rc k']. destruct (rc <? 0); reflexivity.
Qed.

(** X23: [_v4l2src_stop] always returns TRUE and leaves the element without
    a camera.  When it held one, it has asked the driver to stop streaming
    and then, whether or not that failed, destroyed the camera: every valid
    pool entry is unmapped and the descriptor is closed. *)
Theorem stop_tears_down self w :
  exists w' log,
    GstSrc.stop self w = (Return true, GstSrc.with_camera None self, w', log) /\
    match GstSrc.camera self with
    | None => w' = w /\ log = [GstSrc.stop_called]
    | Some c =>
        exists rc closing,
          trace w' = trace w
                     ++ [Ev (ioctl_STREAMOFF (fd_ c) V4L2_BUF_TYPE_VIDEO_CAPTURE) rc]
                     ++ closing /\
          unmapped_regions closing = map region_of (List.filter is_valid (buffers_ c)) /\
          closed_fds closing = (if 0 <=? fd_ c then [fd_ c] else []) /\
          log = GstSrc.stop_called ::
                (if rc <? 0
                 then [GstSrc.stop_streaming_threw (runtime_error STREAMOFF_failed)]
                 else [])
    end.
Proof.
  unfold GstSrc.stop.
  destruct (GstSrc.camera self) as [c |] eqn:Hcam.
  - pose proof (stop_streaming_run c w) as Hstop.
    destruct (sys (ioctl_STREAMOFF (fd_ c) V4L2_BUF_TYPE_VIDEO_CAPTURE) (kernel w))
      as [rc k'].
    rewrite Hstop.
    set (w1 := after_call _ rc k' w).
    destruct (cleanup_releases_trace c w1) as (closing & Ht & Hu & Hcf).
    destruct (rc <? 0) eqn:Hrc.
    + eexists _, _. split; [reflexivity |].
      exists rc, closing. unfold V4L2Camera_destroy. rewrite Ht, Hrc.
      subst w1. cbn [trace after_call]. rewrite <- app_assoc. auto.
    + eexists _, _. split; [reflexivity |].
      exists rc, closing. unfold V4L2Camera_destroy. rewrite Ht, Hrc.
      subst w1. cbn [trace after_call]. rewrite <- app_assoc. auto.
  - exists w, [GstSrc.stop_called]. split; [| auto].
    destruct self. cbn in *. subst. reflexivity.
Qed.

(** A [configure] that passes its guard and returns leaves the requested
    format, as a 32-bit value, in the configuration. *)
Lemma configure_Return_config c w c' w' :
  configure c w = (Return tt, c', w') ->
  (fd_ c <? 0) || configured_ c = false ->
  config_ c' = with_format (u32 (format_ (config_ c))) (config_ c) /\
  supported_format (u32 (format_ (config_ c))) = true.
Proof.
  intros Hrun Hguard. rewrite configure_run, Hguard in Hrun. cbn zeta in Hrun.
  destruct (supported_format _) eqn:Hsup; [| discriminate]. cbn [negb] in Hrun.
  destruct (sys (ioctl_S_FMT _ _) (kernel w)) as [[rc1 fmt1] k1].
  destruct (rc1 <? 0); [discriminate |].
  destruct (Z.eqb_spec (u32 (pix_pixelformat fmt1)) (u32 (format_ (config_ c))))
    as [Heq | _]; [| discriminate].
  cbn [negb] in Hrun.
  destruct (sys (ioctl_G_FMT _ _) k1) as [[rc2 fmt2] k2].
  destruct (rc2 <? 0); [discriminate |].
  destruct (negb _); [discriminate |].
  apply configure_buffers_inv in Hrun. cbn zeta in Hrun.
  destruct Hrun as (Hc & _). rewrite Hc. cbn [config_ set_config].
  now rewrite Heq.
Qed.

Lemma quiet_calls t :
  Forall (fun e => kind_of e <> k_open /\ kind_of e <> k_close
                   /\ kind_of e <> k_munmap) t ->
  opened_fds t = [] /\ closed_fds t = [] /\ unmapped_regions t = [].
Proof.
  intros Hall. repeat split; apply omap_nothing;
    (eapply Forall_impl; [exact Hall |]); intros e (Ho & Hc & Hu).
  - now apply read_opened_by_kind.
  - now apply read_by_kind.
  - now apply read_by_kind.
Qed.

Lemma configure_calls_quiet t :
  Forall configure_call t ->
  Forall (fun e => kind_of e <> k_open /\ kind_of e <> k_close
                   /\ kind_of e <> k_munmap) t.
Proof.
  intros Hall. eapply Forall_impl; [exact Hall |]. intros e He.
  unfold configure_call in He. repeat split; intros Hk; rewrite Hk in He;
    cbn in He; intuition discriminate.
Qed.

Lemma bring_up_inv c w r c' w' :
  GstSrc.bring_up c w = (r, c', w') ->
  (Z.to_nat (buffer_count_ (config_ c)) <= length (buffers_ c))%nat ->
  configured_ c = false ->
  let n := Z.to_nat (buffer_count_ (config_ c)) in
  r <> Undefined /\
  length (buffers_ c') = length (buffers_ c) /\
  last_buf_index_ c' = last_buf_index_ c /\
  exists new,
    trace w' = trace w ++ new /\
    opened_fds new = (if 0 <=? fd_ c' then [fd_ c'] else []) /\
    Forall (fun region =>
              exists p, buffers_ c' !! p
                        = Some {| data := fst region; size := snd region |})
           (mapped_regions new) /\
    unmapped_regions new = [] /\ closed_fds new = [] /\
    (r = Return tt ->
     configured_ c' = true /\ 0 <= fd_ c' /\
     config_ c' = with_format (u32 (format_ (config_ c))) (config_ c) /\
     supported_format (u32 (format_ (config_ c))) = true /\
     kinds new = [k_open; k_QUERYCAP] ++ configure_protocol n ++ [k_STREAMON]).
Proof.
  intros Hrun Hpool Hcfg n. unfold GstSrc.bring_up in Hrun.
  apply bind_inv in Hrun
    as [(a & c1 & w1 & Hopen & Hrun) | [(e & Hopen & ->) | [Hopen ->]]].
  2:{ apply open_device_inv in Hopen
        as (_ & Hb & _ & _ & Hm & _ & new & Ht & Ho & _ & Hall).
      split; [discriminate |]. split; [now rewrite Hb |]. split; [exact Hm |].
      exists new. split; [exact Ht |]. split; [exact Ho |].
      assert (Hq : Forall (fun e => kind_of e <> k_mmap /\ kind_of e <> k_close
                                     /\ kind_of e <> k_munmap) new).
      { eapply Forall_impl; [exact Hall |]. intros e0 [He | He]; rewrite He;
          repeat split; discriminate. }
      split.
      { rewrite no_mmap_no_region; [constructor |].
        eapply Forall_impl; [exact Hq |]. intros e0 (Hm0 & _). exact Hm0. }
      split; [| split; [| discriminate]]; apply omap_nothing;
        (eapply Forall_impl; [exact Hq |]); intros e0 (_ & Hc & Hu);
        now apply read_by_kind. }
  2:{ apply open_device_inv in Hopen as (Hdef & _). now contradiction Hdef. }
  apply open_device_inv in Hopen
    as (_ & Hb1 & Hc1 & Hcf1 & Hm1 & Hfd1 & new1 & Ht1 & Ho1 & Hk1 & Hall1).
  specialize (Hfd1 ltac:(destruct a; reflexivity)).
  specialize (Hk1 ltac:(destruct a; reflexivity)).
  assert (Hq1 : mapped_regions new1 = [] /\ unmapped_regions new1 = []
                /\ closed_fds new1 = []).
  { assert (Hq : Forall (fun e => kind_of e <> k_mmap /\ kind_of e <> k_close
                                   /\ kind_of e <> k_munmap) new1).
    { eapply Forall_impl; [exact Hall1 |]. intros e0 [He | He]; rewrite He;
        repeat split; discriminate. }
    split; [apply no_mmap_no_region; eapply Forall_impl; [exact Hq |];
            intros e0 (Hm0 & _); exact Hm0 |].
    split; apply omap_nothing; (eapply Forall_impl; [exact Hq |]);
      intros e0 (_ & Hc & Hu); now apply read_by_kind. }
  destruct Hq1 as (Hmr1 & Hur1 & Hcr1).
  assert (Hpool1 : (Z.to_nat (buffer_count_ (config_ c1)) <= length (buffers_ c1))%nat)
    by (rewrite Hc1, Hb1; exact Hpool).
  assert (Hguard1 : (fd_ c1 <? 0) || configured_ c1 = false).
  { rewrite Hcf1, Hcfg. destruct (Z.ltb_spec (fd_ c1) 0); [lia | reflexivity]. }
  assert (Hfd1' : (0 <=? fd_ c1) = true) by (apply Z.leb_le; exact Hfd1).
  apply bind_inv in Hrun
    as [(a2 & c2 & w2 & Hconf & Hrun) | [(e & Hconf & ->) | [Hconf ->]]].
  3:{ apply configure_trace in Hconf as (Hdef & _); [| exact Hpool1].
      now contradiction Hdef. }
  - pose proof (configure_inv _ _ _ _ _ Hconf) as Hinv. cbn zeta in Hinv.
    destruct Hinv as (Hf2 & Hm2 & Hl2 & _ & Hdone & _).
    destruct a2.
    pose proof (configure_Return_config _ _ _ _ Hconf Hguard1) as [Hcfg2 Hsup2].
    apply configure_trace in Hconf
      as (_ & _ & new2 & Ht2 & (rest & Hk2 & Hall2) & _ & Hcall2 & Hrec2);
      [| exact Hpool1].
    specialize (Hall2 eq_refl Hguard1). subst rest. rewrite app_nil_r in Hk2.
    destruct (quiet_calls _ (configure_calls_quiet _ Hcall2)) as (Ho2 & Hc2 & Hu2).
    pose proof (start_streaming_run c2 w2) as Hstart.
    destruct (sys (ioctl_STREAMON (fd_ c2) V4L2_BUF_TYPE_VIDEO_CAPTURE) (kernel w2))
      as [rc k3].
    rewrite Hstart in Hrun. injection Hrun as <- <- <-.
    split; [destruct (rc <? 0); discriminate |].
    split; [congruence |]. split; [congruence |].
    eexists (new1 ++ new2 ++ [_]).
    split; [cbn [trace after_call]; rewrite Ht2, Ht1, <- !app_assoc; reflexivity |].
    unfold opened_fds, unmapped_regions, closed_fds in *.
    rewrite !mapped_regions_app, !omap_app, Ho1, Ho2, Hmr1, Hur1, Hcr1, Hc2, Hu2.
    rewrite Hf2, Hfd1'. cbn [app].
    split; [reflexivity |].
    split; [rewrite app_nil_r; exact Hrec2 |].
    split; [reflexivity |]. split; [reflexivity |].
    intros _. split; [| split; [lia | split; [| split]]].
    + destruct (Hdone eq_refl) as [Hneg | Hyes]; [lia | exact Hyes].
    + rewrite Hcfg2, Hc1. reflexivity.
    + now rewrite <- Hc1.
    + rewrite !kinds_app, Hk1, <- Hk2. rewrite Hc1. reflexivity.
  - pose proof (configure_inv _ _ _ _ _ Hconf) as Hinv. cbn zeta in Hinv.
    destruct Hinv as (Hf2 & Hm2 & Hl2 & _).
    apply configure_trace in Hconf
      as (_ & _ & new2 & Ht2 & _ & _ & Hcall2 & Hrec2); [| exact Hpool1].
    destruct (quiet_calls _ (configure_calls_quiet _ Hcall2)) as (Ho2 & Hc2 & Hu2).
    split; [discriminate |]. split; [congruence |]. split; [congruence |].
    exists (new1 ++ new2).
    split; [rewrite Ht2, Ht1, <- !app_assoc; reflexivity |].
    unfold opened_fds, unmapped_regions, closed_fds in *.
    rewrite !mapped_regions_app, !omap_app, Ho1, Ho2, Hmr1, Hur1, Hcr1, Hc2, Hu2.
    rewrite Hf2, Hfd1'. cbn [app].
    split; [reflexivity |]. split; [exact Hrec2 |].
    split; [reflexivity |]. split; [reflexivity | discriminate].
Qed.

(** *** start *)

Lemma mapped_regions_not_failed t :
  Forall (fun region => fst region <> MAP_FAILED) (mapped_regions t).
Proof.
  induction t as [| e t IH]; [constructor |].
  rewrite mapped_regions_cons.
  destruct (mapped_region e) as [region |] eqn:He; [| exact IH].
  constructor; [| exact IH].
  destruct e as [R s reply]. destruct s; try discriminate.
  cbn in He. destruct (Z.eqb_spec reply MAP_FAILED) as [| Hne]; [discriminate |].
  injection He as <-. exact Hne.
Qed.

(** Destroying the camera [bring_up] leaves closes what it opened and
    unmaps what it mapped. *)
Lemma bring_up_then_destroy c w r c' w' :
  GstSrc.bring_up c w = (r, c', w') ->
  (Z.to_nat (buffer_count_ (config_ c)) <= length (buffers_ c))%nat ->
  configured_ c = false ->
  exists new,
    trace (V4L2Camera_destroy c' w') = trace w ++ new /\
    Forall (fun fd => fd ∈ closed_fds new) (opened_fds new) /\
    Forall (fun region => fst region <> nullptr -> region ∈ unmapped_regions new)
           (mapped_regions new).
Proof.
  intros Hrun Hpool Hcfg.
  apply bring_up_inv in Hrun
    as (_ & _ & _ & new & Ht & Ho & Hrec & Hu & Hc & _); [| assumption ..].
  unfold V4L2Camera_destroy.
  destruct (cleanup_releases_trace c' w') as (closing & Hd & Hcu & Hcc).
  destruct (cleanup_trace_kinds c' w') as (closing' & Hd' & Hkinds).
  assert (closing' = closing) by (rewrite Hd in Hd'; now apply app_inv_head in Hd').
  subst closing'.
  assert (Hq : opened_fds closing = [] /\ mapped_regions closing = []).
  { split.
    - apply omap_nothing. eapply Forall_impl; [exact Hkinds |].
      intros e [He | He]; apply read_opened_by_kind; rewrite He; discriminate.
    - apply no_mmap_no_region. eapply Forall_impl; [exact Hkinds |].
      intros e [He | He]; rewrite He; discriminate. }
  destruct Hq as [Hoc Hmc].
  exists (new ++ closing). split; [rewrite Hd, Ht, <- app_assoc; reflexivity |].
  unfold opened_fds, closed_fds, unmapped_regions in *.
  rewrite mapped_regions_app, !omap_app, Ho, Hoc, Hmc, Hu, Hc, Hcu, Hcc, !app_nil_r.
  cbn [app]. split.
  - destruct (0 <=? fd_ c'); repeat constructor.
  - pose proof (mapped_regions_not_failed new) as Hnf.
    apply Forall_forall. intros region Hin Hnonnull.
    rewrite Forall_forall in Hrec, Hnf.
    destruct (Hrec _ Hin) as [p Hp]. specialize (Hnf _ Hin).
    apply list_elem_of_In.
    replace region with (region_of {| data := fst region; size := snd region |})
      by (destruct region; reflexivity).
    apply in_map. apply filter_In. split.
    + apply list_elem_of_In. eapply list_elem_of_lookup_2. exact Hp.
    + unfold is_valid. cbn [data].
      destruct (Z.eqb_spec (fst region) nullptr); [contradiction |].
      destruct (Z.eqb_spec (fst region) MAP_FAILED); [contradiction |]. reflexivity.
Qed.

Lemma new_camera_pool cfg :
  (Z.to_nat (buffer_count_ (config_ (V4L2Camera_new cfg)))
   <= length (buffers_ (V4L2Camera_new cfg)))%nat.
Proof. cbn [config_ buffers_ V4L2Camera_new]. now rewrite length_replicate. Qed.

(** X24: a start that ends without a camera (the stored format or rate was
    rejected, or opening, configuring or starting the engine threw) has left
    nothing behind: every descriptor it opened is closed and every region it
    mapped at a non-null address is unmapped. *)
Theorem start_failure_releases negotiated self w self' w' log :
  GstSrc.camera self = None ->
  GstSrc.start negotiated self w = (Return false, self', w', log) ->
  GstSrc.camera self' = None ->
  exists new,
    trace w' = trace w ++ new /\
    Forall (fun fd => fd ∈ closed_fds new) (opened_fds new) /\
    Forall (fun region => fst region <> nullptr -> region ∈ unmapped_regions new)
           (mapped_regions new).
Proof.
  intros Hcam Hrun Hnone. unfold GstSrc.start in Hrun.
  destruct (GstSrc.device_path self) as [path |]; [| discriminate].
  assert (Hnothing : exists new,
             trace w = trace w ++ new /\
             Forall (fun fd => fd ∈ closed_fds new) (opened_fds new) /\
             Forall (fun region => fst region <> nullptr -> region ∈ unmapped_regions new)
                    (mapped_regions new)).
  { exists []. rewrite app_nil_r. repeat constructor. }
  destruct (GstSrc.to_pixel_format _) as [[f |] log1].
  2:{ injection Hrun as <- <- <-. exact Hnothing. }
  destruct (GstSrc.to_fps_enum _) as [[rate |] log2].
  2:{ injection Hrun as <- <- <-. exact Hnothing. }
  destruct (dimensions_decompress _) as [wd ht].
  rewrite Hcam in Hrun. cbn [GstSrc.reset_camera] in Hrun.
  match type of Hrun with context [GstSrc.bring_up ?c0 w] =>
    destruct (GstSrc.bring_up c0 w) as [[[a | e |] c] w1] eqn:Hb
  end.
  - destruct negotiated; [discriminate |].
    injection Hrun as <- <- <-. cbn in Hnone. discriminate.
  - injection Hrun as <- <- <-.
    eapply bring_up_then_destroy; [exact Hb | apply new_camera_pool | reflexivity].
  - discriminate.
Qed.


(** *** create *)


Lemma capture_frame_Return_trace c w v c1 w1 :
  capture_frame c w = (Return v, c1, w1) ->
  exists rc buf now,
    trace w1 = trace w ++ [Ev (ioctl_DQBUF (fd_ c) (capture_buffer 0)) (rc, buf);
                           Ev steady_clock_now_us now] /\
    console w1 = console w /\
    last_buf_index_ c1 = Some (u32 (buf_index buf)) /\
    u32 (buf_index buf) < Z.of_nat (length (buffers_ c)) /\
    c1 = set_last_buf_index (Some (u32 (buf_index buf))) c /\
    span_size (image v) = u32 (buf_bytesused buf) /\
    v4l2_timestamp_us v = u64 (buf_tv_sec buf * 1000000 + buf_tv_usec buf) /\
    (width v, height v) = PixelDimension_extent (dimension_ (config_ c)).
Proof.
  intros Hcap.
  destruct (capture_frame_Return_inv _ _ _ _ _ Hcap)
    as (rc & buf & k' & mapped & now & k2 & _ & _ & Hidx & _ & _ & -> & -> & ->).
  exists rc, buf, now. cbn [trace console after_call]. rewrite <- app_assoc.
  split; [reflexivity |]. split; [reflexivity |]. split; [reflexivity |].
  split; [exact Hidx |]. split; [reflexivity |]. split; [reflexivity |].
  split; [apply u64_timestamp |].
  unfold frame_of. cbn [width height].
  pose proof (PixelDimension_extent_range (dimension_ (config_ c))) as [Hw Hh].
  unfold PixelDimension_value. rewrite dimensions_roundtrip by assumption.
  destruct (PixelDimension_extent _); reflexivity.
Qed.


(** X27: when [_v4l2src_create] returns OK it hands out a buffer over the
    captured image, of between 1 byte and 16 MiB, whose offset is the frame
    counter before the call and whose end offset is the counter after it,
    one more modulo 2^64; whose duration is a whole number of nanoseconds,
    the largest that fits the configured rate times into one second; whose
    presentation time is the driver's timestamp in nanoseconds modulo 2^64;
    and which carries video metadata, with the configured width and height
    of the camera, exactly when the element's format is YUYV.  The dequeued
    buffer stays outstanding. *)
Theorem create_pushes self w c out self' w' log :
  GstSrc.camera self = Some c ->
  GstSrc.create self w = (Return (GstSrc.GST_FLOW_OK, out), self', w', log) ->
  exists v c1 buffer rc buf now,
    capture_frame c w = (Return v, c1, w') /\
    out = Some buffer /\
    GstSrc.camera self' = Some c1 /\
    has_valid_frame c1 = true /\
    trace w' = trace w ++ [Ev (ioctl_DQBUF (fd_ c) (capture_buffer 0)) (rc, buf);
                           Ev steady_clock_now_us now] /\
    GstSrc.memory_data buffer = span_data (image v) /\
    GstSrc.memory_size buffer = u32 (buf_bytesused buf) /\
    0 < GstSrc.memory_size buffer <= 16777216 /\
    GstSrc.buffer_offset buffer = GstSrc.frame_number self /\
    GstSrc.buffer_offset_end buffer = GstSrc.frame_number self' /\
    GstSrc.frame_number self' = u64 (GstSrc.frame_number self + 1) /\
    GstSrc.buffer_duration buffer * FPS_value (GstSrc.fps self) <= 1000000000
      < (GstSrc.buffer_duration buffer + 1) * FPS_value (GstSrc.fps self) /\
    GstSrc.buffer_pts buffer
      = u64 (u64 (buf_tv_sec buf * 1000000 + buf_tv_usec buf) * 1000) /\
    GstSrc.video_meta buffer
      = (if GstSrc.pixel_format self =? YUYV
         then Some (GstSrc.GST_VIDEO_FORMAT_YUY2,
                    fst (PixelDimension_extent (dimension_ (config_ c))),
                    snd (PixelDimension_extent (dimension_ (config_ c))))
         else None).
Proof.
  intros Hcam. unfold GstSrc.create. rewrite Hcam.
  destruct (capture_frame c w) as [[[v | e |] c1] w1] eqn:Hcap;
    [| discriminate | discriminate].
  destruct (capture_frame_Return_trace _ _ _ _ _ Hcap)
    as (rc & buf & now & Ht & _ & Hmark & _ & _ & Hsize & Hts & Hext).
  destruct (Z.eqb_spec (span_size (image v)) 0) as [Hz | Hnz]; cbn [orb];
    [discriminate |].
  destruct (Z.ltb_spec (16 * 1024 * 1024) (span_size (image v))) as [Hbig | Hok];
    [discriminate |].
  intros [= <- <- <- <-].
  eexists v, c1, _, rc, buf, now.
  split; [reflexivity |]. split; [reflexivity |]. split; [reflexivity |].
  split; [unfold has_valid_frame; now rewrite Hmark |].
  split; [exact Ht |].
  cbn [GstSrc.memory_data GstSrc.memory_size GstSrc.buffer_offset
       GstSrc.buffer_offset_end GstSrc.buffer_duration GstSrc.buffer_pts
       GstSrc.video_meta GstSrc.frame_number GstSrc.with_frame_number
       GstSrc.with_camera GstSrc.fps GstSrc.pixel_format].
  split; [reflexivity |]. split; [exact Hsize |].
  split; [pose proof (u32_range (buf_bytesused buf)); rewrite Hsize in *; lia |].
  split; [reflexivity |]. split; [reflexivity |]. split; [reflexivity |].
  split; [destruct (GstSrc.fps self); (vm_compute; split; [discriminate | reflexivity]) |].
  split; [now rewrite Hts |].
  unfold GstSrc.to_gst_video_format.
  destruct (GstSrc.pixel_format self =? YUYV).
  - rewrite <- Hext. reflexivity.
  - destruct (GstSrc.pixel_format self =? MJPG); reflexivity.
Qed.

Lemma release_notify_run cam w index rc buf k' :
  last_buf_index_ cam = Some index ->
  sys (ioctl_QBUF (fd_ cam) (capture_buffer index)) (kernel w) = ((rc, buf), k') ->
  let w1 := after_call (ioctl_QBUF (fd_ cam) (capture_buffer index)) (rc, buf) k' w in
  GstSrc.release_notify cam w =
    if rc <? 0
    then (Return tt, cam, w1,
          [GstSrc.requeuing_buffer;
           GstSrc.release_frame_exception (runtime_error (QBUF_failed_for index))])
    else (Return tt, set_last_buf_index None cam, w1, [GstSrc.requeuing_buffer]).
Proof.
  intros Hmark E. unfold GstSrc.release_notify, has_valid_frame. rewrite Hmark.
  rewrite (release_frame_run _ _ _ _ _ _ Hmark E). cbn zeta.
  destruct (rc <? 0); reflexivity.
Qed.

Lemma release_notify_idle cam w :
  last_buf_index_ cam = None ->
  GstSrc.release_notify cam w = (Return tt, cam, w, [GstSrc.no_valid_buffer]).
Proof.
  intros Hmark. unfold GstSrc.release_notify, has_valid_frame. now rewrite Hmark.
Qed.

(** X28: the destroy notification of a pushed buffer gives back the buffer
    the camera dequeued last, not the one the pushed buffer wraps.  With
    nothing outstanding before the create: when the buffer is destroyed
    before the next create, the notification enqueues the index that create
    dequeued, and the camera ends as it was before the create, or, when the
    enqueue failed, with that buffer still marked outstanding.  But when a
    second create comes first, the notifications of the two buffers
    together enqueue the second create's index and no other: the buffer the
    first create dequeued is never given back. *)
Theorem create_notify_cycle self w c out self' w' log :
  GstSrc.camera self = Some c ->
  last_buf_index_ c = None ->
  GstSrc.create self w = (Return (GstSrc.GST_FLOW_OK, out), self', w', log) ->
  exists c1 rc buf now,
    GstSrc.camera self' = Some c1 /\
    trace w' = trace w ++ [Ev (ioctl_DQBUF (fd_ c) (capture_buffer 0)) (rc, buf);
                           Ev steady_clock_now_us now] /\
    last_buf_index_ c1 = Some (u32 (buf_index buf)) /\
    u32 (buf_index buf) < Z.of_nat (length (buffers_ c)) /\
    (exists c2 w2 log2 reply,
       GstSrc.release_notify c1 w' = (Return tt, c2, w2, log2) /\
       trace w2 = trace w' ++
         [Ev (ioctl_QBUF (fd_ c) (capture_buffer (u32 (buf_index buf)))) reply] /\
       ((0 <= fst reply /\ c2 = c) \/
        (fst reply < 0 /\ c2 = c1))) /\
    (forall out' self2 w2 log2,
       GstSrc.create self' w'
       = (Return (GstSrc.GST_FLOW_OK, out'), self2, w2, log2) ->
       exists cam2 rc' buf' now',
         GstSrc.camera self2 = Some cam2 /\
         trace w2 = trace w' ++ [Ev (ioctl_DQBUF (fd_ c) (capture_buffer 0)) (rc', buf');
                                 Ev steady_clock_now_us now'] /\
         last_buf_index_ cam2 = Some (u32 (buf_index buf')) /\
         exists cam3 w3 log3 cam4 w4 log4 calls,
           GstSrc.release_notify cam2 w2 = (Return tt, cam3, w3, log3) /\
           GstSrc.release_notify cam3 w3 = (Return tt, cam4, w4, log4) /\
           trace w4 = trace w2 ++ calls /\
           enqueued_indices calls <> [] /\
           Forall (fun i => i = u32 (buf_index buf')) (enqueued_indices calls) /\
           (u32 (buf_index buf) <> u32 (buf_index buf') ->
            ~ In (u32 (buf_index buf)) (enqueued_indices calls))).
Proof.
  intros Hcam Hnone. unfold GstSrc.create at 1. rewrite Hcam.
  destruct (capture_frame c w) as [[[v | e |] c1] w1] eqn:Hcap;
    [| discriminate | discriminate].
  destruct (capture_frame_Return_trace _ _ _ _ _ Hcap)
    as (rc & buf & now & Ht & _ & Hmark & Hidx & Hc1 & _).
  destruct ((span_size (image v) =? 0) || (16 * 1024 * 1024 <? span_size (image v)));
    [discriminate |].
  intros [= <- <- <- <-].
  assert (Hfd : fd_ c1 = fd_ c) by (rewrite Hc1; reflexivity).
  exists c1, rc, buf, now.
  split; [reflexivity |]. split; [exact Ht |]. split; [exact Hmark |].
  split; [exact Hidx |]. split.
  - destruct (sys (ioctl_QBUF (fd_ c1) (capture_buffer (u32 (buf_index buf))))
                  (kernel w1)) as [[rc2 buf2] k3] eqn:E2.
    rewrite (release_notify_run _ _ _ _ _ _ Hmark E2). cbn zeta.
    destruct (Z.ltb_spec rc2 0).
    + eexists c1, _, _, (rc2, buf2). split; [reflexivity |].
      cbn [trace after_call fst]. rewrite Hfd. split; [reflexivity |]. right. auto.
    + eexists _, _, _, (rc2, buf2). split; [reflexivity |].
      cbn [trace after_call fst]. rewrite Hfd. split; [reflexivity |].
      left. split; [lia |].
      rewrite Hc1. destruct c. cbn in *. subst. reflexivity.
  - intros out' self2 w2 log2. unfold GstSrc.create.
    cbn [GstSrc.camera GstSrc.with_frame_number GstSrc.with_camera].
    destruct (capture_frame c1 w1) as [[[v' | e |] cam2] w2'] eqn:Hcap';
      [| discriminate | discriminate].
    destruct (capture_frame_Return_trace _ _ _ _ _ Hcap')
      as (rc' & buf' & now' & Ht' & _ & Hmark' & _ & Hcam2 & _).
    destruct ((span_size (image v') =? 0)
              || (16 * 1024 * 1024 <? span_size (image v')));
      [discriminate |].
    intros [= <- <- <- <-].
    assert (Hfd2 : fd_ cam2 = fd_ c1) by (rewrite Hcam2; reflexivity).
    exists cam2, rc', buf', now'.
    split; [reflexivity |]. split; [rewrite Ht', Hfd; reflexivity |].
    split; [exact Hmark' |].
    set (index := u32 (buf_index buf')) in *.
    destruct (sys (ioctl_QBUF (fd_ cam2) (capture_buffer index)) (kernel w2'))
      as [[rc2 buf2] k3] eqn:E2.
    rewrite (release_notify_run _ _ _ _ _ _ Hmark' E2). cbn zeta.
    set (wq := after_call (ioctl_QBUF (fd_ cam2) (capture_buffer index))
                          (rc2, buf2) k3 w2').
    destruct (sys (ioctl_QBUF (fd_ cam2) (capture_buffer index)) (kernel wq))
      as [[rc3 buf3] k4] eqn:E3.
    pose proof (release_notify_run cam2 wq index rc3 buf3 k4 Hmark' E3) as Hagain.
    cbn zeta in Hagain.
    destruct (rc2 <? 0).
    + destruct (rc3 <? 0).
      * eexists _, _, _, _, _, _, _. split; [reflexivity |].
        split; [exact Hagain |].
        subst wq. cbn [trace after_call]. rewrite <- app_assoc.
        split; [reflexivity |]. cbn.
        split; [discriminate |].
        split; [repeat constructor |].
        intros Hne [Heq | [Heq | []]]; congruence.
      * eexists _, _, _, _, _, _, _. split; [reflexivity |].
        split; [exact Hagain |].
        subst wq. cbn [trace after_call]. rewrite <- app_assoc.
        split; [reflexivity |]. cbn.
        split; [discriminate |].
        split; [repeat constructor |].
        intros Hne [Heq | [Heq | []]]; congruence.
    + eexists _, _, _, _, _, _, _. split; [reflexivity |].
      split; [apply release_notify_idle; reflexivity |].
      subst wq. cbn [trace after_call].
      split; [reflexivity |]. cbn.
      split; [discriminate |].
      split; [repeat constructor |].
      intros Hne [Heq | []]; congruence.
Qed.

(** *** A whole session *)

Lemma serve_inv o c w :
  fd_ (fst (serve o c w)) = fd_ c /\
  buffers_ (fst (serve o c w)) = buffers_ c /\
  config_ (fst (serve o c w)) = config_ c /\
  configured_ (fst (serve o c w)) = configured_ c /\
  caps_ (fst (serve o c w)) = caps_ c /\
  exists new,
    trace (snd (serve o c w)) = trace w ++ new /\
    Forall streaming_call new /\
    Forall (fun fd => fd = fd_ c) (fds new).
Proof.
  destruct o; unfold serve.
  - destruct (sys (ioctl_DQBUF (fd_ c) (capture_buffer 0)) (kernel w))
      as [[rc buf] k'] eqn:E.
    rewrite (capture_frame_run _ _ _ _ _ E). cbn zeta.
    assert (Hone : exists new,
               trace w ++ [Ev (ioctl_DQBUF (fd_ c) (capture_buffer 0)) (rc, buf)]
               = trace w ++ new /\
               Forall streaming_call new /\ Forall (fun fd => fd = fd_ c) (fds new)).
    { eexists. split; [reflexivity |]. split.
      - constructor; [left; reflexivity | constructor].
      - cbn. constructor; [reflexivity | constructor]. }
    destruct (rc <? 0); [cbn [fst snd]; repeat split; try reflexivity; exact Hone |].
    destruct (Z.of_nat (length (buffers_ c)) <=? u32 (buf_index buf));
      [cbn [fst snd]; repeat split; try reflexivity; exact Hone |].
    destruct (buffers_ c !! Z.to_nat (u32 (buf_index buf))) as [mapped |].
    + destruct (sys steady_clock_now_us k') as [now k2]. cbn [fst snd].
      repeat split; try reflexivity.
      exists [Ev (ioctl_DQBUF (fd_ c) (capture_buffer 0)) (rc, buf);
              Ev steady_clock_now_us now].
      cbn [trace after_call]. rewrite <- app_assoc. split; [reflexivity |]. split.
      * constructor; [left; reflexivity |].
        constructor; [right; left; reflexivity | constructor].
      * cbn. constructor; [reflexivity | constructor].
    + cbn [fst snd]. repeat split; try reflexivity; exact Hone.
  - destruct (last_buf_index_ c) as [index |] eqn:Hmark.
    + destruct (sys (ioctl_QBUF (fd_ c) (capture_buffer index)) (kernel w))
        as [[rc buf] k'] eqn:E.
      rewrite (release_frame_run _ _ _ _ _ _ Hmark E). cbn zeta.
      assert (Hone : exists new,
                 trace w ++ [Ev (ioctl_QBUF (fd_ c) (capture_buffer index)) (rc, buf)]
                 = trace w ++ new /\
                 Forall streaming_call new /\ Forall (fun fd => fd = fd_ c) (fds new)).
      { eexists. split; [reflexivity |]. split.
        - constructor; [right; right; left; reflexivity | constructor].
        - cbn. constructor; [reflexivity | constructor]. }
      destruct (rc <? 0); cbn [fst snd]; repeat split; try reflexivity; exact Hone.
    + rewrite (release_frame_warns _ _ Hmark). cbn [fst snd].
      repeat split; try reflexivity.
      exists []. cbn [trace after_print]. rewrite app_nil_r.
      split; [reflexivity |]. split; constructor.
Qed.

Lemma session_inv ops : forall c w,
  fd_ (fst (session ops c w)) = fd_ c /\
  buffers_ (fst (session ops c w)) = buffers_ c /\
  config_ (fst (session ops c w)) = config_ c /\
  configured_ (fst (session ops c w)) = configured_ c /\
  caps_ (fst (session ops c w)) = caps_ c /\
  exists new,
    trace (snd (session ops c w)) = trace w ++ new /\
    Forall streaming_call new /\
    Forall (fun fd => fd = fd_ c) (fds new).
Proof.
  induction ops as [| o rest IH]; intros c w.
  - cbn [session fst snd]. repeat split; try reflexivity.
    exists []. rewrite app_nil_r. split; [reflexivity |]. split; constructor.
  - cbn [session].
    pose proof (serve_inv o c w) as (Hfd & Hb & Hcfg & Hcd & Hcaps & new1 & Ht1 & Hs1 & Hf1).
    destruct (serve o c w) as [c1 w1]. cbn [fst snd] in *.
    destruct (IH c1 w1) as (Hfd2 & Hb2 & Hcfg2 & Hcd2 & Hcaps2 & new2 & Ht2 & Hs2 & Hf2).
    split; [congruence |]. split; [congruence |]. split; [congruence |].
    split; [congruence |]. split; [congruence |].
    exists (new1 ++ new2). split; [rewrite Ht2, Ht1, <- app_assoc; reflexivity |].
    split; [apply Forall_app; split; assumption |].
    unfold fds in *. rewrite omap_app. apply Forall_app. split; [exact Hf1 |].
    rewrite <- Hfd. exact Hf2.
Qed.

Lemma streaming_calls_quiet t :
  Forall streaming_call t ->
  opened_fds t = [] /\ closed_fds t = [] /\
  mapped_regions t = [] /\ unmapped_regions t = [].
Proof.
  intros Hall.
  assert (Hk : forall e, streaming_call e ->
               kind_of e <> k_open /\ kind_of e <> k_close /\
               kind_of e <> k_mmap /\ kind_of e <> k_munmap).
  { intros e He. unfold streaming_call in He. cbn in He.
    destruct He as [<- | [<- | [<- | []]]]; repeat split; discriminate. }
  repeat split; apply omap_nothing; eapply Forall_impl; try exact Hall;
    intros e He; destruct (Hk e He) as (? & ? & ? & ?).
  - now apply read_opened_by_kind.
  - now apply read_by_kind.
  - now apply read_by_kind.
  - now apply read_by_kind.
Qed.

(** X29: a session of captures and releases, of any length and whatever the
    calls return, keeps the descriptor, the pool, the configuration and the
    configured flag as they are; every call it makes is a dequeue, a clock
    read or an enqueue, and those on a descriptor are on the engine's own.
    It opens, closes, maps and unmaps nothing. *)
Theorem session_keeps_resources ops c w :
  fd_ (fst (session ops c w)) = fd_ c /\
  buffers_ (fst (session ops c w)) = buffers_ c /\
  config_ (fst (session ops c w)) = config_ c /\
  configured_ (fst (session ops c w)) = configured_ c /\
  exists new,
    trace (snd (session ops c w)) = trace w ++ new /\
    Forall streaming_call new /\
    Forall (fun fd => fd = fd_ c) (fds new) /\
    opened_fds new = [] /\ closed_fds new = [] /\
    mapped_regions new = [] /\ unmapped_regions new = [].
Proof.
  destruct (session_inv ops c w) as (Hfd & Hb & Hcfg & Hcd & _ & new & Ht & Hs & Hf).
  repeat (split; [assumption |]).
  exists new. split; [exact Ht |]. split; [exact Hs |]. split; [exact Hf |].
  now apply streaming_calls_quiet.
Qed.

(** X30: the whole life of an engine leaks nothing.  A fresh engine is
    opened, configured and started (however far that gets), any session of
    captures and releases follows, and the engine is destroyed: every
    descriptor opened on the way is closed, and every region mapped at a
    non-null address is unmapped. *)
Theorem lifecycle_releases_everything c w r c1 w1 ops :
  GstSrc.bring_up c w = (r, c1, w1) ->
  (Z.to_nat (buffer_count_ (config_ c)) <= length (buffers_ c))%nat ->
  configured_ c = false ->
  exists new,
    trace (V4L2Camera_destroy (fst (session ops c1 w1)) (snd (session ops c1 w1)))
    = trace w ++ new /\
    Forall (fun fd => fd ∈ closed_fds new) (opened_fds new) /\
    Forall (fun region => fst region <> nullptr -> region ∈ unmapped_regions new)
           (mapped_regions new).
Proof.
  intros Hrun Hpool Hcfg.
  apply bring_up_inv in Hrun
    as (_ & _ & _ & new & Ht & Ho & Hrec & Hu & Hc & _); [| assumption ..].
  destruct (session_inv ops c1 w1) as (Hfd & Hb & _ & _ & _ & mid & Htm & Hs & _).
  destruct (streaming_calls_quiet _ Hs) as (Hom & Hcm & Hmm & Hum).
  destruct (session ops c1 w1) as [c2 w2]. cbn [fst snd] in *.
  unfold V4L2Camera_destroy.
  destruct (cleanup_releases_trace c2 w2) as (closing & Hd & Hcu & Hcc).
  destruct (cleanup_trace_kinds c2 w2) as (closing' & Hd' & Hkinds).
  assert (closing' = closing) by (rewrite Hd in Hd'; now apply app_inv_head in Hd').
  subst closing'.
  assert (Hq : opened_fds closing = [] /\ mapped_regions closing = []).
  { split.
    - apply omap_nothing. eapply Forall_impl; [exact Hkinds |].
      intros e [He | He]; apply read_opened_by_kind; rewrite He; discriminate.
    - apply no_mmap_no_region. eapply Forall_impl; [exact Hkinds |].
      intros e [He | He]; rewrite He; discriminate. }
  destruct Hq as [Hoc Hmc].
  exists (new ++ mid ++ closing).
  split; [rewrite Hd, Htm, Ht, <- !app_assoc; reflexivity |].
  unfold opened_fds, closed_fds, unmapped_regions in *.
  rewrite !mapped_regions_app, !omap_app, Ho, Hoc, Hmc, Hu, Hc, Hcu, Hcc,
    Hom, Hcm, Hmm, Hum, Hfd, Hb, !app_nil_r.
  cbn [app]. split.
  - destruct (0 <=? fd_ c1); repeat constructor.
  - pose proof (mapped_regions_not_failed new) as Hnf.
    apply Forall_forall. intros region Hin Hnonnull.
    rewrite Forall_forall in Hrec, Hnf.
    destruct (Hrec _ Hin) as [p Hp]. specialize (Hnf _ Hin).
    apply list_elem_of_In.
    replace region with (region_of {| data := fst region; size := snd region |})
      by (destruct region; reflexivity).
    apply in_map. apply filter_In. split.
    + apply list_elem_of_In. eapply list_elem_of_lookup_2. exact Hp.
    + unfold is_valid. cbn [data].
      destruct (Z.eqb_spec (fst region) nullptr); [contradiction |].
      destruct (Z.eqb_spec (fst region) MAP_FAILED); [contradiction |]. reflexivity.
Qed.

End ElementFacts.

(** ** The engine on the simulated device *)

Import Sim.

(** *** Ownership transfer *)

(** Whatever the kernel, a move assignment that is defined leaves the source
    with its handle reset and with the pool entries and the marker it had. *)
Lemma move_assign_source {K : Type} `{Kernel K} this other (w : world K) this' other' w1 :
  V4L2Camera_move_assign this other w = (Return (this', other'), w1) ->
  fd_ other' = -1 /\
  buffers_ other' = buffers_ other /\
  last_buf_index_ other' = last_buf_index_ other /\
  fd_ this' = fd_ other.
Proof.
  unfold V4L2Camera_move_assign.
  destruct (cleanup this w) as [[r this1] w0].
  destruct (copy_buffers _ _ _ _); [| discriminate].
  intros [= <- <- <-]. repeat split.
Qed.

(** Move construction writes through the new object's empty pool: it is
    defined only for a configured buffer count of zero. *)
Lemma move_construct_undefined other indeterminate :
  0 < buffer_count_ (config_ other) ->
  V4L2Camera_move other indeterminate = Undefined.
Proof.
  intros Hpos. unfold V4L2Camera_move.
  destruct (Z.to_nat (buffer_count_ (config_ other))) as [| n] eqn:Hn; [lia |].
  cbn [copy_buffers]. destruct (buffers_ other !! 0%nat); [| reflexivity].
  destruct (decide _) as [Hlt | _]; [cbn in Hlt; lia | reflexivity].
Qed.

(** C3 (the code departs from it): a configured engine with two mapped
    buffers is move-assigned to a fresh engine.  The source's handle is
    reset, but its pool still holds the two mappings the new owner now
    holds, so destroying the source unmaps exactly the new owner's regions;
    and move-constructing from the same source is undefined. *)
Theorem moved_from_source_keeps_mappings :
  let source := object_of (started 2 (camera MJPG 4 [])) in
  let w := world_of (started 2 (camera MJPG 4 [])) in
  let target := V4L2Camera_new (config 2) in
  exists this' other' w1,
    V4L2Camera_move_assign target source w = (Return (this', other'), w1) /\
    fd_ this' = 3 /\ fd_ other' = -1 /\
    buffers_ other' = buffers_ this' /\
    forallb is_valid (buffers_ other') = true /\
    length (buffers_ other') = 2%nat /\
    (exists new,
       trace (V4L2Camera_destroy other' w1) = trace w1 ++ new /\
       unmapped_regions new = map (fun b => (data b, size b)) (buffers_ this')) /\
    forall indeterminate, V4L2Camera_move source indeterminate = Undefined.
Proof.
  cbv zeta. eexists _, _, _.
  split; [vm_compute; reflexivity |].
  split; [reflexivity |]. split; [reflexivity |].
  split; [reflexivity |]. split; [reflexivity |]. split; [reflexivity |].
  split.
  - eexists. split; [vm_compute; reflexivity | reflexivity].
  - intros b. apply move_construct_undefined. vm_compute. reflexivity.
Qed.

(** *** Buffer counts *)

(** The engine is configured for four buffers on a camera that grants two:
    the request comes back with a count of two, and [configure] still
    queries index 2, which the driver rejects. *)
Lemma configure_beyond_granted_count :
  let s := and_then (opened 4 (camera MJPG 2 [])) configure in
  granted_counts (trace (world_of s)) = [2] /\
  touched_indices (trace (world_of s)) = [0; 1; 2] /\
  outcome_of s = Throw (runtime_error (QUERYBUF_failed 2 EINVAL)) /\
  ~ Forall (fun i => i < 2) (touched_indices (trace (world_of s))).
Proof.
  cbv zeta.
  assert (Ht : touched_indices
                 (trace (world_of (and_then (opened 4 (camera MJPG 2 [])) configure)))
               = [0; 1; 2]) by (vm_compute; reflexivity).
  split; [vm_compute; reflexivity |]. split; [exact Ht |].
  split; [vm_compute; reflexivity |].
  rewrite Ht. intros Hall.
  apply Forall_cons in Hall as [_ Hall].
  apply Forall_cons in Hall as [_ Hall].
  apply Forall_cons in Hall as [Hlt _]. lia.
Qed.

Lemma configure_uses_configured_count_witness :
  (* four buffers on a camera that grants two: the third query fails *)
  (let s0 := opened 4 (camera MJPG 2 []) in
   let s1 := configure (object_of s0) (world_of s0) in
   outcome_of s1 = Throw (runtime_error (QUERYBUF_failed 2 EINVAL)) /\
   length (buffers_ (object_of s1)) = 4%nat /\
   exists new,
     trace (world_of s1) = trace (world_of s0) ++ new /\
     granted_counts new = [2] /\
     queries_then_enqueues 4 False new /\
     fst (@configure driver (regranted 4) (object_of s0) (world_of s0))
     = (outcome_of s1, object_of s1)) /\
  (* four buffers on a kernel that reports a grant of two and serves four *)
  (let s0 := opened 4 (camera MJPG 4 []) in
   let s1 := @configure driver (regranted 2) (object_of s0) (world_of s0) in
   fst (fst s1) = Return tt /\
   exists new,
     trace (snd s1) = trace (world_of s0) ++ new /\
     granted_counts new = [2] /\
     queried_indices new = [0; 1; 2; 3] /\
     enqueued_indices new = [0; 1; 2; 3]).
Proof.
  split; cbv zeta.
  - pose (s0 := opened 4 (camera MJPG 2 [])).
    pose (s1 := configure (object_of s0) (world_of s0)).
    assert (Hrun : configure (object_of s0) (world_of s0)
                   = (Throw (runtime_error (QUERYBUF_failed 2 EINVAL)),
                      object_of s1, world_of s1))
      by (vm_compute; reflexivity).
    destruct (configure_uses_configured_count 4 _ _ _ _ _ Hrun)
      as (_ & Hlen & (new & Ht & _ & _ & Hord & Hre & _) & _).
    split; [vm_compute; reflexivity |].
    split; [change (length (buffers_ (object_of s1)) = 4%nat); rewrite Hlen;
            vm_compute; reflexivity |].
    exists new. split; [exact Ht |].
    assert (Hnew : new = drop (length (trace (world_of s0))) (trace (world_of s1)))
      by (rewrite Ht, drop_app_length; reflexivity).
    split; [rewrite Hnew; vm_compute; reflexivity |].
    split.
    + eapply queries_then_enqueues_when; [| exact Hord]. intros [].
    + change (fst (@configure driver (regranted 4) (object_of s0) (world_of s0))
              = (outcome_of s1, object_of s1)).
      rewrite Hre. vm_compute. reflexivity.
  - pose (s0 := opened 4 (camera MJPG 4 [])).
    pose (s1 := @configure driver (regranted 2) (object_of s0) (world_of s0)).
    assert (Hrun : @configure driver (regranted 2) (object_of s0) (world_of s0)
                   = (Return tt, snd (fst s1), snd s1))
      by (vm_compute; reflexivity).
    destruct (@configure_uses_configured_count driver (regranted 2) 0 _ _ _ _ _ Hrun)
      as (_ & _ & (new & Ht & _ & _ & Hord & _) & _).
    split; [vm_compute; reflexivity |].
    exists new. split; [exact Ht |].
    assert (Hnew : new = drop (length (trace (world_of s0))) (trace (snd s1)))
      by (rewrite Ht, drop_app_length; reflexivity).
    split; [rewrite Hnew; vm_compute; reflexivity |].
    destruct Hord as (front & back & m1 & m2 & -> & Hqf & Hef & Hqb & Heb & _ & _ & _ & Hall).
    destruct Hall as [-> ->]; [split; [reflexivity | vm_compute; reflexivity] |].
    unfold queried_indices, enqueued_indices in *.
    rewrite !omap_app, Hqf, Hef, Hqb, Heb. split; vm_compute; reflexivity.
Defined.

(** *** Frame views *)

(** The driver reports 5000 bytes used for a buffer mapped with 4096: the
    view handed out is 5000 bytes long. *)
Lemma capture_frame_view_exceeds_mapping :
  let s0 := started 2 (camera MJPG 4 [(0, 5000)]) in
  let s1 := capture_frame (object_of s0) (world_of s0) in
  exists v mapped,
    outcome_of s1 = Return v /\
    last_buf_index_ (object_of s1) = Some 0 /\
    buffers_ (object_of s1) !! 0%nat = Some mapped /\
    span_data (image v) = data mapped /\
    size mapped = 4096 /\
    span_size (image v) = 5000 /\
    ~ span_size (image v) <= size mapped.
Proof.
  cbv zeta. eexists _, _.
  split; [vm_compute; reflexivity |].
  split; [vm_compute; reflexivity |].
  split; [vm_compute; reflexivity |].
  split; [reflexivity |]. split; [reflexivity |]. split; [reflexivity |].
  cbn. lia.
Qed.

Lemma capture_frame_view_witness :
  let s0 := started 2 (camera MJPG 4 [(1, 1000)]) in
  let s1 := capture_frame (object_of s0) (world_of s0) in
  exists mapped v,
    buffers_ (object_of s0) !! 1%nat = Some mapped /\
    outcome_of s1 = Return v /\
    span_data (image v) = data mapped /\
    span_size (image v) = 1000 /\
    span_size (image v) <= size mapped.
Proof.
  cbv zeta.
  pose (s0 := started 2 (camera MJPG 4 [(1, 1000)])).
  pose (reply := sys (ioctl_DQBUF (fd_ (object_of s0)) (capture_buffer 0))
                     (kernel (world_of s0))).
  assert (E : sys (ioctl_DQBUF (fd_ (object_of s0)) (capture_buffer 0))
                  (kernel (world_of s0))
              = ((fst (fst reply), snd (fst reply)), snd reply))
    by (vm_compute; reflexivity).
  assert (Hrc : 0 <= fst (fst reply)) by (vm_compute; discriminate).
  destruct (capture_frame_view _ _ _ _ _ E Hrc) as [_ Hin].
  destruct Hin as (mapped & v & c1 & w2 & Hm & Hcap & _ & _ & Hd & Hs & Hle).
  { vm_compute. reflexivity. }
  exists mapped, v. split; [exact Hm |].
  split; [unfold outcome_of; fold s0; rewrite Hcap; reflexivity |].
  split; [exact Hd |]. split; [exact Hs |].
  apply Hle. vm_compute in Hm. injection Hm as <-. vm_compute. discriminate.
Defined.

(** *** Format negotiation *)

(** MJPG is requested from a camera that only produces YUYV. *)
Lemma configure_verifies_format_witness :
  let s0 := opened 2 (camera YUYV 4 []) in
  let s1 := configure (object_of s0) (world_of s0) in
  outcome_of s1 = Throw (runtime_error (Driver_rejected_pixel_format MJPG YUYV)) /\
  object_of s1 = object_of s0 /\
  granted_counts (trace (world_of s1)) = [].
Proof.
  cbv zeta.
  pose (s0 := opened 2 (camera YUYV 4 [])).
  pose (reply := sys (ioctl_S_FMT (fd_ (object_of s0)) (format_request (object_of s0)))
                     (kernel (world_of s0))).
  assert (Hguard : (fd_ (object_of s0) <? 0) || configured_ (object_of s0) = false)
    by (vm_compute; reflexivity).
  assert (Hsup : supported_format (u32 (format_ (config_ (object_of s0)))) = true)
    by (vm_compute; reflexivity).
  assert (E : sys (ioctl_S_FMT (fd_ (object_of s0)) (format_request (object_of s0)))
                  (kernel (world_of s0))
              = ((fst (fst reply), snd (fst reply)), snd reply))
    by (vm_compute; reflexivity).
  assert (Hrc : 0 <= fst (fst reply)) by (vm_compute; discriminate).
  destruct (configure_verifies_format _ _ _ _ _ Hguard Hsup E Hrc) as [Hthrow _].
  fold s0. rewrite Hthrow by (vm_compute; discriminate).
  split; [vm_compute; reflexivity |]. split; [reflexivity |].
  vm_compute. reflexivity.
Defined.

(** *** The capture/release cycle *)

Lemma release_frame_nothing_outstanding_witness :
  let s0 := started 2 (camera MJPG 4 [(0, 1000)]) in
  release_frame (object_of s0) (world_of s0) =
    (Return tt, object_of s0,
     after_print (to_stderr msg_release_frame_without_index) (world_of s0)).
Proof.
  cbv zeta.
  apply (release_frame_nothing_outstanding
           (object_of (started 2 (camera MJPG 4 [(0, 1000)])))
           (world_of (started 2 (camera MJPG 4 [(0, 1000)])))).
  vm_compute. reflexivity.
Defined.

Lemma has_valid_frame_tracks_cycle_witness :
  let s0 := started 2 (camera MJPG 4 [(0, 1000)]) in
  let s1 := capture_frame (object_of s0) (world_of s0) in
  let s2 := release_frame (object_of s1) (world_of s1) in
  let s3 := release_frame (object_of s2) (world_of s2) in
  has_valid_frame (object_of s1) = true /\
  has_valid_frame (object_of s2) = false /\
  outcome_of s3 = Return tt /\
  object_of s3 = object_of s2 /\
  trace (world_of s3) = trace (world_of s2).
Proof.
  cbv zeta.
  pose (s0 := started 2 (camera MJPG 4 [(0, 1000)])).
  pose (s1 := capture_frame (object_of s0) (world_of s0)).
  pose (s2 := release_frame (object_of s1) (world_of s1)).
  assert (Hcap : exists v, capture_frame (object_of s0) (world_of s0)
                           = (Return v, object_of s1, world_of s1))
    by (eexists; vm_compute; reflexivity).
  destruct Hcap as [v Hcap].
  assert (Hrel : release_frame (object_of s1) (world_of s1)
                 = (Return tt, object_of s2, world_of s2))
    by (vm_compute; reflexivity).
  destruct (has_valid_frame_tracks_cycle _ _ _ _ _ Hcap) as [Hout Hnext].
  destruct (Hnext _ _ Hrel) as [Hclear Hagain].
  fold s0 s1 s2. rewrite Hagain.
  repeat split; assumption.
Defined.

(** The camera is pulled out while buffer 0 is outstanding. *)
Lemma release_frame_requeue_failure_witness :
  let s0 := started 2 (camera MJPG 4 [(0, 1000)]) in
  let s1 := unplugged (capture_frame (object_of s0) (world_of s0)) in
  let s2 := release_frame (object_of s1) (world_of s1) in
  let s3 := release_frame (object_of s2) (world_of s2) in
  outcome_of s2 = Throw (runtime_error (QBUF_failed_for 0)) /\
  object_of s2 = object_of s1 /\
  last_buf_index_ (object_of s2) = Some 0 /\
  touched_indices (trace (world_of s3)) = touched_indices (trace (world_of s1)) ++ [0; 0].
Proof.
  cbv zeta.
  pose (s0 := started 2 (camera MJPG 4 [(0, 1000)])).
  pose (s1 := unplugged (capture_frame (object_of s0) (world_of s0))).
  pose (reply := sys (ioctl_QBUF (fd_ (object_of s1)) (capture_buffer 0))
                     (kernel (world_of s1))).
  assert (Hsome : last_buf_index_ (object_of s1) = Some 0)
    by (vm_compute; reflexivity).
  assert (E : sys (ioctl_QBUF (fd_ (object_of s1)) (capture_buffer 0))
                  (kernel (world_of s1))
              = ((fst (fst reply), snd (fst reply)), snd reply))
    by (vm_compute; reflexivity).
  assert (Hrc : fst (fst reply) < 0) by (vm_compute; reflexivity).
  destruct (release_frame_requeue_failure _ _ _ _ _ _ Hsome E Hrc)
    as (Hthrow & _ & r & c2 & reply2 & k2 & Hagain).
  fold s0 s1. rewrite Hthrow.
  unfold outcome_of, object_of, world_of. cbn [fst snd].
  fold (object_of s1). fold (world_of s1). rewrite Hagain. cbn [fst snd].
  split; [reflexivity |]. split; [reflexivity |]. split; [exact Hsome |].
  cbn [trace after_call]. rewrite !touched_indices_app, <- app_assoc. reflexivity.
Defined.

(** Two frames are captured in a row: the marker moves from 0 to 1, and the
    one release that follows enqueues buffer 1 and leaves nothing
    outstanding. *)
Lemma capture_frame_overwrites_marker_witness :
  let s0 := started 2 (camera MJPG 4 [(0, 1000); (1, 1200)]) in
  let s1 := capture_frame (object_of s0) (world_of s0) in
  let s2 := capture_frame (object_of s1) (world_of s1) in
  let s3 := release_frame (object_of s2) (world_of s2) in
  last_buf_index_ (object_of s1) = Some 0 /\
  last_buf_index_ (object_of s2) = Some 1 /\
  touched_indices (trace (world_of s3)) = touched_indices (trace (world_of s2)) ++ [1] /\
  last_buf_index_ (object_of s3) = None.
Proof.
  cbv zeta.
  pose (s0 := started 2 (camera MJPG 4 [(0, 1000); (1, 1200)])).
  pose (s1 := capture_frame (object_of s0) (world_of s0)).
  pose (s2 := capture_frame (object_of s1) (world_of s1)).
  assert (H1 : last_buf_index_ (object_of s1) = Some 0) by (vm_compute; reflexivity).
  assert (Hobj : set_last_buf_index (Some 0) (object_of s1) = object_of s1)
    by (vm_compute; reflexivity).
  assert (Hcap : exists v, capture_frame (set_last_buf_index (Some 0) (object_of s1))
                                         (world_of s1)
                           = (Return v, object_of s2, world_of s2))
    by (eexists; vm_compute; reflexivity).
  destruct Hcap as [v Hcap].
  destruct (capture_frame_overwrites_marker (object_of s1) (world_of s1) 0)
    as (_ & _ & Hnew).
  destruct (Hnew _ _ _ Hcap)
    as (rc & buf & k' & E & Hmark & r & c2 & reply & k2 & Hrel & Hnone).
  assert (Hidx : u32 (buf_index buf) = 1).
  { vm_compute in E. injection E as _ <- _. reflexivity. }
  rewrite Hidx in *.
  assert (Hr : r = Return tt).
  { assert (Hr' : outcome_of (release_frame (object_of s2) (world_of s2)) = Return tt)
      by (vm_compute; reflexivity).
    rewrite Hrel in Hr'. exact Hr'. }
  fold s0 s1 s2. rewrite Hrel.
  unfold object_of at 3 4, world_of at 1. cbn [fst snd].
  split; [exact H1 |]. split; [exact Hmark |]. split.
  - cbn [trace after_call]. rewrite touched_indices_app. reflexivity.
  - now apply Hnone.
Defined.

(** [configure] on a freshly constructed engine. *)
Lemma configure_idempotent_noop_witness :
  let c := V4L2Camera_new V4l2Config_default in
  let w := boot (camera MJPG 4 []) in
  configure c w = (Return tt, c, w) /\
  configure (object_of (configure c w)) (world_of (configure c w)) = (Return tt, c, w).
Proof.
  cbv zeta.
  assert (Hclosed : fd_ (V4L2Camera_new V4l2Config_default) < 0
                    \/ configured_ (V4L2Camera_new V4l2Config_default) = true)
    by (left; vm_compute; reflexivity).
  destruct (configure_idempotent_noop (V4L2Camera_new V4l2Config_default)
              (boot (camera MJPG 4 [])) Hclosed) as (Hnoop & _ & _).
  rewrite Hnoop. split; [reflexivity |]. exact Hnoop.
Defined.

(** ** More on the format/geometry model *)

Section GeometryMore.

Lemma u32_shiftl_16 w :
  u32 (Z.shiftl w 16) = Z.shiftl (w mod 2 ^ 16) 16.
Proof.
  unfold u32. rewrite !Z.shiftl_mul_pow2 by lia.
  change (2 ^ 32) with (2 ^ 16 * 2 ^ 16).
  rewrite Z.mul_mod_distr_r by lia. reflexivity.
Qed.

(** X1: packing keeps the low 16 bits of the width: for any width and a
    16-bit height, unpacking the packed pair gives the width modulo 65536
    and the height, so the pair survives exactly when the width fits 16
    bits. *)
Theorem pack_unpack_truncates_width w h :
  0 <= w -> 0 <= h < 2 ^ 16 ->
  dimensions_decompress (dimensions_compress w h) = (w mod 2 ^ 16, h) /\
  (dimensions_decompress (dimensions_compress w h) = (w, h) <-> w < 2 ^ 16).
Proof.
  intros Hw Hh.
  assert (Hm : 0 <= w mod 2 ^ 16 < 2 ^ 16) by (apply Z.mod_pos_bound; lia).
  assert (Hp : dimensions_decompress (dimensions_compress w h) = (w mod 2 ^ 16, h)).
  { rewrite <- (dimensions_roundtrip (w mod 2 ^ 16) h) by assumption.
    unfold dimensions_compress. rewrite !u32_shiftl_16.
    rewrite Z.mod_mod by lia. reflexivity. }
  split; [exact Hp |]. rewrite Hp. split.
  - intros [= Heq]. lia.
  - intros Hlt. rewrite Z.mod_small by lia. reflexivity.
Qed.

Lemma pack_unpack_truncates_width_witness :
  dimensions_decompress (dimensions_compress 70000 720) = (4464, 720).
Proof.
  apply (pack_unpack_truncates_width 70000 720); lia.
Defined.

Lemma dimensions_decompress_range d :
  0 <= d < 2 ^ 32 ->
  0 <= fst (dimensions_decompress d) < 2 ^ 16 /\
  0 <= snd (dimensions_decompress d) < 2 ^ 16.
Proof.
  intros Hd. unfold dimensions_decompress. cbn [fst snd]. split.
  - rewrite Z.shiftr_div_pow2 by lia. split.
    + apply Z.div_pos; lia.
    + apply Z.div_lt_upper_bound; lia.
  - change 0xFFFF with (Z.ones 16). rewrite Z.land_ones by lia.
    apply Z.mod_pos_bound. lia.
Qed.

(** X2: unpacking and packing again gives back every 32-bit value, and both
    halves of an unpacked value fit 16 bits. *)
Theorem unpack_pack d :
  0 <= d < 2 ^ 32 ->
  let '(w, h) := dimensions_decompress d in
  dimensions_compress w h = d /\ 0 <= w < 2 ^ 16 /\ 0 <= h < 2 ^ 16.
Proof.
  intros Hd. pose proof (dimensions_decompress_range d Hd) as [Hw Hh].
  unfold dimensions_decompress in *. cbn [fst snd] in Hw, Hh.
  unfold dimensions_compress.
  split; [| split; assumption].
  rewrite u32_shiftl_16, Z.mod_small by assumption.
  apply Z.bits_inj'. intros n Hn.
  rewrite Z.lor_spec, Z.land_spec.
  change 0xFFFF with (Z.ones 16).
  destruct (Z.lt_ge_cases n 16) as [Hlo | Hhi].
  - rewrite Z.shiftl_spec_low by assumption.
    rewrite Z.ones_spec_low by lia. cbn. apply andb_true_r.
  - rewrite Z.shiftl_spec by lia. rewrite Z.shiftr_spec by lia.
    rewrite Z.ones_spec_high by lia.
    rewrite andb_false_r, orb_false_r. f_equal. lia.
Qed.

Lemma unpack_pack_witness :
  dimensions_compress 3840 2160 = PixelDimension_value DIM_4K.
Proof.
  assert (Hd : 0 <= PixelDimension_value DIM_4K < 2 ^ 32)
    by (split; [vm_compute; discriminate | vm_compute; reflexivity]).
  exact (proj1 (unpack_pack (PixelDimension_value DIM_4K) Hd)).
Defined.

(** X3: the pixel count of an unpacked 32-bit value never wraps: it is the
    product of the two halves. *)
Theorem dimensions_size_exact d :
  0 <= d < 2 ^ 32 ->
  dimensions_size (dimensions_decompress d)
  = fst (dimensions_decompress d) * snd (dimensions_decompress d).
Proof.
  intros Hd. pose proof (dimensions_decompress_range d Hd) as [Hw Hh].
  unfold dimensions_size. apply u32_small. nia.
Qed.

Lemma dimensions_size_exact_witness :
  dimensions_size (dimensions_decompress (PixelDimension_value DIM_4K)) = 3840 * 2160.
Proof.
  assert (Hd : 0 <= PixelDimension_value DIM_4K < 2 ^ 32)
    by (split; [vm_compute; discriminate | vm_compute; reflexivity]).
  exact (dimensions_size_exact (PixelDimension_value DIM_4K) Hd).
Defined.

Lemma byte_bit_out x m :
  0 <= x < 256 -> m < 0 \/ 8 <= m -> Z.testbit x m = false.
Proof.
  intros Hx [Hm | Hm].
  - now apply Z.testbit_neg_r.
  - rewrite <- (Z.mod_small x (2 ^ 8)) by lia.
    apply Z.mod_pow2_bits_high. lia.
Qed.

Lemma char_code_range x : 0 <= char_code x < 256.
Proof.
  unfold char_code. pose proof (N_ascii_bounded x). lia.
Qed.

(** The byte at bit offset [s] of four bytes laid side by side. *)
Lemma packed_byte A B C D s X :
  0 <= A < 256 -> 0 <= B < 256 -> 0 <= C < 256 -> 0 <= D < 256 ->
  (s = 0 /\ X = A) \/ (s = 8 /\ X = B) \/ (s = 16 /\ X = C) \/ (s = 24 /\ X = D) ->
  Z.land (Z.shiftr (Z.lor (Z.lor (Z.lor A (Z.shiftl B 8)) (Z.shiftl C 16))
                          (Z.shiftl D 24)) s) 0xFF = X.
Proof.
  intros HA HB HC HD Hs.
  assert (HX : 0 <= X < 256) by (destruct Hs as [[_ ->] | [[_ ->] | [[_ ->] | [_ ->]]]]; assumption).
  assert (Hs0 : 0 <= s) by lia.
  apply Z.bits_inj'. intros n Hn.
  rewrite Z.land_spec. change 0xFF with (Z.ones 8).
  destruct (Z.lt_ge_cases n 8) as [Hlo | Hhi].
  - rewrite Z.ones_spec_low, andb_true_r by lia.
    rewrite Z.shiftr_spec by lia.
    rewrite !Z.lor_spec, !Z.shiftl_spec by lia.
    destruct Hs as [[-> ->] | [[-> ->] | [[-> ->] | [-> ->]]]].
    + rewrite (byte_bit_out B), (byte_bit_out C), (byte_bit_out D) by (assumption || lia).
      rewrite !orb_false_r. f_equal. lia.
    + rewrite (byte_bit_out A), (byte_bit_out C), (byte_bit_out D) by (assumption || lia).
      rewrite !orb_false_r, orb_false_l. f_equal. lia.
    + rewrite (byte_bit_out A), (byte_bit_out B), (byte_bit_out D) by (assumption || lia).
      rewrite !orb_false_r, !orb_false_l. f_equal. lia.
    + rewrite (byte_bit_out A), (byte_bit_out B), (byte_bit_out C) by (assumption || lia).
      rewrite !orb_false_l. f_equal. lia.
  - rewrite Z.ones_spec_high, andb_false_r by lia.
    symmetry. apply byte_bit_out; [assumption | lia].
Qed.

Lemma u32_shifted_byte x s :
  0 <= x < 256 -> 0 <= s <= 24 -> u32 (Z.shiftl x s) = Z.shiftl x s.
Proof.
  intros Hx Hs. apply u32_small. rewrite Z.shiftl_mul_pow2 by lia.
  assert (2 ^ s <= 2 ^ 24) by (apply Z.pow_le_mono_r; lia).
  assert (0 < 2 ^ s) by (apply Z.pow_pos_nonneg; lia). nia.
Qed.

Lemma fourcc_byte_make a b c d s x :
  (s = 0 /\ x = a) \/ (s = 8 /\ x = b) \/ (s = 16 /\ x = c) \/ (s = 24 /\ x = d) ->
  fourcc_byte (make_fourcc a b c d) s = x.
Proof.
  intros Hs. unfold fourcc_byte, make_fourcc.
  rewrite !u32_shifted_byte by (try apply char_code_range; lia).
  rewrite (packed_byte _ _ _ _ s (char_code x))
    by (try apply char_code_range;
        destruct Hs as [[-> ->] | [[-> ->] | [[-> ->] | [-> ->]]]]; auto 6).
  unfold char_code. rewrite N2Z.id. apply ascii_N_embedding.
Qed.

(** X4: for four non-zero 7-bit characters, the text read back from the
    code [make_fourcc] builds is those four characters in order. *)
Theorem fourcc_str_make_fourcc a b c d :
  Forall (fun x => 0 < char_code x < 128) [a; b; c; d] ->
  fourcc_str (make_fourcc a b c d)
  = String a (String b (String c (String d EmptyString))).
Proof.
  intros Hall.
  assert (Hnz : forall x, 0 < char_code x < 128 -> Ascii.eqb x zero = false).
  { intros x [Hx _]. apply Ascii.eqb_neq. intros ->. vm_compute in Hx. discriminate. }
  apply Forall_cons in Hall as [Ha Hall].
  apply Forall_cons in Hall as [Hb Hall].
  apply Forall_cons in Hall as [Hc Hall].
  apply Forall_cons in Hall as [Hd _].
  unfold fourcc_str.
  rewrite (fourcc_byte_make a b c d 0 a), (fourcc_byte_make a b c d 8 b),
    (fourcc_byte_make a b c d 16 c), (fourcc_byte_make a b c d 24 d) by auto 6.
  cbn [c_string]. rewrite !Hnz by assumption. reflexivity.
Qed.

Lemma fourcc_str_make_fourcc_witness :
  fourcc_str YUYV = String "Y" (String "U" (String "Y" (String "V" EmptyString))).
Proof.
  apply (fourcc_str_make_fourcc "Y" "U" "Y" "V").
  repeat constructor; vm_compute; reflexivity.
Defined.

End GeometryMore.

(** ** More runs on the simulated camera *)

(** The engine opens the simulated camera: descriptor 3, and the two calls. *)
Lemma open_device_returns_witness :
  let s := opened 2 (camera MJPG 4 []) in
  exists fd rc cap,
    trace (world_of s)
    = [Ev (sys_open "/dev/video0" O_RDWR) fd;
       Ev (ioctl_QUERYCAP fd v4l2_capability_zero) (rc, cap)] /\
    0 <= fd /\ fd_ (object_of s) = fd.
Proof.
  cbv zeta.
  pose (s := opened 2 (camera MJPG 4 [])).
  assert (Hrun : open_device (V4L2Camera_new (config 2)) (boot (camera MJPG 4 []))
                 = (Return tt, object_of s, world_of s))
    by (vm_compute; reflexivity).
  destruct (open_device_returns _ _ _ _ Hrun)
    as (fd & rc & cap & Ht & _ & Hfd & _ & _ & _ & Hc).
  exists fd, rc, cap. fold s. split; [exact Ht |]. split; [exact Hfd |].
  rewrite Hc. reflexivity.
Defined.

(** Two buffers are configured on the opened camera. *)
Lemma configure_follows_protocol_witness :
  let s0 := opened 2 (camera MJPG 4 []) in
  let s1 := configure (object_of s0) (world_of s0) in
  exists new,
    trace (world_of s1) = trace (world_of s0) ++ new /\
    kinds new = [k_S_FMT; k_G_FMT; k_S_PARM; k_REQBUFS;
                 k_QUERYBUF; k_mmap; k_QUERYBUF; k_mmap; k_QBUF; k_QBUF] /\
    fds new = replicate (length new) 3.
Proof.
  cbv zeta.
  pose (s0 := opened 2 (camera MJPG 4 [])).
  pose (s1 := configure (object_of s0) (world_of s0)).
  assert (Hrun : configure (object_of s0) (world_of s0)
                 = (Return tt, object_of s1, world_of s1))
    by (vm_compute; reflexivity).
  assert (Hpool : (Z.to_nat (buffer_count_ (config_ (object_of s0)))
                   <= length (buffers_ (object_of s0)))%nat)
    by (vm_compute; lia).
  destruct (configure_follows_protocol _ _ _ _ _ Hrun Hpool)
    as (new & rest & Ht & Hp & Hf & Hrest).
  assert (Hnil : rest = []) by (apply Hrest; [reflexivity | vm_compute; reflexivity]).
  rewrite Hnil, app_nil_r in Hp.
  exists new. fold s0 s1. split; [exact Ht |]. split; [| exact Hf].
  rewrite <- Hp. vm_compute. reflexivity.
Defined.

Lemma configure_records_mappings_witness :
  let s0 := opened 2 (camera MJPG 4 []) in
  let s1 := configure (object_of s0) (world_of s0) in
  exists new,
    trace (world_of s1) = trace (world_of s0) ++ new /\
    Forall (fun region => {| data := fst region; size := snd region |}
                          ∈ buffers_ (object_of s1))
           (mapped_regions new) /\
    unmapped_regions new = [] /\ closed_fds new = [].
Proof.
  cbv zeta.
  pose (s0 := opened 2 (camera MJPG 4 [])).
  pose (s1 := configure (object_of s0) (world_of s0)).
  assert (Hrun : configure (object_of s0) (world_of s0)
                 = (Return tt, object_of s1, world_of s1))
    by (vm_compute; reflexivity).
  assert (Hpool : (Z.to_nat (buffer_count_ (config_ (object_of s0)))
                   <= length (buffers_ (object_of s0)))%nat)
    by (vm_compute; lia).
  exact (proj2 (configure_records_mappings _ _ _ _ _ Hrun Hpool)).
Defined.

Lemma configure_then_destroy_releases_witness :
  let s0 := opened 2 (camera MJPG 4 []) in
  let s1 := configure (object_of s0) (world_of s0) in
  exists new closing,
    trace (world_of s1) = trace (world_of s0) ++ new /\
    trace (V4L2Camera_destroy (object_of s1) (world_of s1))
    = trace (world_of s1) ++ closing /\
    Forall (fun region => fst region <> nullptr -> region ∈ unmapped_regions closing)
           (mapped_regions new) /\
    closed_fds closing = [3].
Proof.
  cbv zeta.
  pose (s0 := opened 2 (camera MJPG 4 [])).
  pose (s1 := configure (object_of s0) (world_of s0)).
  assert (Hrun : configure (object_of s0) (world_of s0)
                 = (Return tt, object_of s1, world_of s1))
    by (vm_compute; reflexivity).
  assert (Hpool : (Z.to_nat (buffer_count_ (config_ (object_of s0)))
                   <= length (buffers_ (object_of s0)))%nat)
    by (vm_compute; lia).
  assert (Hfd : 0 <= fd_ (object_of s0)) by (vm_compute; discriminate).
  exact (configure_then_destroy_releases _ _ _ _ _ Hrun Hpool Hfd).
Defined.

(** The opened engine is asked for a format that is neither MJPEG nor YUYV. *)
Lemma configure_rejects_unsupported_format_witness :
  let RGB3 := 0x33424752 in
  let s0 := open_device (V4L2Camera_new (with_format RGB3 (config 2)))
                        (boot (camera MJPG 4 [])) in
  configure (object_of s0) (world_of s0)
  = (Throw (invalid_argument (Unsupported_pixel_format RGB3)),
     object_of s0, world_of s0).
Proof.
  cbv zeta.
  pose (s0 := open_device (V4L2Camera_new (with_format 0x33424752 (config 2)))
                          (boot (camera MJPG 4 []))).
  assert (Hfd : 0 <= fd_ (object_of s0)) by (vm_compute; discriminate).
  assert (Hcfg : configured_ (object_of s0) = false) by (vm_compute; reflexivity).
  assert (Hfmt : u32 (format_ (config_ (object_of s0))) = 0x33424752)
    by (vm_compute; reflexivity).
  assert (H1 : u32 (format_ (config_ (object_of s0))) <> V4L2_PIX_FMT_MJPEG)
    by (vm_compute; discriminate).
  assert (H2 : u32 (format_ (config_ (object_of s0))) <> V4L2_PIX_FMT_YUYV)
    by (vm_compute; discriminate).
  pose proof (configure_rejects_unsupported_format (object_of s0) (world_of s0)
                Hfd Hcfg H1 H2) as Hthrow.
  rewrite Hfmt in Hthrow. exact Hthrow.
Defined.

(** MJPG is requested from a camera that only produces YUYV: the engine
    stays open and unconfigured. *)
Lemma configure_failure_keeps_engine_witness :
  let s0 := opened 2 (camera YUYV 4 []) in
  let s1 := configure (object_of s0) (world_of s0) in
  configured_ (object_of s1) = false /\
  fd_ (object_of s1) = fd_ (object_of s0) /\
  length (buffers_ (object_of s1)) = length (buffers_ (object_of s0)).
Proof.
  cbv zeta.
  pose (s0 := opened 2 (camera YUYV 4 [])).
  pose (s1 := configure (object_of s0) (world_of s0)).
  assert (Hrun : configure (object_of s0) (world_of s0)
                 = (Throw (runtime_error (Driver_rejected_pixel_format MJPG YUYV)),
                    object_of s1, world_of s1))
    by (vm_compute; reflexivity).
  assert (Hpool : (Z.to_nat (buffer_count_ (config_ (object_of s0)))
                   <= length (buffers_ (object_of s0)))%nat)
    by (vm_compute; lia).
  destruct (configure_failure_keeps_engine _ _ _ _ _ Hrun Hpool)
    as (Hc & _ & Hfd & _ & _ & Hlen).
  fold s0 s1. auto.
Defined.

(** A frame is captured from the started camera. *)
Lemma capture_frame_metadata_witness :
  let s0 := started 2 (camera MJPG 4 [(0, 1000)]) in
  let s1 := capture_frame (object_of s0) (world_of s0) in
  exists v,
    outcome_of s1 = Return v /\
    (width v, height v) = (1280, 720) /\ format v = MJPG.
Proof.
  cbv zeta.
  pose (s0 := started 2 (camera MJPG 4 [(0, 1000)])).
  pose (s1 := capture_frame (object_of s0) (world_of s0)).
  assert (Hcap : exists v, capture_frame (object_of s0) (world_of s0)
                           = (Return v, object_of s1, world_of s1))
    by (eexists; vm_compute; reflexivity).
  destruct Hcap as [v Hcap].
  destruct (capture_frame_metadata _ _ _ _ _ Hcap) as (Hext & Hfmt & _).
  exists v. fold s0. unfold outcome_of. rewrite Hcap.
  split; [reflexivity |]. split; [rewrite Hext | rewrite Hfmt]; vm_compute; reflexivity.
Defined.

Lemma capture_release_cycle_witness :
  let s0 := started 2 (camera MJPG 4 [(1, 1000)]) in
  let s1 := capture_frame (object_of s0) (world_of s0) in
  let s2 := release_frame (object_of s1) (world_of s1) in
  object_of s2 = object_of s0 /\ console (world_of s2) = console (world_of s0).
Proof.
  cbv zeta.
  pose (s0 := started 2 (camera MJPG 4 [(1, 1000)])).
  pose (s1 := capture_frame (object_of s0) (world_of s0)).
  pose (s2 := release_frame (object_of s1) (world_of s1)).
  assert (Hnone : last_buf_index_ (object_of s0) = None) by (vm_compute; reflexivity).
  assert (Hcap : exists v, capture_frame (object_of s0) (world_of s0)
                           = (Return v, object_of s1, world_of s1))
    by (eexists; vm_compute; reflexivity).
  destruct Hcap as [v Hcap].
  assert (Hrel : release_frame (object_of s1) (world_of s1)
                 = (Return tt, object_of s2, world_of s2))
    by (vm_compute; reflexivity).
  destruct (capture_release_cycle _ _ _ _ _ _ _ Hnone Hcap Hrel) as (Hobj & Hcon & _).
  fold s0 s1 s2. split; assumption.
Defined.

(** *** The element on the simulated camera *)

(** The element with its default properties is started on a camera that
    only produces YUYV: the engine opens the node, the driver turns the
    format down, and the node is closed again. *)
Lemma start_failure_releases_witness :
  let s := GstSrc.start true GstSrc.init (boot (camera YUYV 4 [])) in
  exists new,
    trace (snd (fst s)) = new /\
    Forall (fun fd => fd ∈ closed_fds new) (opened_fds new) /\
    Forall (fun region => fst region <> nullptr -> region ∈ unmapped_regions new)
           (mapped_regions new).
Proof.
  cbv zeta.
  pose (s := GstSrc.start true GstSrc.init (boot (camera YUYV 4 []))).
  assert (Hrun : GstSrc.start true GstSrc.init (boot (camera YUYV 4 []))
                 = (Return false, snd (fst (fst s)), snd (fst s), snd s))
    by (vm_compute; reflexivity).
  assert (Hnone : GstSrc.camera (snd (fst (fst s))) = None) by (vm_compute; reflexivity).
  exact (start_failure_releases true GstSrc.init (boot (camera YUYV 4 [])) _ _ _
           eq_refl Hrun Hnone).
Defined.



(** The driver completes a frame of 1000 bytes in buffer 1. *)
Lemma create_pushes_witness :
  let s0 := started 2 (camera MJPG 4 [(1, 1000)]) in
  let self := GstSrc.with_camera (Some (object_of s0)) GstSrc.init in
  exists buffer self' w' log,
    GstSrc.create self (world_of s0)
    = (Return (GstSrc.GST_FLOW_OK, Some buffer), self', w', log) /\
    0 < GstSrc.memory_size buffer <= 16777216 /\
    GstSrc.buffer_offset buffer = 0 /\
    GstSrc.buffer_offset_end buffer = 1 /\
    GstSrc.frame_number self' = 1 /\
    GstSrc.video_meta buffer = None.
Proof.
  cbv zeta.
  pose (s0 := started 2 (camera MJPG 4 [(1, 1000)])).
  pose (self := GstSrc.with_camera (Some (object_of s0)) GstSrc.init).
  assert (Hrun : exists out self' w' log,
             GstSrc.create self (world_of s0)
             = (Return (GstSrc.GST_FLOW_OK, out), self', w', log))
    by (eexists _, _, _, _; vm_compute; reflexivity).
  destruct Hrun as (out & self' & w' & log & Hrun).
  destruct (create_pushes self (world_of s0) (object_of s0) _ _ _ _ eq_refl Hrun)
    as (v & c1 & buffer & rc & buf & now & _ & Hout & _ & _ & _ & _ & _ & Hsize
        & Hoff & Hend & Hfn & _ & _ & Hmeta).
  exists buffer, self', w', log. rewrite Hout in Hrun.
  split; [exact Hrun |]. split; [exact Hsize |]. split; [exact Hoff |].
  split; [rewrite Hend, Hfn; reflexivity |]. split; [rewrite Hfn; reflexivity |].
  rewrite Hmeta. reflexivity.
Defined.

(** Two frames are pushed before either buffer is destroyed: buffer 0 is
    dequeued first, then buffer 1, and the two notifications give back
    buffer 1 only. *)
Lemma create_notify_cycle_witness :
  let s0 := started 2 (camera MJPG 4 [(0, 1000); (1, 1200)]) in
  let self := GstSrc.with_camera (Some (object_of s0)) GstSrc.init in
  exists out self1 w1 log1 out2 self2 w2 log2 cam2,
    GstSrc.create self (world_of s0)
    = (Return (GstSrc.GST_FLOW_OK, out), self1, w1, log1) /\
    GstSrc.create self1 w1
    = (Return (GstSrc.GST_FLOW_OK, out2), self2, w2, log2) /\
    GstSrc.camera self2 = Some cam2 /\
    exists cam3 w3 log3 cam4 w4 log4 calls,
      GstSrc.release_notify cam2 w2 = (Return tt, cam3, w3, log3) /\
      GstSrc.release_notify cam3 w3 = (Return tt, cam4, w4, log4) /\
      trace w4 = trace w2 ++ calls /\
      Forall (fun i => i = 1) (enqueued_indices calls) /\
      ~ In 0 (enqueued_indices calls).
Proof.
  cbv zeta.
  pose (s0 := started 2 (camera MJPG 4 [(0, 1000); (1, 1200)])).
  pose (self := GstSrc.with_camera (Some (object_of s0)) GstSrc.init).
  pose (r1 := GstSrc.create self (world_of s0)).
  pose (self1 := snd (fst (fst r1))). pose (w1 := snd (fst r1)).
  pose (r2 := GstSrc.create self1 w1).
  assert (Hrun : exists out,
             GstSrc.create self (world_of s0)
             = (Return (GstSrc.GST_FLOW_OK, out), self1, w1, snd r1))
    by (eexists; vm_compute; reflexivity).
  destruct Hrun as (out & Hrun).
  assert (Hrun2 : exists out2,
             GstSrc.create self1 w1
             = (Return (GstSrc.GST_FLOW_OK, out2),
                snd (fst (fst r2)), snd (fst r2), snd r2))
    by (eexists; vm_compute; reflexivity).
  destruct Hrun2 as (out2 & Hrun2).
  assert (Hnone : last_buf_index_ (object_of s0) = None) by (vm_compute; reflexivity).
  destruct (create_notify_cycle self (world_of s0) (object_of s0) _ _ _ _
              eq_refl Hnone Hrun)
    as (c1 & rc & buf & now & Hc1 & _ & Hmark & _ & _ & Hsecond).
  destruct (Hsecond _ _ _ _ Hrun2)
    as (cam2 & rc' & buf' & now' & Hcam2 & _ & Hmark' & cam3 & w3 & log3 & cam4 & w4
        & log4 & calls & Hn1 & Hn2 & Ht & _ & Hall & Hnot).
  assert (H0 : u32 (buf_index buf) = 0).
  { assert (Hm : last_buf_index_ c1 = Some 0).
    { assert (Hs : GstSrc.camera self1 = Some c1) by exact Hc1.
      vm_compute in Hs. injection Hs as <-. reflexivity. }
    rewrite Hmark in Hm. now injection Hm. }
  assert (H1 : u32 (buf_index buf') = 1).
  { assert (Hm : last_buf_index_ cam2 = Some 1).
    { assert (Hs : GstSrc.camera (snd (fst (fst r2))) = Some cam2) by exact Hcam2.
      vm_compute in Hs. injection Hs as <-. reflexivity. }
    rewrite Hmark' in Hm. now injection Hm. }
  rewrite H0, H1 in *.
  exists out, self1, w1, (snd r1), out2, (snd (fst (fst r2))), (snd (fst r2)),
    (snd r2), cam2.
  split; [exact Hrun |]. split; [exact Hrun2 |]. split; [exact Hcam2 |].
  exists cam3, w3, log3, cam4, w4, log4, calls.
  split; [exact Hn1 |]. split; [exact Hn2 |]. split; [exact Ht |].
  split; [exact Hall |]. apply Hnot. discriminate.
Defined.

(** An engine is brought up on the camera, captures a frame, releases it,
    captures another and is destroyed with that one outstanding. *)
Lemma lifecycle_releases_everything_witness :
  let s0 := GstSrc.bring_up (V4L2Camera_new (config 2))
                            (boot (camera MJPG 4 [(0, 1000); (1, 1200)])) in
  let s1 := session [Capture; Release; Capture] (object_of s0) (world_of s0) in
  exists new,
    trace (V4L2Camera_destroy (fst s1) (snd s1)) = new /\
    Forall (fun fd => fd ∈ closed_fds new) (opened_fds new) /\
    Forall (fun region => fst region <> nullptr -> region ∈ unmapped_regions new)
           (mapped_regions new).
Proof.
  cbv zeta.
  pose (s0 := GstSrc.bring_up (V4L2Camera_new (config 2))
                              (boot (camera MJPG 4 [(0, 1000); (1, 1200)]))).
  assert (Hrun : GstSrc.bring_up (V4L2Camera_new (config 2))
                                 (boot (camera MJPG 4 [(0, 1000); (1, 1200)]))
                 = (Return tt, object_of s0, world_of s0))
    by (vm_compute; reflexivity).
  assert (Hpool : (Z.to_nat (buffer_count_ (config_ (V4L2Camera_new (config 2))))
                   <= length (buffers_ (V4L2Camera_new (config 2))))%nat)
    by (vm_compute; lia).
  exact (lifecycle_releases_everything _ _ _ _ _ [Capture; Release; Capture]
           Hrun Hpool eq_refl).
Defined.

(** ** The engine on a node that cannot be opened or cannot stream *)

Import Faulty.

(** The node is held by another process. *)
Lemma open_device_cannot_open_witness :
  let c := V4L2Camera_new (Sim.config 2) in
  exists w',
    open_device c (Faulty.boot busy)
    = (Throw (runtime_error (Failed_to_open_device EBUSY)), set_fd (-1) c, w') /\
    console w' = [to_stderr (msg_device_already_in_use "/dev/video0")] /\
    configure (set_fd (-1) c) w' = (Return tt, set_fd (-1) c, w').
Proof.
  cbv zeta.
  assert (E : sys (sys_open (device_path_ (config_ (V4L2Camera_new (Sim.config 2))))
                            O_RDWR)
                  (kernel (Faulty.boot busy))
              = (-1, busy))
    by (vm_compute; reflexivity).
  destruct (open_device_cannot_open _ _ _ _ E ltac:(lia))
    as (w' & Hopen & _ & Hcons & Hconf & _).
  exists w'. split; [exact Hopen |]. split; [exact Hcons | exact Hconf].
Defined.

(** The node opens as descriptor 5 but cannot stream: the descriptor is
    closed when the engine is destroyed. *)
Lemma open_device_keeps_descriptor_on_late_failure_witness :
  let s := open_device (V4L2Camera_new (Sim.config 2)) (Faulty.boot no_streaming) in
  fst (fst s) = Throw (runtime_error No_streaming_io) /\
  exists closing,
    trace (V4L2Camera_destroy (snd (fst s)) (snd s)) = trace (snd s) ++ closing /\
    closed_fds closing = [5].
Proof.
  cbv zeta.
  pose (s := open_device (V4L2Camera_new (Sim.config 2)) (Faulty.boot no_streaming)).
  assert (Hrun : open_device (V4L2Camera_new (Sim.config 2)) (Faulty.boot no_streaming)
                 = (Throw (runtime_error No_streaming_io), snd (fst s), snd s))
    by (vm_compute; reflexivity).
  assert (Hfd : 0 <= fd_ (snd (fst s))) by (vm_compute; discriminate).
  destruct (open_device_keeps_descriptor_on_late_failure _ _ _ _ _ Hrun Hfd)
    as (_ & _ & closing & Hd & Hc).
  fold s. split; [vm_compute; reflexivity |].
  exists closing. split; [exact Hd | exact Hc].
Defined.
